(** * SnipSafe: the snippet access, sharing and presence routes

    A shallow embedding of [server/routes/snippets.js] together with the
    parts of [server/models/Snippet.js] and [server/models/User.js] the
    routes read.  A collection is the list of its documents, a route
    handler is a function from the database (and the request) to the new
    database and the reply, and a reply is a status code with a JSON body. *)

From Stdlib Require Import List String Ascii ZArith Bool Lia.
Import ListNotations.

Open Scope string_scope.
Open Scope Z_scope.
Open Scope list_scope.

(** ** Strings *)

(** A string is the sequence of its UTF-8 bytes.

    [String.prototype.trim] removes white space and line terminators from
    both ends.  Those of one byte are tab, line feed, vertical tab, form
    feed, carriage return and space. *)
Definition is_space (c : ascii) : bool :=
  let n := nat_of_ascii c in
  (Nat.leb 9 n && Nat.leb n 13) || Nat.eqb n 32.

(** The one of two bytes is U+00A0. *)
Definition is_space2 (c1 c2 : ascii) : bool :=
  Nat.eqb (nat_of_ascii c1) 194 && Nat.eqb (nat_of_ascii c2) 160.

(** Those of three bytes are U+1680, U+2000 to U+200A, U+2028, U+2029,
    U+202F, U+205F, U+3000 and U+FEFF. *)
Definition is_space3 (c1 c2 c3 : ascii) : bool :=
  let a := nat_of_ascii c1 in
  let b := nat_of_ascii c2 in
  let c := nat_of_ascii c3 in
  (Nat.eqb a 225 && Nat.eqb b 154 && Nat.eqb c 128)
  || (Nat.eqb a 226 && Nat.eqb b 128
      && ((Nat.leb 128 c && Nat.leb c 138)
          || Nat.eqb c 168 || Nat.eqb c 169 || Nat.eqb c 175))
  || (Nat.eqb a 226 && Nat.eqb b 129 && Nat.eqb c 159)
  || (Nat.eqb a 227 && Nat.eqb b 128 && Nat.eqb c 128)
  || (Nat.eqb a 239 && Nat.eqb b 187 && Nat.eqb c 191).

Fixpoint trimStart (s : string) : string :=
  match s with
  | EmptyString => EmptyString
  | String c1 r1 =>
      if is_space c1 then trimStart r1
      else
        match r1 with
        | EmptyString => s
        | String c2 r2 =>
            if is_space2 c1 c2 then trimStart r2
            else
              match r2 with
              | EmptyString => s
              | String c3 r3 =>
                  if is_space3 c1 c2 c3 then trimStart r3 else s
              end
        end
  end.

(** The string from which [trimStart] leaves nothing is dropped from the
    end. *)
Fixpoint trimEnd (s : string) : string :=
  match s with
  | EmptyString => EmptyString
  | String c r =>
      if String.eqb (trimStart s) EmptyString then EmptyString
      else String c (trimEnd r)
  end.

Definition trim (s : string) : string := trimEnd (trimStart s).

(** [s.length], the number of UTF-16 code units: a byte [10xxxxxx]
    continues a character, a byte [11110xxx] begins a character of two
    units, every other byte begins a character of one. *)
Fixpoint length_utf16 (s : string) : nat :=
  match s with
  | EmptyString => 0
  | String c r =>
      let n := nat_of_ascii c in
      ((if Nat.leb 128 n && Nat.ltb n 192 then 0
        else if Nat.leb 240 n then 2 else 1)
       + length_utf16 r)%nat
  end.

(** [String.prototype.toLowerCase], on the letters A to Z. *)
Definition lower (c : ascii) : ascii :=
  let n := nat_of_ascii c in
  if Nat.leb 65 n && Nat.leb n 90 then ascii_of_nat (n + 32) else c.

Fixpoint toLowerCase (s : string) : string :=
  match s with
  | EmptyString => EmptyString
  | String c r => String (lower c) (toLowerCase r)
  end.

(** ** Numbers

    A [Number] that holds an integer is that integer.  A sum of two of them
    is the exact sum rounded to the nearest double, a tie going to the even
    significand: up to [2^53] in size the sum is exact, beyond it the last
    bits are lost. *)
Definition round_to_double (z : Z) : Z :=
  let a := Z.abs z in
  if a <? 2 ^ 53 then z
  else
    let e := Z.log2 a - 52 in
    let q := Z.shiftr a e in
    let r := a - Z.shiftl q e in
    let half := Z.shiftl 1 (e - 1) in
    let q' :=
      if r <? half then q
      else if half <? r then q + 1
      else if Z.even q then q else q + 1 in
    Z.sgn z * Z.shiftl q' e.

(** [a + b] *)
Definition Number_add (a b : Z) : Z := round_to_double (a + b).

(** ** JSON values, as passed to [res.json] *)

#[warnings="-register-all"]
Inductive json : Type :=
| JNull
| JBool (b : bool)
| JNum (n : Z)
| JStr (s : string)
| JArr (items : list json)
| JObj (fields : list (string * json)).

(** Property read [o.k]; [None] is JavaScript's [undefined]. *)
Fixpoint assoc (k : string) (fields : list (string * json)) : option json :=
  match fields with
  | [] => None
  | (k', v) :: rest => if String.eqb k k' then Some v else assoc k rest
  end.

Definition get (k : string) (o : json) : option json :=
  match o with
  | JObj fields => assoc k fields
  | _ => None
  end.

(** Assignment of one key of an object literal: a key already present keeps
    its place and takes the new value, a new key goes last.  This is how
    [{...a, k: v}] treats [k]. *)
Fixpoint assign (k : string) (v : json) (fields : list (string * json))
  : list (string * json) :=
  match fields with
  | [] => [(k, v)]
  | (k', v') :: rest =>
      if String.eqb k k' then (k, v) :: rest else (k', v') :: assign k v rest
  end.

(** A field that is left out when its value is [undefined]. *)
Definition field {A} (k : string) (f : A -> json) (o : option A)
  : list (string * json) :=
  match o with
  | Some a => [(k, f a)]
  | None => []
  end.

(** ** Documents *)

(** Equality of optional values and of arrays, from that of their
    elements. *)
Definition option_eqb {A} (eqb : A -> A -> bool) (x y : option A) : bool :=
  match x, y with
  | Some a, Some b => eqb a b
  | None, None => true
  | _, _ => false
  end.

Fixpoint list_eqb {A} (eqb : A -> A -> bool) (l l' : list A) : bool :=
  match l, l' with
  | [], [] => true
  | a :: r, b :: r' => eqb a b && list_eqb eqb r r'
  | _, _ => false
  end.

(** An ObjectId is identified with its [toString()], the form in which the
    routes compare it with [req.user.userId] and with path parameters.  The
    [:id] of a path is taken to be a well-formed id. *)
Definition ObjectId := string.

(** A [Date] is its time value, in milliseconds. *)
Definition Date := Z.

Module Visibility.
Inductive t := private | organization | public.

Definition eqb (a b : t) : bool :=
  match a, b with
  | private, private | organization, organization | public, public => true
  | _, _ => false
  end.

Definition toString (v : t) : string :=
  match v with
  | private => "private"
  | organization => "organization"
  | public => "public"
  end.
End Visibility.

Module Permissions.
Inductive t := view | edit.

Definition toString (p : t) : string :=
  match p with
  | view => "view"
  | edit => "edit"
  end.

Definition eqb (a b : t) : bool :=
  match a, b with
  | view, view | edit, edit => true
  | _, _ => false
  end.
End Permissions.

Module Role.
Inductive t := user | admin.
End Role.

(** [server/models/User.js], the paths the snippet routes read. *)
Module User.
Record t := mk {
  _id : ObjectId;
  username : string;
  email : string;
  organization : string;
  role : Role.t;
  isActive : bool
}.
End User.

(** An entry of [sharedWith]. *)
Module Share.
Record t := mk {
  _id : ObjectId;
  user : option ObjectId;
  email : option string;
  permissions : Permissions.t;
  sharedAt : Date;
  sharedBy : option ObjectId
}.

Definition toObject (sh : t) : json :=
  JObj (field "user" JStr (user sh)
        ++ field "email" JStr (email sh)
        ++ [("permissions", JStr (Permissions.toString (permissions sh)));
            ("sharedAt", JNum (sharedAt sh))]
        ++ field "sharedBy" JStr (sharedBy sh)
        ++ [("_id", JStr (_id sh))]).

Definition eqb (a b : t) : bool :=
  String.eqb (_id a) (_id b)
  && option_eqb String.eqb (user a) (user b)
  && option_eqb String.eqb (email a) (email b)
  && Permissions.eqb (permissions a) (permissions b)
  && Z.eqb (sharedAt a) (sharedAt b)
  && option_eqb String.eqb (sharedBy a) (sharedBy b).
End Share.

(** An entry of [currentViewers]. *)
Module Viewer.
Record t := mk {
  _id : ObjectId;
  user : ObjectId;
  lastSeen : Date;
  socketId : option string
}.

Definition eqb (a b : t) : bool :=
  String.eqb (_id a) (_id b)
  && String.eqb (user a) (user b)
  && Z.eqb (lastSeen a) (lastSeen b)
  && option_eqb String.eqb (socketId a) (socketId b).
End Viewer.

(** [server/models/Snippet.js].  [updatedAt] and the version key [__v],
    which the store sets on every save that writes and which a reply with
    the whole document carries, are left out: what is said of a stored
    document or of a reply is said of the other paths.  [views] holds an
    integer. *)
Module Snippet.
Record t := mk {
  _id : ObjectId;
  title : string;
  content : string;
  language : string;
  description : option string;
  author : ObjectId;
  organization : string;
  shareId : string;
  visibility : Visibility.t;
  tags : list string;
  views : Z;
  isActive : bool;
  sharedWith : list Share.t;
  currentViewers : list Viewer.t;
  createdAt : Date
}.

Definition set_views (n : Z) (s : t) : t :=
  mk (_id s) (title s) (content s) (language s) (description s) (author s)
     (organization s) (shareId s) (visibility s) (tags s) n (isActive s)
     (sharedWith s) (currentViewers s) (createdAt s).

Definition set_isActive (b : bool) (s : t) : t :=
  mk (_id s) (title s) (content s) (language s) (description s) (author s)
     (organization s) (shareId s) (visibility s) (tags s) (views s) b
     (sharedWith s) (currentViewers s) (createdAt s).

Definition set_sharedWith (l : list Share.t) (s : t) : t :=
  mk (_id s) (title s) (content s) (language s) (description s) (author s)
     (organization s) (shareId s) (visibility s) (tags s) (views s)
     (isActive s) l (currentViewers s) (createdAt s).

Definition set_currentViewers (l : list Viewer.t) (s : t) : t :=
  mk (_id s) (title s) (content s) (language s) (description s) (author s)
     (organization s) (shareId s) (visibility s) (tags s) (views s)
     (isActive s) (sharedWith s) l (createdAt s).
End Snippet.

(** The request's identity, as the [auth] middleware leaves it in
    [req.user]. *)
Module ReqUser.
Record t := mk {
  userId : ObjectId;
  organization : string;
  role : Role.t
}.
End ReqUser.

(** ** The database *)

Record Db := mkDb {
  snippets : list Snippet.t;
  users : list User.t
}.

Record Response := mkResponse {
  status : nat;
  body : json
}.

(** [res.status(c).json({ error: msg })] *)
Definition error (c : nat) (msg : string) : Response :=
  mkResponse c (JObj [("error", JStr msg)]).

(** [User.findById], as [populate] uses it. *)
Definition User_findById (us : list User.t) (id : ObjectId) : option User.t :=
  find (fun u => String.eqb (User._id u) id) us.

(** [populate(path, select)]: the referenced user with its [_id] and the
    selected paths, [null] when there is no such user. *)
Definition populated (select : list string) (us : list User.t) (id : ObjectId)
  : json :=
  match User_findById us id with
  | Some u =>
      JObj (("_id", JStr (User._id u))
            :: filter (fun kv => existsb (String.eqb (fst kv)) select)
                 [("username", JStr (User.username u));
                  ("email", JStr (User.email u))])
  | None => JNull
  end.

(** [snippet.save()]: the stored document with this [_id] is replaced. *)
Definition save (s : Snippet.t) (db : Db) : Db :=
  mkDb (map (fun d => if String.eqb (Snippet._id d) (Snippet._id s) then s else d)
            (snippets db))
       (users db).

(** ** Queries

    A query object is the list of its conditions, all of which must hold.
    [c_and] and [c_or] are [$and] and [$or] over query objects. *)

Inductive TextPath := p_title | p_description | p_content.

#[warnings="-register-all"]
Inductive Cond : Type :=
| c_id (v : ObjectId)
| c_author (v : ObjectId)
| c_isActive (v : bool)
| c_shareId (v : string)
| c_organization (v : string)
| c_visibility (v : Visibility.t)
| c_language (v : string)
| c_tags_in (vs : list string)
| c_regex (path : TextPath) (test : string -> bool)
| c_and (qs : list (list Cond))
| c_or (qs : list (list Cond)).

Definition Query := list Cond.

Definition text_at (path : TextPath) (s : Snippet.t) : option string :=
  match path with
  | p_title => Some (Snippet.title s)
  | p_description => Snippet.description s
  | p_content => Some (Snippet.content s)
  end.

Fixpoint holds (c : Cond) (s : Snippet.t) : bool :=
  match c with
  | c_id v => String.eqb (Snippet._id s) v
  | c_author v => String.eqb (Snippet.author s) v
  | c_isActive v => Bool.eqb (Snippet.isActive s) v
  | c_shareId v => String.eqb (Snippet.shareId s) v
  | c_organization v => String.eqb (Snippet.organization s) v
  | c_visibility v => Visibility.eqb (Snippet.visibility s) v
  | c_language v => String.eqb (Snippet.language s) v
  | c_tags_in vs =>
      existsb (fun t => existsb (String.eqb t) vs) (Snippet.tags s)
  | c_regex path test =>
      match text_at path s with
      | Some txt => test txt
      | None => false
      end
  | c_and qs => forallb (fun q => forallb (fun c' => holds c' s) q) qs
  | c_or qs => existsb (fun q => forallb (fun c' => holds c' s) q) qs
  end.

Definition matches (q : Query) (s : Snippet.t) : bool :=
  forallb (fun c => holds c s) q.

(** [Snippet.findOne(q)] and [Snippet.find(q)] *)
Definition Snippet_findOne (q : Query) (db : Db) : option Snippet.t :=
  find (matches q) (snippets db).

Definition Snippet_find (q : Query) (db : Db) : list Snippet.t :=
  filter (matches q) (snippets db).

(** ** Rendering of a snippet document

    [author] and [viewer] render the reference paths [author] and
    [currentViewers.user]: as the id where the document was not populated,
    as the populated user (or [null]) where it was. *)

Definition Viewer_toObject (viewer : ObjectId -> json) (v : Viewer.t) : json :=
  JObj ([("user", viewer (Viewer.user v));
         ("lastSeen", JNum (Viewer.lastSeen v))]
        ++ field "socketId" JStr (Viewer.socketId v)
        ++ [("_id", JStr (Viewer._id v))]).

Definition Snippet_toObject (author viewer : ObjectId -> json) (s : Snippet.t)
  : list (string * json) :=
  [("_id", JStr (Snippet._id s));
   ("title", JStr (Snippet.title s));
   ("content", JStr (Snippet.content s));
   ("language", JStr (Snippet.language s))]
  ++ field "description" JStr (Snippet.description s)
  ++ [("author", author (Snippet.author s));
      ("organization", JStr (Snippet.organization s));
      ("shareId", JStr (Snippet.shareId s));
      ("visibility", JStr (Visibility.toString (Snippet.visibility s)));
      ("tags", JArr (map JStr (Snippet.tags s)));
      ("views", JNum (Snippet.views s));
      ("isActive", JBool (Snippet.isActive s));
      ("sharedWith", JArr (map Share.toObject (Snippet.sharedWith s)));
      ("currentViewers",
        JArr (map (Viewer_toObject viewer) (Snippet.currentViewers s)));
      ("createdAt", JNum (Snippet.createdAt s))].

(** [populate('author', 'username')] and
    [populate('currentViewers.user', 'username email')] *)
Definition author_username (us : list User.t) (id : ObjectId) : json :=
  populated ["username"] us id.

Definition viewer_user (us : list User.t) (id : ObjectId) : json :=
  populated ["username"; "email"] us id.

(** ** Presence *)

(** [snippetSchema.methods.cleanupViewers], at clock reading [now]: the
    document with the old viewers dropped, and the database after its
    [save].  The viewers and the get-by-id routes call it on a populated
    document, whose [save] writes the ids of the populated users back: the
    entries of the model where the users of the viewers are stored.  For a
    viewer whose user is gone [populate] gives [null], which an entry of
    the model does not hold; what is said of the store these two routes
    leave is said for snippets whose viewers are stored users. *)
Definition fiveMinutesAgo (now : Date) : Date := now - 5 * 60 * 1000.

Definition cleanupViewers (now : Date) (s : Snippet.t) (db : Db)
  : Snippet.t * Db :=
  let s' :=
    Snippet.set_currentViewers
      (filter (fun viewer => fiveMinutesAgo now <? Viewer.lastSeen viewer)
              (Snippet.currentViewers s))
      s in
  (s', save s' db).

(** The entry of the reply's [currentViewers] for one viewer. *)
Definition viewerInfo (us : list User.t) (viewer : Viewer.t) : json :=
  JObj [("user", viewer_user us (Viewer.user viewer));
        ("lastSeen", JNum (Viewer.lastSeen viewer));
        ("isOnline", JBool true)].

(** [share.user && share.user.toString() === req.user.userId] *)
Definition names_user (uid : ObjectId) (share : Share.t) : bool :=
  match Share.user share with
  | Some u => String.eqb u uid
  | None => false
  end.

(** ** Route handlers

    Every handler takes what it reads from the request and the database,
    and returns the database it leaves and the reply it sends.  [now] is the
    reading of the clock. *)

(** [router.get('/:id/viewers', auth, ...)] *)
Definition get_viewers (now : Date) (user : ReqUser.t) (id : ObjectId) (db : Db)
  : Db * Response :=
  match Snippet_findOne [c_id id; c_isActive true] db with
  | None => (db, error 404 "Snippet not found")
  | Some snippet =>
      let (snippet, db) := cleanupViewers now snippet db in
      (db,
       mkResponse 200
         (JObj [("currentViewers",
                  JArr (map (viewerInfo (users db))
                            (Snippet.currentViewers snippet)))]))
  end.

(** The message of the [TypeError] raised by [snippet.author._id] when the
    populated author is [null]; the handler's [catch] sends it with 500. *)
Definition null_author : string :=
  "Cannot read properties of null (reading '_id')".

(** [router.get('/:id', auth, ...)] *)
Definition get_by_id (now : Date) (user : ReqUser.t) (id : ObjectId) (db : Db)
  : Db * Response :=
  match Snippet_findOne [c_id id; c_isActive true] db with
  | None => (db, error 404 "Snippet not found")
  | Some snippet =>
      match User_findById (users db) (Snippet.author snippet) with
      | None => (db, error 500 null_author)
      | Some author =>
          let isAuthor := String.eqb (User._id author) (ReqUser.userId user) in
          let isSharedUser :=
            existsb (names_user (ReqUser.userId user))
                    (Snippet.sharedWith snippet) in
          let hasOrgAccess :=
            Visibility.eqb (Snippet.visibility snippet) Visibility.organization
            && String.eqb (Snippet.organization snippet)
                          (ReqUser.organization user) in
          let isPublic :=
            Visibility.eqb (Snippet.visibility snippet) Visibility.public in
          let granted (_ : unit) :=
            let (snippet, db) := cleanupViewers now snippet db in
            let sharingInfo :=
              if isSharedUser then
                let shareEntry :=
                  find (names_user (ReqUser.userId user))
                       (Snippet.sharedWith snippet) in
                JObj (field "permissions"
                        (fun e => JStr (Permissions.toString (Share.permissions e)))
                        shareEntry
                      ++ field "sharedAt" (fun e => JNum (Share.sharedAt e))
                           shareEntry)
              else JNull in
            (db,
             mkResponse 200
               (JObj
                  (assign "currentViewers"
                     (JArr (map (viewerInfo (users db))
                                (Snippet.currentViewers snippet)))
                     (assign "sharingInfo" sharingInfo
                        (Snippet_toObject (author_username (users db))
                           (viewer_user (users db)) snippet))))) in
          if negb isAuthor && negb isSharedUser && negb hasOrgAccess
             && negb isPublic
          then
            if Visibility.eqb (Snippet.visibility snippet) Visibility.private
            then (db, error 403 "Access denied")
            else granted tt
          else granted tt
      end
  end.

(** [router.get('/share/:shareId', optionalAuth, ...)].  [user] is
    [req.user], absent for an anonymous request. *)
Definition get_by_shareId (user : option ReqUser.t) (shareId : string) (db : Db)
  : Db * Response :=
  match Snippet_findOne [c_shareId shareId; c_isActive true] db with
  | None => (db, error 404 "Snippet not found")
  | Some snippet =>
      let outsider :=
        match user with
        | None => true
        | Some u =>
            negb (String.eqb (Snippet.organization snippet)
                             (ReqUser.organization u))
        end in
      let denied :=
        error 403
          "Access denied. This snippet is only accessible to members of the same organization." in
      let granted (_ : unit) :=
        let snippet :=
          Snippet.set_views (Number_add (Snippet.views snippet) 1) snippet in
        let db := save snippet db in
        (db,
         mkResponse 200
           (JObj (Snippet_toObject (author_username (users db)) JStr snippet))) in
      match Snippet.visibility snippet with
      | Visibility.private => if outsider then (db, denied) else granted tt
      | Visibility.organization => if outsider then (db, denied) else granted tt
      | Visibility.public => granted tt
      end
  end.

(** The body of an update request, read through the schema: a path of the
    schema that the body names carries its value, cast to the path's type.
    Keys outside the schema are dropped by the document, and [createdAt]
    is immutable. *)
Module UpdateBody.
Record t := mk {
  title : option string;
  content : option string;
  language : option string;
  description : option string;
  author : option ObjectId;
  organization : option string;
  shareId : option string;
  visibility : option Visibility.t;
  tags : option (list string);
  views : option Z;
  isActive : option bool;
  sharedWith : option (list Share.t);
  currentViewers : option (list Viewer.t);
  _id : option ObjectId
}.
End UpdateBody.

Definition or_else {A} (o : option A) (d : A) : A :=
  match o with
  | Some a => a
  | None => d
  end.

(** [Object.assign(snippet, req.body)]: every path the body names is set on
    the document, [_id] among them.  The schema trims [title] and each tag
    when they are set. *)
Definition Object_assign (snippet : Snippet.t) (b : UpdateBody.t) : Snippet.t :=
  Snippet.mk
    (or_else (UpdateBody._id b) (Snippet._id snippet))
    (or_else (option_map trim (UpdateBody.title b)) (Snippet.title snippet))
    (or_else (UpdateBody.content b) (Snippet.content snippet))
    (or_else (UpdateBody.language b) (Snippet.language snippet))
    (match UpdateBody.description b with
     | Some d => Some d
     | None => Snippet.description snippet
     end)
    (or_else (UpdateBody.author b) (Snippet.author snippet))
    (or_else (UpdateBody.organization b) (Snippet.organization snippet))
    (or_else (UpdateBody.shareId b) (Snippet.shareId snippet))
    (or_else (UpdateBody.visibility b) (Snippet.visibility snippet))
    (or_else (option_map (map trim) (UpdateBody.tags b)) (Snippet.tags snippet))
    (or_else (UpdateBody.views b) (Snippet.views snippet))
    (or_else (UpdateBody.isActive b) (Snippet.isActive snippet))
    (or_else (UpdateBody.sharedWith b) (Snippet.sharedWith snippet))
    (or_else (UpdateBody.currentViewers b) (Snippet.currentViewers snippet))
    (Snippet.createdAt snippet).

(** A path is modified when the value set is not the value it had. *)
Definition changed {A} (eqb : A -> A -> bool) (v : option A) (had : A)
  : option A :=
  match v with
  | Some x => if eqb x had then None else Some x
  | None => None
  end.

(** The modified paths of the document after [Object.assign], with the
    values set: what [save] writes. *)
Definition modified (stored : Snippet.t) (b : UpdateBody.t) : UpdateBody.t :=
  UpdateBody.mk
    (changed String.eqb (option_map trim (UpdateBody.title b))
             (Snippet.title stored))
    (changed String.eqb (UpdateBody.content b) (Snippet.content stored))
    (changed String.eqb (UpdateBody.language b) (Snippet.language stored))
    (match UpdateBody.description b with
     | Some d =>
         if option_eqb String.eqb (Some d) (Snippet.description stored)
         then None else Some d
     | None => None
     end)
    (changed String.eqb (UpdateBody.author b) (Snippet.author stored))
    (changed String.eqb (UpdateBody.organization b)
             (Snippet.organization stored))
    (changed String.eqb (UpdateBody.shareId b) (Snippet.shareId stored))
    (changed Visibility.eqb (UpdateBody.visibility b)
             (Snippet.visibility stored))
    (changed (list_eqb String.eqb) (option_map (map trim) (UpdateBody.tags b))
             (Snippet.tags stored))
    (changed Z.eqb (UpdateBody.views b) (Snippet.views stored))
    (changed Bool.eqb (UpdateBody.isActive b) (Snippet.isActive stored))
    (changed (list_eqb Share.eqb) (UpdateBody.sharedWith b)
             (Snippet.sharedWith stored))
    (changed (list_eqb Viewer.eqb) (UpdateBody.currentViewers b)
             (Snippet.currentViewers stored))
    (changed String.eqb (UpdateBody._id b) (Snippet._id stored)).

(** The schema's validators, run by [save]: [title], [content] and
    [organization] are required, and [title], [content] and [description]
    are bounded in length.  [author] is required too; it is an id by its
    type.  [visibility] is in its enum by its type. *)
Definition validators (s : Snippet.t) : bool :=
  negb (String.eqb (Snippet.title s) "")
  && (Z.of_nat (length_utf16 (Snippet.title s)) <=? 200)
  && negb (String.eqb (Snippet.content s) "")
  && (Z.of_nat (length_utf16 (Snippet.content s)) <=? 100000)
  && negb (String.eqb (Snippet.organization s) "")
  && match Snippet.description s with
     | Some d => (Z.of_nat (length_utf16 d) <=? 1000)
     | None => true
     end.

(** The message of the [ValidationError] that [save] throws, which the
    handler's [catch] sends with 500: the failed paths, the required ones
    first, each with the message of its validator. *)
Definition is_required (path : string) : string :=
  path ++ ": Path `" ++ path ++ "` is required.".

Definition is_longer (path value : string) (maxlength : string) : string :=
  path ++ ": Path `" ++ path ++ "` (`" ++ value
  ++ "`) is longer than the maximum allowed length (" ++ maxlength ++ ").".

Definition ValidationError_message (s : Snippet.t) : string :=
  "Snippet validation failed: "
  ++ String.concat ", "
       ((if String.eqb (Snippet.title s) "" then [is_required "title"]
         else if (Z.of_nat (length_utf16 (Snippet.title s)) <=? 200) then []
         else [is_longer "title" (Snippet.title s) "200"])
        ++ (if String.eqb (Snippet.content s) "" then [is_required "content"]
            else if (Z.of_nat (length_utf16 (Snippet.content s)) <=? 100000) then []
            else [is_longer "content" (Snippet.content s) "100000"])
        ++ (if String.eqb (Snippet.organization s) ""
            then [is_required "organization"] else [])
        ++ match Snippet.description s with
           | Some d =>
               if (Z.of_nat (length_utf16 d) <=? 1000) then []
               else [is_longer "description" d "1000"]
           | None => []
           end).

(** The unique index on [shareId]: the store refuses a write that changes
    the [shareId] of [old] into one that another document has.  The
    message of its error begins [E11000 duplicate key error] and goes on
    with the collection, the index and the key; the replies of the model
    carry the beginning. *)
Definition duplicate_shareId (old new : Snippet.t) (db : Db) : bool :=
  negb (String.eqb (Snippet.shareId new) (Snippet.shareId old))
  && existsb (fun d => negb (String.eqb (Snippet._id d) (Snippet._id new))
                       && String.eqb (Snippet.shareId d) (Snippet.shareId new))
             (snippets db).

(** [router.put('/:id', auth, ...)].  [save] sets the modified paths on
    the document that has the [_id] of [snippet]: the one that was found,
    unless the body gave another [_id]; then it is the document of that
    [_id] that is written, and [save] throws when there is none, with a
    message that begins [No document found for query] and goes on with the
    query.  The reply is the document in memory. *)
Definition put (user : ReqUser.t) (id : ObjectId) (req_body : UpdateBody.t)
    (db : Db) : Db * Response :=
  match Snippet_findOne
          [c_id id; c_author (ReqUser.userId user); c_isActive true] db with
  | None => (db, error 404 "Snippet not found")
  | Some stored =>
      let snippet := Object_assign stored req_body in
      let reply (db : Db) :=
        mkResponse 200
          (JObj (Snippet_toObject (author_username (users db)) JStr snippet)) in
      if validators snippet then
        if String.eqb (Snippet._id snippet) (Snippet._id stored) then
          if duplicate_shareId stored snippet db then
            (db, error 500 "E11000 duplicate key error")
          else
            let db := save snippet db in
            (db, reply db)
        else
          match Snippet_findOne [c_id (Snippet._id snippet)] db with
          | None => (db, error 500 "No document found for query")
          | Some target =>
              let written := Object_assign target (modified stored req_body) in
              if duplicate_shareId target written db then
                (db, error 500 "E11000 duplicate key error")
              else
                let db := save written db in
                (db, reply db)
          end
      else (db, error 500 (ValidationError_message snippet))
  end.

(** [router.delete('/:id', auth, ...)] *)
Definition delete (user : ReqUser.t) (id : ObjectId) (db : Db)
  : Db * Response :=
  match Snippet_findOne [c_id id; c_author (ReqUser.userId user)] db with
  | None => (db, error 404 "Snippet not found")
  | Some snippet =>
      let snippet := Snippet.set_isActive false snippet in
      (save snippet db,
       mkResponse 200 (JObj [("message", JStr "Snippet deleted")]))
  end.

(** *** Sharing *)

Module ShareBody.
Record t := mk {
  emails : list string;
  usernames : list string;
  permissions : option Permissions.t
}.
End ShareBody.

(** [User.findOne({ email, isActive: true })].  The value asked for goes
    through the setters of the path, which [userSchema] declares with
    [trim] and [lowercase]. *)
Definition User_findOne_email (us : list User.t) (email : string)
  : option User.t :=
  find (fun u => String.eqb (User.email u) (toLowerCase (trim email))
                 && User.isActive u) us.

(** [User.findOne({ username, organization, isActive: true })]; both
    paths are declared with [trim]. *)
Definition User_findOne_username (us : list User.t)
    (username organization : string) : option User.t :=
  find (fun u => String.eqb (User.username u) (trim username)
                 && String.eqb (User.organization u) (trim organization)
                 && User.isActive u) us.

(** What the two loops of the share route carry: the ledger of the
    document and the two lists of the reply. *)
Record Sharing := mkSharing {
  ledger : list Share.t;
  sharedUsers : list json;
  notFoundUsers : list json
}.

Section Share_loops.
Variable us : list User.t.
Variable user : ReqUser.t.
Variable permissions : Permissions.t.
Variable now : Date.
(** [oid k] is the [_id] given to the [k]-th entry pushed by the request. *)
Variable oid : nat -> ObjectId.

Definition alreadyShared_email (found : option User.t) (email : string)
    (share : Share.t) : bool :=
  match Share.user share, found with
  | Some su, Some u => String.eqb su (User._id u)
  | _, _ => false
  end
  || match Share.email share with
     | Some se => String.eqb se (trim email)
     | None => false
     end.

(** The body of [for (const email of emails)] *)
Definition share_email (st : Sharing) (email : string) : Sharing :=
  let found := User_findOne_email us (trim email) in
  let alreadyShared :=
    existsb (alreadyShared_email found email) (ledger st) in
  let st :=
    if negb alreadyShared then
      mkSharing
        (ledger st
         ++ [Share.mk (oid (List.length (sharedUsers st)))
               (option_map User._id found) (Some (trim email)) permissions
               now (Some (ReqUser.userId user))])
        (sharedUsers st
         ++ [JObj [("email", JStr (trim email));
                   ("found",
                     JBool match found with Some _ => true | None => false end)]])
        (notFoundUsers st)
    else st in
  match found with
  | Some _ => st
  | None =>
      mkSharing (ledger st) (sharedUsers st)
        (notFoundUsers st
         ++ [JObj [("type", JStr "email"); ("value", JStr (trim email))]])
  end.

(** The body of [for (const username of usernames)] *)
Definition share_username (st : Sharing) (username : string) : Sharing :=
  match User_findOne_username us (trim username)
          (ReqUser.organization user) with
  | Some u =>
      let alreadyShared := existsb (names_user (User._id u)) (ledger st) in
      if negb alreadyShared then
        mkSharing
          (ledger st
           ++ [Share.mk (oid (List.length (sharedUsers st)))
                 (Some (User._id u)) (Some (User.email u)) permissions
                 now (Some (ReqUser.userId user))])
          (sharedUsers st
           ++ [JObj [("username", JStr (trim username));
                     ("email", JStr (User.email u));
                     ("found", JBool true)]])
          (notFoundUsers st)
      else st
  | None =>
      mkSharing (ledger st) (sharedUsers st)
        (notFoundUsers st
         ++ [JObj [("type", JStr "username");
                   ("value", JStr (trim username))]])
  end.

Definition share_all (emails usernames : list string) (l : list Share.t)
  : Sharing :=
  fold_left share_username usernames
    (fold_left share_email emails (mkSharing l [] [])).
End Share_loops.

(** [router.post('/:id/share', auth, ...)] *)
Definition post_share (now : Date) (oid : nat -> ObjectId) (user : ReqUser.t)
    (id : ObjectId) (req_body : ShareBody.t) (db : Db) : Db * Response :=
  let permissions :=
    or_else (ShareBody.permissions req_body) Permissions.view in
  match Snippet_findOne
          [c_id id; c_author (ReqUser.userId user); c_isActive true] db with
  | None => (db, error 404 "Snippet not found or access denied")
  | Some snippet =>
      let st :=
        share_all (users db) user permissions now oid
          (ShareBody.emails req_body) (ShareBody.usernames req_body)
          (Snippet.sharedWith snippet) in
      let snippet := Snippet.set_sharedWith (ledger st) snippet in
      (save snippet db,
       mkResponse 200
         (JObj [("message", JStr "Snippet shared successfully");
                ("sharedWith", JArr (sharedUsers st));
                ("notFound", JArr (notFoundUsers st));
                ("totalSharedUsers",
                  JNum (Z.of_nat (List.length (Snippet.sharedWith snippet))))]))
  end.

(** [router.delete('/:id/share/:shareEntryId', auth, ...)] *)
Definition delete_share (user : ReqUser.t) (id : ObjectId)
    (shareEntryId : string) (db : Db) : Db * Response :=
  match Snippet_findOne
          [c_id id; c_author (ReqUser.userId user); c_isActive true] db with
  | None => (db, error 404 "Snippet not found or access denied")
  | Some snippet =>
      let snippet :=
        Snippet.set_sharedWith
          (filter (fun share => negb (String.eqb (Share._id share) shareEntryId))
                  (Snippet.sharedWith snippet))
          snippet in
      (save snippet db,
       mkResponse 200
         (JObj [("message", JStr "User removed from sharing list")]))
  end.

(** *** Presence routes *)

(** [router.post('/:id/join-view', auth, ...)].  [now] is the clock at
    [new Date()], [now'] the clock when [cleanupViewers] runs; [oid] is the
    [_id] of the pushed entry. *)
Definition join_view (now now' : Date) (oid : ObjectId) (user : ReqUser.t)
    (id : ObjectId) (socketId : option string) (db : Db) : Db * Response :=
  match Snippet_findOne [c_id id; c_isActive true] db with
  | None => (db, error 404 "Snippet not found")
  | Some snippet =>
      let isAuthor :=
        String.eqb (Snippet.author snippet) (ReqUser.userId user) in
      let isSharedUser :=
        existsb (names_user (ReqUser.userId user))
                (Snippet.sharedWith snippet) in
      let hasOrgAccess :=
        Visibility.eqb (Snippet.visibility snippet) Visibility.organization
        && String.eqb (Snippet.organization snippet)
                      (ReqUser.organization user) in
      let isPublic :=
        Visibility.eqb (Snippet.visibility snippet) Visibility.public in
      if negb isAuthor && negb isSharedUser && negb hasOrgAccess
         && negb isPublic
      then (db, error 403 "Access denied")
      else
        let snippet :=
          Snippet.set_currentViewers
            (filter (fun viewer =>
                       negb (String.eqb (Viewer.user viewer)
                                        (ReqUser.userId user)))
                    (Snippet.currentViewers snippet))
            snippet in
        let snippet :=
          Snippet.set_currentViewers
            (Snippet.currentViewers snippet
             ++ [Viewer.mk oid (ReqUser.userId user) now socketId])
            snippet in
        let (snippet, db) := cleanupViewers now' snippet db in
        (db,
         mkResponse 200
           (JObj [("message", JStr "Joined snippet viewing");
                  ("currentViewers",
                    JArr (map (viewerInfo (users db))
                              (Snippet.currentViewers snippet)))]))
  end.

(** [router.post('/:id/leave-view', auth, ...)] *)
Definition leave_view (user : ReqUser.t) (id : ObjectId) (db : Db)
  : Db * Response :=
  match Snippet_findOne [c_id id; c_isActive true] db with
  | None => (db, error 404 "Snippet not found")
  | Some snippet =>
      let snippet :=
        Snippet.set_currentViewers
          (filter (fun viewer =>
                     negb (String.eqb (Viewer.user viewer)
                                      (ReqUser.userId user)))
                  (Snippet.currentViewers snippet))
          snippet in
      (save snippet db,
       mkResponse 200 (JObj [("message", JStr "Left snippet viewing")]))
  end.

(** *** Search *)

(** [s.split(',')] *)
Fixpoint split_comma (s : string) : list string :=
  match s with
  | EmptyString => [EmptyString]
  | String c r =>
      if Ascii.eqb c ","%char then EmptyString :: split_comma r
      else
        match split_comma r with
        | [] => [String c EmptyString]
        | w :: ws => String c w :: ws
        end
  end.

Module SearchParams.
(** [req.query], the parameters that select documents.  [page] and
    [limit] only cut the page of the reply out of the selected
    documents. *)
Record t := mk {
  q : option string;
  language : option string;
  tags : option string;
  author : option string
}.
End SearchParams.

(** [x && x.trim()] on a query parameter *)
Definition given (x : option string) : option string :=
  match x with
  | Some s =>
      if String.eqb s "" then None
      else if String.eqb (trim s) "" then None else Some (trim s)
  | None => None
  end.

(** How the search route goes on once its conditions are built: with a
    query, with the early empty reply [{ snippets: [], total: 0 }], or into
    its [catch] with an exception. *)
Inductive SearchPlan :=
| plan_find (query : Query)
| plan_empty
| plan_throw.

(** The [$or] of the search and stats queries, under the comment
    "Visibility permissions". *)
Definition visibility_permissions (user : ReqUser.t) : Cond :=
  c_or [[c_visibility Visibility.public];
        [c_visibility Visibility.organization];
        [c_visibility Visibility.private; c_author (ReqUser.userId user)]].

Section Search.
(** [new RegExp(pattern, 'i')]: the test of the compiled expression, or
    nothing when the pattern is not a regular expression and the
    constructor throws. *)
Variable RegExp : string -> option (string -> bool).

(** [User.findOne({ username: regex, organization })] *)
Definition User_findOne_like (us : list User.t) (test : string -> bool)
    (organization : string) : option User.t :=
  find (fun u => test (User.username u)
                 && String.eqb (User.organization u) (trim organization)) us.

Definition text_condition (p : SearchParams.t) : option (option Cond) :=
  match given (SearchParams.q p) with
  | Some pattern =>
      match RegExp pattern with
      | Some searchRegex =>
          Some (Some (c_or [[c_regex p_title searchRegex];
                            [c_regex p_description searchRegex];
                            [c_regex p_content searchRegex]]))
      | None => None
      end
  | None => Some None
  end.

Definition language_condition (p : SearchParams.t) : option Cond :=
  match SearchParams.language p with
  | Some language =>
      if String.eqb language "" || String.eqb language "all" then None
      else Some (c_language language)
  | None => None
  end.

Definition tags_condition (p : SearchParams.t) : option Cond :=
  match SearchParams.tags p with
  | Some tags =>
      if String.eqb tags "" || String.eqb (trim tags) "" then None
      else
        let tagList :=
          filter (fun tag => negb (String.eqb tag ""))
                 (map trim (split_comma tags)) in
        match tagList with
        | [] => None
        | _ => Some (c_tags_in tagList)
        end
  | None => None
  end.

Definition opt_list {A} (o : option A) : list A :=
  match o with
  | Some a => [a]
  | None => []
  end.

(** The query the search route builds for [req.user] and [req.query]. *)
Definition search_plan (user : ReqUser.t) (p : SearchParams.t) (db : Db)
  : SearchPlan :=
  match text_condition p with
  | None => plan_throw
  | Some text =>
      let searchConditions :=
        opt_list text ++ opt_list (language_condition p)
        ++ opt_list (tags_condition p) in
      let finish (searchConditions : list Cond) :=
        plan_find
          ([c_organization (ReqUser.organization user); c_isActive true]
           ++ match searchConditions with
              | [] => []
              | _ => [c_and (map (fun c => [c]) searchConditions)]
              end
           ++ [visibility_permissions user]) in
      match given (SearchParams.author p) with
      | Some pattern =>
          match RegExp pattern with
          | None => plan_throw
          | Some test =>
              match User_findOne_like (users db) test
                      (ReqUser.organization user) with
              | Some authorUser =>
                  finish (searchConditions ++ [c_author (User._id authorUser)])
              | None => plan_empty
              end
          end
      | None => finish searchConditions
      end
  end.

(** The documents the search selects: [Snippet.find(query)] before
    [sort], [limit] and [skip], the documents [total] counts. *)
Definition search (user : ReqUser.t) (p : SearchParams.t) (db : Db)
  : option (list Snippet.t) :=
  match search_plan user p db with
  | plan_find query => Some (Snippet_find query db)
  | plan_empty => Some []
  | plan_throw => None
  end.
End Search.

(** ** The access rules as the specification words them *)

Module Evaluator.
Inductive Operation := read | update | delete | manage_sharing | join_presence.
Inductive Reason := not_found | forbidden.
Inductive Decision := ALLOW | DENY (reason : Reason).

(** The two ways a read reaches a snippet, which rule 7 tells apart. *)
Inductive Path := by_id | by_shareId.

Definition is_read_or_join (op : Operation) : bool :=
  match op with
  | read | join_presence => true
  | _ => false
  end.

Definition owner_only (op : Operation) : bool :=
  match op with
  | manage_sharing | delete => true
  | _ => false
  end.

(** A grant that names the requester, and one that names them with
    permission [edit]. *)
Definition granted (uid : ObjectId) (s : Snippet.t) : bool :=
  existsb (names_user uid) (Snippet.sharedWith s).

Definition granted_edit (uid : ObjectId) (s : Snippet.t) : bool :=
  existsb (fun g => names_user uid g
                    && match Share.permissions g with
                       | Permissions.edit => true
                       | Permissions.view => false
                       end)
          (Snippet.sharedWith s).

Definition same_organization (requester : option ReqUser.t) (s : Snippet.t)
  : bool :=
  match requester with
  | Some r => String.eqb (ReqUser.organization r) (Snippet.organization s)
  | None => false
  end.

(** The decision function [decide] of section 4.1 of the specification, in
    the specification's words: its eight rules in their order, the first
    that matches deciding.  The routes have no such function, each makes
    its own test; this one is what the query of the search route is
    compared with. *)
Definition decide (path : Path) (s : Snippet.t)
    (requester : option ReqUser.t) (op : Operation) : Decision :=
  let uid := option_map ReqUser.userId requester in
  let is_owner :=
    match uid with
    | Some u => String.eqb u (Snippet.author s)
    | None => false
    end in
  let has_grant :=
    match uid with
    | Some u => granted u s
    | None => false
    end in
  let has_edit_grant :=
    match uid with
    | Some u => granted_edit u s
    | None => false
    end in
  (* 1 *)
  if negb (Snippet.isActive s) then DENY not_found
  (* 2 *)
  else if is_owner then ALLOW
  (* 3 *)
  else if owner_only op then DENY forbidden
  (* 4 *)
  else if has_grant && is_read_or_join op then ALLOW
  else if has_edit_grant
          && match op with update => true | _ => false end then ALLOW
  (* 5 *)
  else if Visibility.eqb (Snippet.visibility s) Visibility.public
          && is_read_or_join op then ALLOW
  (* 6 *)
  else if Visibility.eqb (Snippet.visibility s) Visibility.organization
          && same_organization requester s && is_read_or_join op then ALLOW
  (* 7 *)
  else if Visibility.eqb (Snippet.visibility s) Visibility.private
          && match path with by_shareId => true | by_id => false end
          && same_organization requester s
          && match op with read => true | _ => false end then ALLOW
  (* 7, by id, and 8 *)
  else DENY forbidden.

Definition allows (d : Decision) : bool :=
  match d with
  | ALLOW => true
  | DENY _ => false
  end.

(** Evaluating the read decision per record over the requester's
    organization. *)
Definition readable (user : ReqUser.t) (db : Db) : list Snippet.t :=
  filter (fun s =>
            String.eqb (Snippet.organization s) (ReqUser.organization user)
            && allows (decide by_id s (Some user) read))
         (snippets db).

(** The same with the share grants left out of account. *)
Definition readable_ungranted (user : ReqUser.t) (db : Db)
  : list Snippet.t :=
  filter (fun s =>
            String.eqb (Snippet.organization s) (ReqUser.organization user)
            && allows (decide by_id (Snippet.set_sharedWith [] s)
                              (Some user) read))
         (snippets db).
End Evaluator.

(** ** Notions used in the statements *)

(** The entries of a ledger for an e-mail address. *)
Definition has_email (e : string) (share : Share.t) : bool :=
  match Share.email share with
  | Some se => String.eqb se e
  | None => false
  end.

Definition entries_for (e : string) (l : list Share.t) : nat :=
  List.length (filter (has_email e) l).

(** The address [e] is covered by a ledger when the test of the e-mail loop
    answers that it is already shared. *)
Definition covered (us : list User.t) (e : string) (l : list Share.t) : bool :=
  existsb (alreadyShared_email (User_findOne_email us (trim e)) e) l.

(** The requests without search parameters. *)
Definition no_params : SearchParams.t := SearchParams.mk None None None None.

(** The condition under which the join route goes on to record the viewer. *)
Definition may_join (user : ReqUser.t) (snippet : Snippet.t) : bool :=
  String.eqb (Snippet.author snippet) (ReqUser.userId user)
  || existsb (names_user (ReqUser.userId user)) (Snippet.sharedWith snippet)
  || (Visibility.eqb (Snippet.visibility snippet) Visibility.organization
      && String.eqb (Snippet.organization snippet) (ReqUser.organization user))
  || Visibility.eqb (Snippet.visibility snippet) Visibility.public.

(** The reply of the share-link route to a requester outside the
    organization. *)
Definition outside_organization : Response :=
  error 403
    "Access denied. This snippet is only accessible to members of the same organization.".

(** ** A small installation

    Two organizations, three users and three snippets of the first user:
    one visible to her organization, one private, one deleted. *)

Module Sample.
(** Ids, as the store makes them: users [u], snippets [s], grants [g],
    viewer entries [v]. *)
Definition u1 : ObjectId := "66f1a0000000000000000001".
Definition u2 : ObjectId := "66f1a0000000000000000002".
Definition u3 : ObjectId := "66f1a0000000000000000003".
Definition s1 : ObjectId := "66f1b0000000000000000001".
Definition s2 : ObjectId := "66f1b0000000000000000002".
Definition s3 : ObjectId := "66f1b0000000000000000003".
Definition g0 : ObjectId := "66f1c0000000000000000000".
Definition g1 : ObjectId := "66f1c0000000000000000001".
Definition g2 : ObjectId := "66f1c0000000000000000002".
Definition g7 : ObjectId := "66f1c0000000000000000007".
Definition v1 : ObjectId := "66f1d0000000000000000001".
Definition v2 : ObjectId := "66f1d0000000000000000002".
Definition v3 : ObjectId := "66f1d0000000000000000003".
Definition v8 : ObjectId := "66f1d0000000000000000008".
Definition v9 : ObjectId := "66f1d0000000000000000009".

Definition alice : User.t :=
  User.mk u1 "alice" "alice@acme.com" "acme" Role.user true.
Definition bob : User.t :=
  User.mk u2 "bob" "bob@acme.com" "acme" Role.user true.
Definition carol : User.t :=
  User.mk u3 "carol" "carol@globex.com" "globex" Role.user true.

Definition as_alice : ReqUser.t := ReqUser.mk u1 "acme" Role.user.
Definition as_bob : ReqUser.t := ReqUser.mk u2 "acme" Role.user.
Definition as_carol : ReqUser.t := ReqUser.mk u3 "globex" Role.user.

Definition notes : Snippet.t :=
  Snippet.mk s1 "Deploy notes" "kubectl apply -f deploy.yaml" "bash" None
    u1 "acme" "link-1" Visibility.organization ["ops"] 0 true []
    [Viewer.mk v1 u2 1000 None; Viewer.mk v2 u1 900000 None] 10.

Definition secret : Snippet.t :=
  Snippet.mk s2 "Token" "export TOKEN=abc" "bash" None
    u1 "acme" "link-2" Visibility.private [] 0 true []
    [Viewer.mk v3 u1 950000 (Some "sock")] 20.

Definition trashed : Snippet.t :=
  Snippet.mk s3 "Old" "print(1)" "python" None
    u1 "acme" "link-3" Visibility.public [] 3 false [] [] 30.

Definition db : Db := mkDb [notes; secret; trashed] [alice; bob; carol].

(** The ids the store hands out. *)
Definition oid (k : nat) : ObjectId :=
  match k with
  | O => g0
  | S O => g1
  | _ => g2
  end.

(** [secret], shared with bob for editing. *)
Definition shared_secret : Snippet.t :=
  Snippet.set_sharedWith
    [Share.mk g0 (Some u2) (Some "bob@acme.com") Permissions.edit 500
       (Some u1)]
    secret.

Definition shared_db : Db := mkDb [notes; shared_secret; trashed] [alice; bob; carol].

(** A regular-expression engine for the patterns without special
    characters: the text contains the pattern. *)
Fixpoint contains (pattern txt : string) : bool :=
  String.prefix pattern txt
  || match txt with
     | EmptyString => false
     | String _ rest => contains pattern rest
     end.

Definition RegExp (pattern : string) : option (string -> bool) :=
  Some (contains pattern).
End Sample.

(** ** The other routes of the router *)

(** *** Creating *)

(** The body of a create request: the six keys the handler takes out of
    [req.body]. *)
Module CreateBody.
Record t := mk {
  title : option string;
  content : option string;
  language : option string;
  description : option string;
  visibility : option Visibility.t;
  tags : option (list string)
}.
End CreateBody.

(** [new Snippet({ title, ..., author, organization })]: the paths the
    handler gives, and the schema's defaults for the others.  [oid] is the
    new [_id], [uuid] the [uuidv4()] of the default of [shareId], [now] the
    clock for [createdAt].  A missing [title] or [content] is a missing
    required path, as an empty one is. *)
Definition new_Snippet (now : Date) (oid : ObjectId) (uuid : string)
    (user : ReqUser.t) (b : CreateBody.t) : Snippet.t :=
  Snippet.mk oid
    (trim (or_else (CreateBody.title b) ""))
    (or_else (CreateBody.content b) "")
    (or_else (CreateBody.language b) "plaintext")
    (CreateBody.description b)
    (ReqUser.userId user)
    (ReqUser.organization user)
    uuid
    (or_else (CreateBody.visibility b) Visibility.private)
    (map trim (or_else (CreateBody.tags b) []))
    0 true [] [] now.

(** The store refuses a new document whose [_id] or [shareId] (unique
    index) another document has. *)
Definition duplicate_key (new : Snippet.t) (db : Db) : bool :=
  existsb (fun d => String.eqb (Snippet._id d) (Snippet._id new)
                    || String.eqb (Snippet.shareId d) (Snippet.shareId new))
          (snippets db).

(** [router.post('/', auth, ...)] *)
Definition post_create (now : Date) (oid : ObjectId) (uuid : string)
    (user : ReqUser.t) (req_body : CreateBody.t) (db : Db) : Db * Response :=
  let snippet := new_Snippet now oid uuid user req_body in
  if validators snippet then
    if duplicate_key snippet db then
      (db, error 500 "E11000 duplicate key error")
    else
      let db := mkDb (snippets db ++ [snippet]) (users db) in
      (db,
       mkResponse 201
         (JObj (Snippet_toObject (author_username (users db)) JStr snippet)))
  else (db, error 500 (ValidationError_message snippet)).

(** *** Listings

    As for the search, a listing is modelled up to the documents its query
    selects; [sort], [limit] and [skip] cut the page of the reply out of
    them. *)

(** [router.get('/my', auth, ...)] *)
Definition my_snippets (user : ReqUser.t) (db : Db) : list Snippet.t :=
  Snippet_find [c_author (ReqUser.userId user); c_isActive true] db.

(** [router.get('/org', auth, ...)];
    [visibility: { $in: ['organization', 'public'] }] is the [$or] of the
    two equalities. *)
Definition org_snippets (user : ReqUser.t) (db : Db) : list Snippet.t :=
  Snippet_find
    [c_organization (ReqUser.organization user);
     c_or [[c_visibility Visibility.organization];
           [c_visibility Visibility.public]];
     c_isActive true] db.

(** [router.get('/shared-with-me', auth, ...)]: the documents of
    [{ 'sharedWith.user': req.user.userId, isActive: true }], each with the
    [sharingInfo] the handler adds to it. *)
Definition sharingInfo_for (us : list User.t) (user : ReqUser.t)
    (snippet : Snippet.t) : json :=
  let sharingInfo :=
    find (names_user (ReqUser.userId user)) (Snippet.sharedWith snippet) in
  JObj (field "permissions"
          (fun e => JStr (Permissions.toString (Share.permissions e)))
          sharingInfo
        ++ field "sharedAt" (fun e => JNum (Share.sharedAt e)) sharingInfo
        ++ match sharingInfo with
           | Some e => field "sharedBy" (populated ["username"] us)
                         (Share.sharedBy e)
           | None => []
           end).

Definition shared_with_me (user : ReqUser.t) (db : Db)
  : list (Snippet.t * json) :=
  map (fun snippet => (snippet, sharingInfo_for (users db) user snippet))
      (filter (fun s => existsb (names_user (ReqUser.userId user))
                                (Snippet.sharedWith s)
                        && Bool.eqb (Snippet.isActive s) true)
              (snippets db)).

(** ** The [auth] middleware *)

Fixpoint skip (n : nat) (s : string) : string :=
  match n, s with
  | O, _ => s
  | S _, EmptyString => EmptyString
  | S n', String _ r => skip n' r
  end.

(** [s.replace(pattern, replacement)] for a string pattern: the first
    occurrence is replaced. *)
Fixpoint replace (pattern replacement s : string) : string :=
  if String.prefix pattern s
  then String.append replacement (skip (String.length pattern) s)
  else
    match s with
    | EmptyString => EmptyString
    | String c r => String c (replace pattern replacement r)
    end.

Section Auth.
(** [jwt.verify(token, secret)] followed by the reading of
    [decoded.userId]: the id the token carries, or nothing when [verify]
    throws or the token carries no id the store can look up; all these end
    in the same 401. *)
Variable verify : string -> option ObjectId.

(** [module.exports = async (req, res, next) => ...]: [inl] is [next()]
    with [req.user] set, [inr] the reply sent instead.  [authorization] is
    [req.header('Authorization')]. *)
Definition auth (authorization : option string) (us : list User.t)
  : ReqUser.t + Response :=
  match authorization with
  | None => inr (error 401 "No token provided")
  | Some header =>
      let token := replace "Bearer " "" header in
      if String.eqb token "" then inr (error 401 "No token provided")
      else
        match verify token with
        | None => inr (error 401 "Invalid token")
        | Some userId =>
            match User_findById us userId with
            | None => inr (error 401 "Invalid token")
            | Some u =>
                if User.isActive u then
                  inl (ReqUser.mk (User._id u) (User.organization u)
                         (User.role u))
                else inr (error 401 "Invalid token")
            end
        end
  end.
End Auth.

(** ** The edit page of the client ([client/src/pages/EditSnippet.js]) *)

(** [snippetData.tags.join(', ')] *)
Definition join_tags (tags : list string) : string := String.concat ", " tags.

(** [formData.tags.split(',').map(tag => tag.trim()).filter(tag => tag.length > 0)] *)
Definition tagsArray (tags : string) : list string :=
  filter (fun tag => Nat.ltb 0 (String.length tag))
         (map trim (split_comma tags)).

(** The form of the page.  [visibility] is the value of a select over
    the three visibilities. *)
Module FormData.
Record t := mk {
  title : string;
  content : string;
  language : string;
  description : string;
  tags : string;
  visibility : Visibility.t
}.
End FormData.

(** [x || d] on a property that holds a string *)
Definition string_or (d : string) (x : option json) : string :=
  match x with
  | Some (JStr v) => if String.eqb v "" then d else v
  | _ => d
  end.

Definition Visibility_ofString (v : string) : Visibility.t :=
  if String.eqb v "organization" then Visibility.organization
  else if String.eqb v "public" then Visibility.public
  else Visibility.private.

(** The [setFormData] of [fetchSnippet], on [response.data]. *)
Definition fetchSnippet (snippetData : json) : FormData.t :=
  FormData.mk
    (string_or "" (get "title" snippetData))
    (string_or "" (get "content" snippetData))
    (string_or "javascript" (get "language" snippetData))
    (string_or "" (get "description" snippetData))
    (match get "tags" snippetData with
     | Some (JArr tags) => join_tags (map (fun t => string_or "" (Some t)) tags)
     | _ => ""
     end)
    (Visibility_ofString (string_or "private" (get "visibility" snippetData))).

(** [handleSubmit]: the body of the [axios.put], or nothing when the page
    shows "Title and content are required" and sends no request. *)
Definition handleSubmit (formData : FormData.t) : option UpdateBody.t :=
  if String.eqb (trim (FormData.title formData)) ""
     || String.eqb (trim (FormData.content formData)) ""
  then None
  else
    Some (UpdateBody.mk
            (Some (FormData.title formData))
            (Some (FormData.content formData))
            (Some (FormData.language formData))
            (Some (FormData.description formData))
            None None None
            (Some (FormData.visibility formData))
            (Some (tagsArray (FormData.tags formData)))
            None None None None None).

(** ** More notions used in the statements *)

(** The presence entries of one viewer. *)
Definition entries_of (uid : ObjectId) (l : list Viewer.t) : list Viewer.t :=
  filter (fun v => String.eqb (Viewer.user v) uid) l.

(** The grants of a ledger that name one user. *)
Definition grants_naming (uid : ObjectId) (l : list Share.t) : nat :=
  List.length (filter (names_user uid) l).

(** The test of the get-by-id and join routes, read on the stored
    document. *)
Definition may_read (user : ReqUser.t) (s : Snippet.t) : bool :=
  String.eqb (Snippet.author s) (ReqUser.userId user)
  || existsb (names_user (ReqUser.userId user)) (Snippet.sharedWith s)
  || (Visibility.eqb (Snippet.visibility s) Visibility.organization
      && String.eqb (Snippet.organization s) (ReqUser.organization user))
  || Visibility.eqb (Snippet.visibility s) Visibility.public.

(** The requests of a list of requesters through one share link, one after
    the other. *)
Definition visits (shareId : string) (requesters : list (option ReqUser.t))
    (db : Db) : Db :=
  fold_left (fun db requester => fst (get_by_shareId requester shareId db))
            requesters db.

(** A grant as a share request of [user] at [now] makes it. *)
Definition made_by (user : ReqUser.t) (permissions : Permissions.t)
    (now : Date) (g : Share.t) : Prop :=
  Share.permissions g = permissions
  /\ Share.sharedAt g = now
  /\ Share.sharedBy g = Some (ReqUser.userId user).

(** The state [st] of the share loops continues [st0]: the ledger has grown
    by grants of this request, one for each new entry of the list of new
    grants. *)
Definition continues_with (user : ReqUser.t) (permissions : Permissions.t)
    (now : Date) (st0 st : Sharing) : Prop :=
  exists added,
    ledger st = ledger st0 ++ added
    /\ List.length (sharedUsers st)
       = (List.length (sharedUsers st0) + List.length added)%nat
    /\ Forall (made_by user permissions now) added.

(** A grant to an active user of the requester's organization, under the
    user's own address. *)
Definition in_organization (us : list User.t) (user : ReqUser.t)
    (g : Share.t) : Prop :=
  exists u,
    In u us /\ User.isActive u = true
    /\ User.organization u = trim (ReqUser.organization user)
    /\ Share.user g = Some (User._id u)
    /\ Share.email g = Some (User.email u).

(** Every entry of the ledger for the address [e] names the user [u]. *)
Definition address_names (e : string) (u : User.t) (l : list Share.t) : Prop :=
  forall g, In g l -> has_email (trim e) g = true ->
            names_user (User._id u) g = true.


(** The users of the viewers of a snippet are stored: [populate] finds
    each of them, and the [save] of the populated document writes their
    ids back as they were. *)
Definition viewers_stored (us : list User.t) (s : Snippet.t) : Prop :=
  forall v, In v (Snippet.currentViewers s) ->
            User_findById us (Viewer.user v) <> None.

(** The integers up to which a [Number] counts one by one. *)
Definition counts (views : Z) : Prop := - 2 ^ 53 <= views < 2 ^ 53.

Definition has_comma (s : string) : bool :=
  existsb (Ascii.eqb ","%char) (list_ascii_of_string s).

(** ** The application's configuration

    [appConfigSchema] and its static [getConfig], and the route of the
    administrator that writes the configuration.  The [_id] and the
    timestamps of the document are left out. *)

Module AppConfig.
Record t := mk {
  authMode : string;
  clientId : option string;
  clientSecret : option string;
  tenantId : option string;
  enabled : bool;
  allowRegistration : bool;
  defaultOrganization : string
}.

Definition set_authMode (v : string) (c : t) : t :=
  mk v (clientId c) (clientSecret c) (tenantId c) (enabled c)
     (allowRegistration c) (defaultOrganization c).

Definition set_clientId (v : string) (c : t) : t :=
  mk (authMode c) (Some v) (clientSecret c) (tenantId c) (enabled c)
     (allowRegistration c) (defaultOrganization c).

Definition set_clientSecret (v : string) (c : t) : t :=
  mk (authMode c) (clientId c) (Some v) (tenantId c) (enabled c)
     (allowRegistration c) (defaultOrganization c).

Definition set_tenantId (v : string) (c : t) : t :=
  mk (authMode c) (clientId c) (clientSecret c) (Some v) (enabled c)
     (allowRegistration c) (defaultOrganization c).

Definition set_enabled (v : bool) (c : t) : t :=
  mk (authMode c) (clientId c) (clientSecret c) (tenantId c) v
     (allowRegistration c) (defaultOrganization c).

Definition set_allowRegistration (v : bool) (c : t) : t :=
  mk (authMode c) (clientId c) (clientSecret c) (tenantId c) (enabled c)
     v (defaultOrganization c).

Definition set_defaultOrganization (v : string) (c : t) : t :=
  mk (authMode c) (clientId c) (clientSecret c) (tenantId c) (enabled c)
     (allowRegistration c) v.
End AppConfig.

(** The variables of [process.env] that [getConfig] reads; [None] is
    [undefined]. *)
Module Env.
Record t := mk {
  AUTH_MODE : option string;
  DEFAULT_ORGANIZATION : option string;
  AZURE_AD_CLIENT_ID : option string;
  AZURE_AD_CLIENT_SECRET : option string;
  AZURE_AD_TENANT_ID : option string
}.
End Env.

(** The values that the chains of [&&] over the environment take. *)
Inductive JsValue :=
| v_bool (b : bool)
| v_string (s : string)
| v_undefined.

Definition of_env (v : option string) : JsValue :=
  match v with
  | Some s => v_string s
  | None => v_undefined
  end.

(** [Boolean(v)] *)
Definition Boolean (v : JsValue) : bool :=
  match v with
  | v_bool b => b
  | v_string s => negb (String.eqb s "")
  | v_undefined => false
  end.

(** [a && b] *)
Definition js_and (a b : JsValue) : JsValue := if Boolean a then b else a.

(** [stored !== v] for a stored Boolean. *)
Definition differs_bool (stored : bool) (v : JsValue) : bool :=
  match v with
  | v_bool b => negb (Bool.eqb stored b)
  | _ => true
  end.

(** The truth value of a variable of the environment in a condition. *)
Definition truthy (v : option string) : bool := Boolean (of_env v).

(** [v === s] *)
Definition equals (v : option string) (s : string) : bool :=
  match v with
  | Some x => String.eqb x s
  | None => false
  end.

(** [v || d] *)
Definition or_string (v : option string) (d : string) : string :=
  match v with
  | Some s => if String.eqb s "" then d else s
  | None => d
  end.

(** What [getConfig] throws: the three errors of the first start, the error
    of a change of mode, and the [ValidationError] of [save]. *)
Inductive Thrown :=
| client_id_required
| client_secret_required
| tenant_id_required
| incomplete_azure_ad
| validation_failed.

(** [enum: ['local', 'azure_ad']] *)
Definition authMode_enum (m : string) : bool :=
  String.eqb m "local" || String.eqb m "azure_ad".

(** [process.env.AUTH_MODE === 'azure_ad' && process.env.AZURE_AD_CLIENT_ID
     && process.env.AZURE_AD_CLIENT_SECRET && process.env.AZURE_AD_TENANT_ID] *)
Definition shouldEnableAzureAd (env : Env.t) : JsValue :=
  js_and (js_and (js_and (v_bool (equals (Env.AUTH_MODE env) "azure_ad"))
                         (of_env (Env.AZURE_AD_CLIENT_ID env)))
                 (of_env (Env.AZURE_AD_CLIENT_SECRET env)))
         (of_env (Env.AZURE_AD_TENANT_ID env)).

(** The branch [if (!config)]: the checks, [new this({...})] and [save],
    which validates [authMode] against the enum. *)
Definition create (env : Env.t) : Thrown + AppConfig.t :=
  let checked :=
    if equals (Env.AUTH_MODE env) "azure_ad" then
      if negb (truthy (Env.AZURE_AD_CLIENT_ID env))
      then Some client_id_required
      else if negb (truthy (Env.AZURE_AD_CLIENT_SECRET env))
      then Some client_secret_required
      else if negb (truthy (Env.AZURE_AD_TENANT_ID env))
      then Some tenant_id_required
      else None
    else None in
  match checked with
  | Some e => inl e
  | None =>
      let azureAdEnabled := shouldEnableAzureAd env in
      let config :=
        AppConfig.mk
          (or_string (Env.AUTH_MODE env) "local")
          (Some (or_string (Env.AZURE_AD_CLIENT_ID env) ""))
          (Some (or_string (Env.AZURE_AD_CLIENT_SECRET env) ""))
          (Some (or_string (Env.AZURE_AD_TENANT_ID env) ""))
          (Boolean azureAdEnabled)
          (negb (equals (Env.AUTH_MODE env) "azure_ad"))
          (or_string (Env.DEFAULT_ORGANIZATION env) "Default") in
      if authMode_enum (AppConfig.authMode config) then inr config
      else inl validation_failed
  end.

(** [if (v && stored !== v) { path = v; updated = true; }], on the
    document and the flag [updated]. *)
Definition take (v : option string) (stored : AppConfig.t -> option string)
    (set : string -> AppConfig.t -> AppConfig.t) (st : AppConfig.t * bool)
  : AppConfig.t * bool :=
  match v with
  | Some x =>
      if negb (String.eqb x "") && negb (equals (stored (fst st)) x)
      then (set x (fst st), true)
      else st
  | None => st
  end.

(** The branch [else]: the document is brought up to the environment and
    saved when a path was written; [save] validates [authMode] when it was
    modified. *)
Definition update (env : Env.t) (config : AppConfig.t)
  : Thrown + AppConfig.t :=
  let updated := false in
  let mode :=
    match Env.AUTH_MODE env with
    | Some m =>
        if negb (String.eqb m "")
           && negb (String.eqb (AppConfig.authMode config) m)
        then
          if String.eqb m "azure_ad"
             && (negb (truthy (Env.AZURE_AD_CLIENT_ID env))
                 || negb (truthy (Env.AZURE_AD_CLIENT_SECRET env))
                 || negb (truthy (Env.AZURE_AD_TENANT_ID env)))
          then inl incomplete_azure_ad
          else inr (AppConfig.set_authMode m config, true)
        else inr (config, updated)
    | None => inr (config, updated)
    end in
  match mode with
  | inl e => inl e
  | inr st =>
      let st :=
        take (Env.DEFAULT_ORGANIZATION env)
             (fun c => Some (AppConfig.defaultOrganization c))
             AppConfig.set_defaultOrganization st in
      let st :=
        take (Env.AZURE_AD_CLIENT_ID env) AppConfig.clientId
             AppConfig.set_clientId st in
      let st :=
        take (Env.AZURE_AD_CLIENT_SECRET env) AppConfig.clientSecret
             AppConfig.set_clientSecret st in
      let st :=
        take (Env.AZURE_AD_TENANT_ID env) AppConfig.tenantId
             AppConfig.set_tenantId st in
      let st :=
        if differs_bool (AppConfig.enabled (fst st)) (shouldEnableAzureAd env)
        then (AppConfig.set_enabled (Boolean (shouldEnableAzureAd env))
                                    (fst st), true)
        else st in
      let shouldAllowRegistration :=
        negb (equals (Env.AUTH_MODE env) "azure_ad") in
      let st :=
        if negb (Bool.eqb (AppConfig.allowRegistration (fst st))
                          shouldAllowRegistration)
        then (AppConfig.set_allowRegistration shouldAllowRegistration (fst st),
              true)
        else st in
      if snd st then
        if negb (String.eqb (AppConfig.authMode (fst st))
                            (AppConfig.authMode config))
           && negb (authMode_enum (AppConfig.authMode (fst st)))
        then inl validation_failed
        else inr (fst st)
      else inr (fst st)
  end.

(** The steps of [update] after the mode: the organization, the three
    settings, [azureAd.enabled] and [allowRegistration]. *)
Definition settle (env : Env.t) (st : AppConfig.t * bool)
  : AppConfig.t * bool :=
  let st :=
    take (Env.DEFAULT_ORGANIZATION env)
         (fun c => Some (AppConfig.defaultOrganization c))
         AppConfig.set_defaultOrganization st in
  let st :=
    take (Env.AZURE_AD_CLIENT_ID env) AppConfig.clientId
         AppConfig.set_clientId st in
  let st :=
    take (Env.AZURE_AD_CLIENT_SECRET env) AppConfig.clientSecret
         AppConfig.set_clientSecret st in
  let st :=
    take (Env.AZURE_AD_TENANT_ID env) AppConfig.tenantId
         AppConfig.set_tenantId st in
  let st :=
    if differs_bool (AppConfig.enabled (fst st)) (shouldEnableAzureAd env)
    then (AppConfig.set_enabled (Boolean (shouldEnableAzureAd env))
                                (fst st), true)
    else st in
  let shouldAllowRegistration :=
    negb (equals (Env.AUTH_MODE env) "azure_ad") in
  if negb (Bool.eqb (AppConfig.allowRegistration (fst st))
                    shouldAllowRegistration)
  then (AppConfig.set_allowRegistration shouldAllowRegistration (fst st),
        true)
  else st.

(** [save] at the end of [update], for the document and the flag that the
    steps leave. *)
Definition save_updated (config : AppConfig.t) (st : AppConfig.t * bool)
  : Thrown + AppConfig.t :=
  if snd st then
    if negb (String.eqb (AppConfig.authMode (fst st))
                        (AppConfig.authMode config))
       && negb (authMode_enum (AppConfig.authMode (fst st)))
    then inl validation_failed
    else inr (fst st)
  else inr (fst st).

(** [appConfigSchema.statics.getConfig], on the collection of the model:
    the collection it leaves and what it returns or throws.  [findOne({})]
    is the first document.  The schema casts the stored [azureAd.enabled]
    to a Boolean, so that its [typeof] is never ['string'] and the document
    is never deleted. *)
Definition getConfig (env : Env.t) (configs : list AppConfig.t)
  : list AppConfig.t * (Thrown + AppConfig.t) :=
  match configs with
  | [] =>
      match create env with
      | inl e => (configs, inl e)
      | inr config => ([config], inr config)
      end
  | config :: rest =>
      match update env config with
      | inl e => (configs, inl e)
      | inr config => (config :: rest, inr config)
      end
  end.

(** The body of [PUT /config], its paths with the types of the schema. *)
Module AzureAdBody.
Record t := mk {
  clientId : option string;
  clientSecret : option string;
  tenantId : option string;
  enabled : option bool
}.
End AzureAdBody.

Module ConfigBody.
Record t := mk {
  authMode : option string;
  allowRegistration : option bool;
  defaultOrganization : option string;
  azureAd : option AzureAdBody.t
}.
End ConfigBody.

(** [if (v) path = v] *)
Definition assign_truthy (v : option string)
    (set : string -> AppConfig.t -> AppConfig.t) (c : AppConfig.t)
  : AppConfig.t :=
  match v with
  | Some x => if String.eqb x "" then c else set x c
  | None => c
  end.

(** [if (typeof v === 'boolean') path = v] *)
Definition assign_boolean (v : option bool)
    (set : bool -> AppConfig.t -> AppConfig.t) (c : AppConfig.t)
  : AppConfig.t :=
  match v with
  | Some b => set b c
  | None => c
  end.

(** The replies of the routes of the configuration: 403 with
    ['Admin access required'], 200 with ['Configuration updated
    successfully'], and 500 with the message of what was thrown. *)
Inductive ConfigReply :=
| admin_access_required
| configuration_updated
| failed (e : Thrown).

(** [requireAdmin]: whether the middleware calls [next()]. *)
Definition requireAdmin (us : list User.t) (user : ReqUser.t) : bool :=
  match User_findById us (ReqUser.userId user) with
  | Some u => match User.role u with Role.admin => true | Role.user => false end
  | None => false
  end.

(** [router.put('/config', auth, requireAdmin, ...)] *)
Definition put_config (env : Env.t) (us : list User.t) (user : ReqUser.t)
    (req_body : ConfigBody.t) (configs : list AppConfig.t)
  : list AppConfig.t * ConfigReply :=
  if requireAdmin us user then
    match getConfig env configs with
    | (configs, inl e) => (configs, failed e)
    | (configs, inr stored) =>
        let config :=
          assign_truthy (ConfigBody.authMode req_body)
                        AppConfig.set_authMode stored in
        let config :=
          assign_boolean (ConfigBody.allowRegistration req_body)
                         AppConfig.set_allowRegistration config in
        let config :=
          assign_truthy (ConfigBody.defaultOrganization req_body)
                        AppConfig.set_defaultOrganization config in
        let config :=
          match ConfigBody.azureAd req_body with
          | Some azureAd =>
              let config :=
                assign_truthy (AzureAdBody.clientId azureAd)
                              AppConfig.set_clientId config in
              let config :=
                assign_truthy (AzureAdBody.clientSecret azureAd)
                              AppConfig.set_clientSecret config in
              let config :=
                assign_truthy (AzureAdBody.tenantId azureAd)
                              AppConfig.set_tenantId config in
              assign_boolean (AzureAdBody.enabled azureAd)
                             AppConfig.set_enabled config
          | None => config
          end in
        if negb (String.eqb (AppConfig.authMode config)
                            (AppConfig.authMode stored))
           && negb (authMode_enum (AppConfig.authMode config))
        then (configs, failed validation_failed)
        else (config :: tl configs, configuration_updated)
    end
  else (configs, admin_access_required).

(** The environment names a mode that the stored configuration, if there
    is one, does not have. *)
Definition takes_mode (env : Env.t) (configs : list AppConfig.t) : bool :=
  match configs with
  | [] => true
  | config :: _ =>
      truthy (Env.AUTH_MODE env)
      && negb (equals (Env.AUTH_MODE env) (AppConfig.authMode config))
  end.

(** The mode of the environment cannot be taken: it is [azure_ad] without
    one of its three settings, or it is none of the two modes. *)
Definition unusable_mode (env : Env.t) : bool :=
  equals (Env.AUTH_MODE env) "azure_ad"
  && negb (truthy (Env.AZURE_AD_CLIENT_ID env)
           && truthy (Env.AZURE_AD_CLIENT_SECRET env)
           && truthy (Env.AZURE_AD_TENANT_ID env))
  || truthy (Env.AUTH_MODE env)
     && negb (authMode_enum (or_string (Env.AUTH_MODE env) "")).

Definition throws {A} (r : Thrown + A) : bool :=
  match r with
  | inl _ => true
  | inr _ => false
  end.

(** A path follows a variable of the environment that is set. *)
Definition follows (v : option string) (stored : option string) : Prop :=
  truthy v = true -> stored = v.

(** Two installations of the server. *)
Module Sample_config.
Definition local_env : Env.t := Env.mk None None None None None.

Definition azure_env : Env.t :=
  Env.mk (Some "azure_ad") (Some "acme") (Some "client-1") (Some "hush")
         (Some "tenant-1").

Definition half_azure_env : Env.t :=
  Env.mk (Some "azure_ad") (Some "acme") None (Some "hush") (Some "tenant-1").

Definition closed : AppConfig.t :=
  AppConfig.mk "local" (Some "") (Some "") (Some "") false false "Default".

Definition azure : AppConfig.t :=
  AppConfig.mk "azure_ad" (Some "client-1") (Some "hush") (Some "tenant-1")
    true false "acme".

Definition root : User.t :=
  User.mk "66f1a0000000000000000009" "root" "root@acme.com" "acme"
    Role.admin true.

Definition as_root : ReqUser.t :=
  ReqUser.mk (User._id root) (User.organization root) (User.role root).
End Sample_config.

(** The small installation with a public snippet of carol's added. *)
Module Sample_public.
Definition s4 : ObjectId := "66f1b0000000000000000004".

Definition gist : Snippet.t :=
  Snippet.mk s4 "Retry loop" "for i in range(3): call()" "python"
    (Some "retries a call") Sample.u3 "globex" "link-4" Visibility.public
    ["python"; "retry"] 3 true [] [] 40.

Definition db : Db :=
  mkDb [Sample.notes; Sample.shared_secret; Sample.trashed; gist]
       (users Sample.db).
End Sample_public.

(** The small installation where alice shared her private snippet with
    carol's address before carol registered. *)
Module Sample_pending.
Definition pending_secret : Snippet.t :=
  Snippet.set_sharedWith
    [Share.mk Sample.g0 None (Some "carol@globex.com") Permissions.view 500
       (Some Sample.u1)]
    Sample.secret.

Definition db : Db :=
  mkDb [Sample.notes; pending_secret; Sample.trashed] (users Sample.db).
End Sample_pending.

(** * Properties *)

(** ** The definitions at work *)

Example trim_both_ends : trim "  a@x.com  " = "a@x.com".
Proof. reflexivity. Qed.

Example trim_inner_space : trim " a b " = "a b".
Proof. reflexivity. Qed.

(** A no-break space (U+00A0) and an em space (U+2003) are trimmed like a
    space; the second byte of another character is not. *)
Example trim_unicode_space :
  trim (String "194" (String "160" ("a b" ++ String "226" (String "128"
          (String "131" " ")))))
  = "a b"
  /\ trim (String "195" (String "160" " ")) = String "195" (String "160" "").
Proof. split; reflexivity. Qed.

(** Characters of two, three and four bytes have one, one and two code
    units. *)
Example length_utf16_of_characters :
  length_utf16 (String "195" (String "160" "")) = 1%nat
  /\ length_utf16 (String "226" (String "128" (String "131" ""))) = 1%nat
  /\ length_utf16
       (String "240" (String "159" (String "152" (String "128" "")))) = 2%nat.
Proof. repeat split; reflexivity. Qed.

(** A sum beyond [2^53] loses its last bit: a tie goes to the even
    significand. *)
Example Number_add_beyond_counting :
  Number_add (2 ^ 53) 1 = 2 ^ 53
  /\ Number_add (2 ^ 53 + 2) 1 = 2 ^ 53 + 4
  /\ Number_add (2 ^ 53 - 1) 1 = 2 ^ 53
  /\ Number_add (- 2 ^ 53) (- 1) = - 2 ^ 53.
Proof. repeat split; reflexivity. Qed.

(** An update whose body names the [_id] of another document is saved
    under that [_id]: the modified paths go to the other document, the one
    that was found stays as it was, and the reply shows the document in
    memory. *)
Example put_under_another_id :
  let b :=
    UpdateBody.mk None (Some "x") None None None None None None None None None
      None None (Some Sample.s1) in
  let r := put Sample.as_alice Sample.s2 b Sample.db in
  status (snd r) = 200%nat
  /\ option_map Snippet.content (Snippet_findOne [c_id Sample.s1] (fst r))
     = Some "x"
  /\ Snippet_findOne [c_id Sample.s2] (fst r) = Some Sample.secret
  /\ get "title" (body (snd r)) = Some (JStr "Token").
Proof. repeat split; reflexivity. Qed.

(** A title of white space only is a missing title. *)
Example put_blank_title :
  let b :=
    UpdateBody.mk (Some (String "194" (String "160" " "))) None None None None
      None None None None None None None None None in
  put Sample.as_alice Sample.s2 b Sample.db
  = (Sample.db,
     error 500 "Snippet validation failed: title: Path `title` is required.").
Proof. reflexivity. Qed.

Example findOne_email_setters :
  User_findOne_email (users Sample.db) "Bob@Acme.com " = Some Sample.bob.
Proof. reflexivity. Qed.

Example split_comma_tags :
  filter (fun tag => negb (String.eqb tag "")) (map trim (split_comma "ops, ,k8s,"))
  = ["ops"; "k8s"].
Proof. reflexivity. Qed.

Example assign_keeps_place :
  assign "b" (JNum 9) [("a", JNum 1); ("b", JNum 2); ("c", JNum 3)]
  = [("a", JNum 1); ("b", JNum 9); ("c", JNum 3)]
  /\ assign "d" JNull [("a", JNum 1)] = [("a", JNum 1); ("d", JNull)].
Proof. split; reflexivity. Qed.

(** Bob, of alice's organization, reads her organization snippet: the old
    viewer is dropped from the stored document and from the reply, and bob
    holds no grant. *)
Example get_by_id_same_organization :
  let r := get_by_id 1000000 Sample.as_bob Sample.s1 Sample.db in
  status (snd r) = 200%nat
  /\ get "sharingInfo" (body (snd r)) = Some JNull
  /\ get "currentViewers" (body (snd r))
     = Some (JArr [JObj [("user",
                          JObj [("_id", JStr Sample.u1); ("username", JStr "alice");
                                ("email", JStr "alice@acme.com")]);
                        ("lastSeen", JNum 900000);
                        ("isOnline", JBool true)]])
  /\ option_map Snippet.currentViewers
       (Snippet_findOne [c_id Sample.s1] (fst r))
     = Some [Viewer.mk Sample.v2 Sample.u1 900000 None].
Proof. repeat split; reflexivity. Qed.

(** Bob reads alice's private snippet by id: 403; carol joins its viewers:
    403; alice joins twice, a second apart, and has one entry, the later
    one. *)
Example private_snippet_by_id :
  get_by_id 1000000 Sample.as_bob Sample.s2 Sample.db
  = (Sample.db, error 403 "Access denied")
  /\ join_view 1000000 1000000 Sample.v9 Sample.as_carol Sample.s2 None Sample.db
     = (Sample.db, error 403 "Access denied")
  /\ option_map Snippet.currentViewers
       (Snippet_findOne [c_id Sample.s2]
          (fst (join_view 1001000 1001000 Sample.v8 Sample.as_alice Sample.s2 None
                  (fst (join_view 1000000 1000000 Sample.v9 Sample.as_alice Sample.s2
                          None Sample.db)))))
     = Some [Viewer.mk Sample.v8 Sample.u1 1001000 None].
Proof. repeat split; reflexivity. Qed.

(** A search for a word of the content, by a user of the organization. *)
Example search_by_text :
  search Sample.RegExp Sample.as_bob
    (SearchParams.mk (Some " kubectl ") (Some "all") (Some "ops,infra") None)
    Sample.db
  = Some [Sample.notes]
  /\ search Sample.RegExp Sample.as_bob
       (SearchParams.mk None None None (Some "zed")) Sample.db
     = Some [].
Proof. split; reflexivity. Qed.

(** ** The store *)

Lemma findOne_some (q : Query) (db : Db) (s : Snippet.t) :
  Snippet_findOne q db = Some s -> In s (snippets db) /\ matches q s = true.
Proof. unfold Snippet_findOne. apply find_some. Qed.

Lemma findOne_none (q : Query) (db : Db) :
  (forall d, In d (snippets db) -> matches q d = false) ->
  Snippet_findOne q db = None.
Proof.
  unfold Snippet_findOne. induction (snippets db) as [|d l IH]; intros H.
  - reflexivity.
  - simpl. rewrite (H d (or_introl eq_refl)). apply IH.
    intros d' Hd'. apply H. now right.
Qed.

(** After [save], a query that found the document finds its new version,
    as long as the new version still answers the query. *)
Lemma findOne_save (q : Query) (db : Db) (s s' : Snippet.t) :
  Snippet_findOne q db = Some s ->
  Snippet._id s' = Snippet._id s ->
  matches q s' = true ->
  Snippet_findOne q (save s' db) = Some s'.
Proof.
  unfold Snippet_findOne, save. simpl. intros Hfind Hid Hm.
  induction (snippets db) as [|d l IH]; simpl in *.
  - discriminate.
  - destruct (String.eqb (Snippet._id d) (Snippet._id s')) eqn:E.
    + now rewrite Hm.
    + destruct (matches q d) eqn:Md.
      * injection Hfind as ->. rewrite Hid, String.eqb_refl in E. discriminate.
      * now apply IH.
Qed.

(** Saving a stored document as it is leaves a store with unique [_id]s
    as it is. *)
Lemma save_stored (db : Db) (s : Snippet.t) :
  NoDup (map Snippet._id (snippets db)) ->
  In s (snippets db) ->
  save s db = db.
Proof.
  destruct db as [l us]. unfold save. simpl. intros Hnd Hin. f_equal.
  induction l as [|d l IH]; simpl in *.
  - reflexivity.
  - inversion Hnd as [|? ? Hnot Hnd']. subst.
    destruct (String.eqb (Snippet._id d) (Snippet._id s)) eqn:E.
    + apply String.eqb_eq in E. destruct Hin as [->|Hin].
      * f_equal. rewrite <- (map_id l) at 2. apply map_ext_in.
        intros a Ha. destruct (String.eqb (Snippet._id a) (Snippet._id s)) eqn:E'.
        -- apply String.eqb_eq in E'. exfalso. apply Hnot. rewrite <- E'.
           now apply in_map.
        -- reflexivity.
      * exfalso. apply Hnot. rewrite E. now apply in_map.
    + destruct Hin as [->|Hin].
      * now rewrite String.eqb_refl in E.
      * f_equal. now apply IH.
Qed.

Lemma users_save (s : Snippet.t) (db : Db) : users (save s db) = users db.
Proof. reflexivity. Qed.

(** ** Presence *)

Lemma cleanupViewers_recent (now : Date) (s : Snippet.t) (db : Db) (v : Viewer.t) :
  In v (Snippet.currentViewers (fst (cleanupViewers now s db))) <->
  In v (Snippet.currentViewers s) /\ now - 300000 < Viewer.lastSeen v.
Proof.
  unfold cleanupViewers, fiveMinutesAgo. simpl. rewrite filter_In.
  rewrite Z.ltb_lt. change (5 * 60 * 1000) with 300000. tauto.
Qed.

(** What the viewers route replies for a stored active snippet. *)
Lemma get_viewers_found (now : Date) (user : ReqUser.t) (id : ObjectId)
    (db : Db) (s : Snippet.t) :
  Snippet_findOne [c_id id; c_isActive true] db = Some s ->
  get_viewers now user id db =
    (snd (cleanupViewers now s db),
     mkResponse 200
       (JObj [("currentViewers",
                JArr (map (viewerInfo (users db))
                          (Snippet.currentViewers
                             (fst (cleanupViewers now s db)))))])).
Proof.
  intros H. unfold get_viewers. rewrite H. reflexivity.
Qed.

(** What the join route replies for a stored active snippet. *)
Lemma join_view_found (now now' : Date) (oid : ObjectId) (user : ReqUser.t)
    (id : ObjectId) (socketId : option string) (db : Db) (s : Snippet.t) :
  Snippet_findOne [c_id id; c_isActive true] db = Some s ->
  let joined :=
    Snippet.set_currentViewers
      (filter (fun viewer =>
                 negb (String.eqb (Viewer.user viewer) (ReqUser.userId user)))
              (Snippet.currentViewers s)
       ++ [Viewer.mk oid (ReqUser.userId user) now socketId])
      s in
  join_view now now' oid user id socketId db =
    if may_join user s then
      (snd (cleanupViewers now' joined db),
       mkResponse 200
         (JObj [("message", JStr "Joined snippet viewing");
                ("currentViewers",
                  JArr (map (viewerInfo (users db))
                            (Snippet.currentViewers
                               (fst (cleanupViewers now' joined db)))))]))
    else (db, error 403 "Access denied").
Proof.
  intros H joined. unfold join_view, may_join. rewrite H.
  destruct (String.eqb (Snippet.author s) (ReqUser.userId user));
    destruct (existsb (names_user (ReqUser.userId user)) (Snippet.sharedWith s));
    destruct (Visibility.eqb (Snippet.visibility s) Visibility.organization
              && String.eqb (Snippet.organization s) (ReqUser.organization user));
    destruct (Visibility.eqb (Snippet.visibility s) Visibility.public);
    reflexivity.
Qed.

(** C9.  For an active snippet, the viewers route replies with a presence
    list, and so does the join route to a requester it admits; in both, no
    listed entry was last seen five minutes or more before the clock
    reading of the clean-up, so an entry of the snippet last seen more than
    five minutes before any time [t] up to that reading is absent from the
    list. *)
Theorem presence_list_has_no_old_entry
    (now now' : Date) (oid : ObjectId) (user : ReqUser.t) (id : ObjectId)
    (socketId : option string) (db : Db) (s : Snippet.t) :
  Snippet_findOne [c_id id; c_isActive true] db = Some s ->
  (exists kept,
      snd (get_viewers now user id db) =
        mkResponse 200
          (JObj [("currentViewers", JArr (map (viewerInfo (users db)) kept))])
      /\ (forall v, In v kept -> now - 300000 < Viewer.lastSeen v)
      /\ (forall v t, In v (Snippet.currentViewers s) -> t <= now ->
                      Viewer.lastSeen v < t - 300000 -> ~ In v kept))
  /\ (may_join user s = true ->
      exists kept,
        snd (join_view now now' oid user id socketId db) =
          mkResponse 200
            (JObj [("message", JStr "Joined snippet viewing");
                   ("currentViewers",
                     JArr (map (viewerInfo (users db)) kept))])
        /\ (forall v, In v kept -> now' - 300000 < Viewer.lastSeen v)
        /\ (forall v t, In v (Snippet.currentViewers s) -> t <= now' ->
                        Viewer.lastSeen v < t - 300000 -> ~ In v kept)).
Proof.
  intros H. split.
  - rewrite (get_viewers_found now user id db s H). cbn [snd].
    eexists. split; [reflexivity|]. split.
    + intros v Hv. apply cleanupViewers_recent in Hv. tauto.
    + intros v t _ Ht Hold Hv. apply cleanupViewers_recent in Hv.
      destruct Hv as [_ Hv]. lia.
  - intros Hjoin.
    rewrite (join_view_found now now' oid user id socketId db s H), Hjoin.
    cbn [snd]. eexists. split; [reflexivity|]. split.
    + intros v Hv. apply cleanupViewers_recent in Hv. tauto.
    + intros v t _ Ht Hold Hv. apply cleanupViewers_recent in Hv.
      destruct Hv as [_ Hv]. lia.
Qed.

Lemma presence_list_has_no_old_entry_witness :
  (exists kept,
      snd (get_viewers 1000000 Sample.as_bob Sample.s1 Sample.db) =
        mkResponse 200
          (JObj [("currentViewers",
                   JArr (map (viewerInfo (users Sample.db)) kept))])
      /\ (forall v, In v kept -> 1000000 - 300000 < Viewer.lastSeen v)
      /\ (forall v t, In v (Snippet.currentViewers Sample.notes) ->
                      t <= 1000000 ->
                      Viewer.lastSeen v < t - 300000 -> ~ In v kept))
  /\ (may_join Sample.as_bob Sample.notes = true ->
      exists kept,
        snd (join_view 1000000 1000001 Sample.v9 Sample.as_bob Sample.s1 None Sample.db) =
          mkResponse 200
            (JObj [("message", JStr "Joined snippet viewing");
                   ("currentViewers",
                     JArr (map (viewerInfo (users Sample.db)) kept))])
        /\ (forall v, In v kept -> 1000001 - 300000 < Viewer.lastSeen v)
        /\ (forall v t, In v (Snippet.currentViewers Sample.notes) ->
                        t <= 1000001 ->
                        Viewer.lastSeen v < t - 300000 -> ~ In v kept)).
Proof.
  apply (presence_list_has_no_old_entry 1000000 1000001 Sample.v9 Sample.as_bob
           Sample.s1 None Sample.db Sample.notes).
  reflexivity.
Defined.

(** C10.  For an active snippet the viewers route replies to every
    requester with the presence list after the clean-up, each entry with
    the viewer's display fields; the requester does not enter the reply. *)
Theorem get_viewers_for_any_requester
    (now : Date) (user : ReqUser.t) (id : ObjectId) (db : Db) (s : Snippet.t) :
  Snippet_findOne [c_id id; c_isActive true] db = Some s ->
  snd (get_viewers now user id db) =
    mkResponse 200
      (JObj [("currentViewers",
               JArr (map (fun v =>
                            JObj [("user", viewer_user (users db) (Viewer.user v));
                                  ("lastSeen", JNum (Viewer.lastSeen v));
                                  ("isOnline", JBool true)])
                         (filter (fun v => now - 300000 <? Viewer.lastSeen v)
                                 (Snippet.currentViewers s))))])
  /\ forall other : ReqUser.t,
       snd (get_viewers now other id db) = snd (get_viewers now user id db).
Proof.
  intros H. split.
  - rewrite (get_viewers_found now user id db s H). reflexivity.
  - intros other. reflexivity.
Qed.

Lemma get_viewers_for_any_requester_witness :
  snd (get_viewers 1000000 Sample.as_carol Sample.s2 Sample.db) =
    mkResponse 200
      (JObj [("currentViewers",
               JArr [JObj [("user",
                             JObj [("_id", JStr Sample.u1);
                                   ("username", JStr "alice");
                                   ("email", JStr "alice@acme.com")]);
                           ("lastSeen", JNum 950000);
                           ("isOnline", JBool true)]])]).
Proof.
  exact (proj1 (get_viewers_for_any_requester 1000000 Sample.as_carol Sample.s2
                  Sample.db Sample.secret eq_refl)).
Defined.

(** ** Share links *)

(** With unique [shareId]s, the lookup by the [shareId] of a stored active
    snippet finds that snippet. *)
Lemma findOne_shareId (db : Db) (s : Snippet.t) :
  In s (snippets db) ->
  NoDup (map Snippet.shareId (snippets db)) ->
  Snippet.isActive s = true ->
  Snippet_findOne [c_shareId (Snippet.shareId s); c_isActive true] db = Some s.
Proof.
  unfold Snippet_findOne. induction (snippets db) as [|d l IH]; simpl.
  - contradiction.
  - intros Hin Hnd Hact. inversion Hnd as [|? ? Hnot Hnd']. subst.
    destruct Hin as [->|Hin].
    + now rewrite String.eqb_refl, Hact.
    + destruct (String.eqb (Snippet.shareId d) (Snippet.shareId s)) eqn:E.
      * apply String.eqb_eq in E. exfalso. apply Hnot. rewrite E.
        now apply in_map.
      * simpl. now apply IH.
Qed.

(** C5.  An active private snippet reached through its [shareId]: a
    signed-in requester of the snippet's organization gets the snippet,
    with its content; a signed-in requester of another organization and an
    anonymous requester get 403, and the database is left as it was. *)
Theorem private_share_link (db : Db) (s : Snippet.t) :
  In s (snippets db) ->
  NoDup (map Snippet.shareId (snippets db)) ->
  Snippet.isActive s = true ->
  Snippet.visibility s = Visibility.private ->
  (forall u : ReqUser.t,
      ReqUser.organization u = Snippet.organization s ->
      let reply := snd (get_by_shareId (Some u) (Snippet.shareId s) db) in
      status reply = 200%nat
      /\ get "_id" (body reply) = Some (JStr (Snippet._id s))
      /\ get "title" (body reply) = Some (JStr (Snippet.title s))
      /\ get "content" (body reply) = Some (JStr (Snippet.content s)))
  /\ (forall u : ReqUser.t,
         ReqUser.organization u <> Snippet.organization s ->
         get_by_shareId (Some u) (Snippet.shareId s) db =
           (db, outside_organization))
  /\ get_by_shareId None (Snippet.shareId s) db = (db, outside_organization).
Proof.
  intros Hin Hnd Hact Hvis.
  pose proof (findOne_shareId db s Hin Hnd Hact) as Hfind.
  unfold get_by_shareId. rewrite Hfind, Hvis.
  split; [|split].
  - intros u Horg. rewrite Horg, String.eqb_refl. simpl negb. cbv iota.
    repeat split; reflexivity.
  - intros u Horg.
    destruct (String.eqb (Snippet.organization s) (ReqUser.organization u)) eqn:E.
    + apply String.eqb_eq in E. congruence.
    + reflexivity.
  - reflexivity.
Qed.

Lemma private_share_link_witness :
  (let reply := snd (get_by_shareId (Some Sample.as_bob) "link-2" Sample.db) in
   status reply = 200%nat
   /\ get "content" (body reply) = Some (JStr (Snippet.content Sample.secret)))
  /\ get_by_shareId (Some Sample.as_carol) "link-2" Sample.db =
       (Sample.db, outside_organization)
  /\ get_by_shareId None "link-2" Sample.db = (Sample.db, outside_organization).
Proof.
  assert (In Sample.secret (snippets Sample.db)) as Hin by (simpl; auto).
  assert (NoDup (map Snippet.shareId (snippets Sample.db))) as Hnd
    by (repeat constructor; simpl; intuition discriminate).
  destruct (private_share_link Sample.db Sample.secret Hin Hnd eq_refl eq_refl)
    as [Hsame [Hother Hanon]].
  split; [|split].
  - destruct (Hsame Sample.as_bob eq_refl) as (Hst & _ & _ & Hc).
    split; [exact Hst|exact Hc].
  - apply (Hother Sample.as_carol). discriminate.
  - exact Hanon.
Defined.

(** ** Reading by id *)

(** C1 (the code departs from it).  For an active snippet of visibility
    [organization] whose author is a stored user, the get-by-id route
    replies 200 with the snippet's content to every requester, whatever
    their organization, grants or authorship: the 403 is only sent for a
    private snippet. *)
Theorem get_by_id_organization_snippet
    (now : Date) (user : ReqUser.t) (id : ObjectId) (db : Db)
    (s : Snippet.t) (author : User.t) :
  Snippet_findOne [c_id id; c_isActive true] db = Some s ->
  Snippet.visibility s = Visibility.organization ->
  User_findById (users db) (Snippet.author s) = Some author ->
  status (snd (get_by_id now user id db)) = 200%nat
  /\ get "content" (body (snd (get_by_id now user id db)))
     = Some (JStr (Snippet.content s)).
Proof.
  intros Hfind Hvis Hauthor. unfold get_by_id.
  rewrite Hfind, Hauthor, Hvis.
  replace (Visibility.eqb Visibility.organization Visibility.private)
    with false by reflexivity.
  destruct (negb (String.eqb (User._id author) (ReqUser.userId user))
            && negb (existsb (names_user (ReqUser.userId user))
                             (Snippet.sharedWith s))
            && negb (Visibility.eqb Visibility.organization
                       Visibility.organization
                     && String.eqb (Snippet.organization s)
                                   (ReqUser.organization user))
            && negb (Visibility.eqb Visibility.organization Visibility.public));
    split; reflexivity.
Qed.

Lemma get_by_id_organization_snippet_witness :
  ReqUser.organization Sample.as_carol <> Snippet.organization Sample.notes
  /\ Snippet.author Sample.notes <> ReqUser.userId Sample.as_carol
  /\ Snippet.sharedWith Sample.notes = []
  /\ status (snd (get_by_id 1000000 Sample.as_carol Sample.s1 Sample.db)) = 200%nat
  /\ get "content" (body (snd (get_by_id 1000000 Sample.as_carol Sample.s1 Sample.db)))
     = Some (JStr "kubectl apply -f deploy.yaml").
Proof.
  split; [discriminate|]. split; [discriminate|]. split; [reflexivity|].
  apply (get_by_id_organization_snippet 1000000 Sample.as_carol Sample.s1
           Sample.db Sample.notes Sample.alice); reflexivity.
Defined.

(** ** Deleting *)

(** C4 (the code departs from it).  The delete route looks the snippet up
    by id and author only: for the author of a snippet that is already
    inactive it replies 200 "Snippet deleted" once more. *)
Theorem delete_again_succeeds
    (user : ReqUser.t) (id : ObjectId) (db : Db) (s : Snippet.t) :
  Snippet_findOne [c_id id; c_author (ReqUser.userId user)] db = Some s ->
  Snippet.isActive s = false ->
  snd (delete user id db) =
    mkResponse 200 (JObj [("message", JStr "Snippet deleted")]).
Proof.
  intros Hfind _. unfold delete. rewrite Hfind. reflexivity.
Qed.

Lemma delete_again_succeeds_witness :
  snd (delete Sample.as_alice Sample.s3 Sample.db) =
    mkResponse 200 (JObj [("message", JStr "Snippet deleted")])
  /\ snd (delete Sample.as_alice Sample.s3 (fst (delete Sample.as_alice Sample.s3 Sample.db))) =
       mkResponse 200 (JObj [("message", JStr "Snippet deleted")]).
Proof.
  split.
  - apply (delete_again_succeeds Sample.as_alice Sample.s3 Sample.db Sample.trashed);
      reflexivity.
  - apply (delete_again_succeeds Sample.as_alice Sample.s3
             (fst (delete Sample.as_alice Sample.s3 Sample.db)) Sample.trashed);
      reflexivity.
Defined.

(** The other routes that take the snippet's id do answer 404 for an
    inactive snippet, when no active snippet has that id. *)
Lemma inactive_not_found (id : ObjectId) (db : Db) :
  (forall d, In d (snippets db) -> Snippet._id d = id ->
             Snippet.isActive d = false) ->
  forall (now now' : Date) (oid : ObjectId) (oids : nat -> ObjectId)
         (user : ReqUser.t),
    get_by_id now user id db = (db, error 404 "Snippet not found")
    /\ get_viewers now user id db = (db, error 404 "Snippet not found")
    /\ (forall sock,
          join_view now now' oid user id sock db
          = (db, error 404 "Snippet not found"))
    /\ leave_view user id db = (db, error 404 "Snippet not found")
    /\ (forall b, put user id b db = (db, error 404 "Snippet not found"))
    /\ (forall b,
          post_share now oids user id b db
          = (db, error 404 "Snippet not found or access denied"))
    /\ (forall e,
          delete_share user id e db
          = (db, error 404 "Snippet not found or access denied")).
Proof.
  intros Hinactive now now' oid oids user.
  assert (Hq : forall q, Snippet_findOne (c_id id :: q ++ [c_isActive true]) db = None).
  { intros q. apply findOne_none. intros d Hd. unfold matches. simpl.
    destruct (String.eqb (Snippet._id d) id) eqn:E; [|reflexivity].
    apply String.eqb_eq in E. rewrite forallb_app. simpl.
    rewrite (Hinactive d Hd E). simpl.
    now rewrite andb_false_r. }
  pose proof (Hq []) as H0. pose proof (Hq [c_author (ReqUser.userId user)]) as H1.
  simpl in H0, H1.
  unfold get_by_id, get_viewers, join_view, leave_view, put, post_share,
    delete_share.
  rewrite H0, H1. repeat split; reflexivity.
Qed.

(** ** Updating *)

(** C2 (the code departs from it).  The update route assigns the whole
    request body to the document: when the author's update names no [_id],
    passes the validators and takes no other snippet's [shareId], the reply
    is 200 and every path the body names is stored with the body's value,
    [shareId], [author], [organization], [views], [isActive], [sharedWith]
    and [currentViewers] among them. *)
Theorem put_assigns_every_named_path
    (user : ReqUser.t) (id : ObjectId) (b : UpdateBody.t) (db : Db)
    (s : Snippet.t) :
  Snippet_findOne
    [c_id id; c_author (ReqUser.userId user); c_isActive true] db = Some s ->
  UpdateBody._id b = None ->
  validators (Object_assign s b) = true ->
  duplicate_shareId s (Object_assign s b) db = false ->
  let s' := Object_assign s b in
  fst (put user id b db) = save s' db
  /\ status (snd (put user id b db)) = 200%nat
  /\ (forall v, UpdateBody.shareId b = Some v -> Snippet.shareId s' = v)
  /\ (forall v, UpdateBody.author b = Some v -> Snippet.author s' = v)
  /\ (forall v, UpdateBody.organization b = Some v -> Snippet.organization s' = v)
  /\ (forall v, UpdateBody.views b = Some v -> Snippet.views s' = v)
  /\ (forall v, UpdateBody.isActive b = Some v -> Snippet.isActive s' = v)
  /\ (forall v, UpdateBody.sharedWith b = Some v -> Snippet.sharedWith s' = v)
  /\ (forall v, UpdateBody.currentViewers b = Some v ->
                Snippet.currentViewers s' = v).
Proof.
  intros Hfind Hid Hvalid Hfresh s'.
  assert (Hsame : String.eqb (Snippet._id (Object_assign s b)) (Snippet._id s)
                  = true).
  { unfold Object_assign. cbn [Snippet._id]. rewrite Hid.
    apply String.eqb_refl. }
  assert (Hput : put user id b db
                 = (save s' db,
                    mkResponse 200
                      (JObj (Snippet_toObject (author_username (users db))
                               JStr s')))).
  { unfold put. rewrite Hfind. cbv zeta. rewrite Hvalid, Hsame, Hfresh.
    reflexivity. }
  rewrite Hput. split; [reflexivity|]. split; [reflexivity|].
  unfold s', Object_assign.
  cbn [Snippet.shareId Snippet.author Snippet.organization Snippet.views
       Snippet.isActive Snippet.sharedWith Snippet.currentViewers].
  repeat split; intros v Hv; rewrite Hv; reflexivity.
Qed.

Lemma put_assigns_every_named_path_witness :
  let b :=
    UpdateBody.mk None None None None (Some Sample.u3) (Some "globex")
      (Some "guess-me") None None (Some 1000000) (Some false) None None None in
  let stored := Snippet_findOne [c_id Sample.s2] (fst (put Sample.as_alice Sample.s2 b Sample.db)) in
  status (snd (put Sample.as_alice Sample.s2 b Sample.db)) = 200%nat
  /\ option_map Snippet.shareId stored = Some "guess-me"
  /\ option_map Snippet.author stored = Some Sample.u3
  /\ option_map Snippet.organization stored = Some "globex"
  /\ option_map Snippet.views stored = Some 1000000
  /\ option_map Snippet.isActive stored = Some false.
Proof.
  intros b stored.
  destruct (put_assigns_every_named_path Sample.as_alice Sample.s2 b Sample.db
              Sample.secret eq_refl eq_refl eq_refl eq_refl)
    as (Hput & Hstatus & _).
  unfold stored. rewrite Hput. split; [exact Hstatus|].
  repeat split; reflexivity.
Defined.

(** At a concrete installation: alice shares her private snippet with
    bob's address for editing, the grant names bob with permission [edit],
    and bob's update is answered 404 and changes nothing. *)
Example put_by_edit_grantee_is_not_found :
  let shared :=
    fst (post_share 500 Sample.oid Sample.as_alice Sample.s2
           (ShareBody.mk ["bob@acme.com"] [] (Some Permissions.edit)) Sample.db) in
  let b :=
    UpdateBody.mk (Some "Token (edited)") None None None None None None None
      None None None None None None in
  shared = Sample.shared_db
  /\ Snippet.sharedWith Sample.shared_secret =
       [Share.mk Sample.g0 (Some (ReqUser.userId Sample.as_bob))
          (Some "bob@acme.com") Permissions.edit 500 (Some Sample.u1)]
  /\ put Sample.as_bob Sample.s2 b shared = (shared, error 404 "Snippet not found")
  /\ status (snd (put Sample.as_bob Sample.s2 b shared)) <> 200%nat.
Proof.
  repeat split; try reflexivity. discriminate.
Qed.

(** C3 (the code departs from it).  The update route reads no grant: to a
    requester who is not the author of the active snippet with that id it
    replies 404 and leaves the database as it was, whatever the body and
    whatever grant the requester holds, one with permission [edit]
    included. *)
Theorem put_is_for_the_author_only
    (user : ReqUser.t) (id : ObjectId) (b : UpdateBody.t) (db : Db) :
  (forall d, In d (snippets db) -> Snippet._id d = id ->
             Snippet.isActive d = true ->
             Snippet.author d <> ReqUser.userId user) ->
  put user id b db = (db, error 404 "Snippet not found").
Proof.
  intros Hother. unfold put. rewrite findOne_none; [reflexivity|].
  intros d Hd. unfold matches. simpl.
  destruct (String.eqb (Snippet._id d) id) eqn:Eid; [|reflexivity].
  destruct (String.eqb (Snippet.author d) (ReqUser.userId user)) eqn:Eau;
    [|reflexivity].
  destruct (Snippet.isActive d) eqn:Eact; [|reflexivity].
  apply String.eqb_eq in Eid, Eau. exfalso. exact (Hother d Hd Eid Eact Eau).
Qed.

Lemma put_is_for_the_author_only_witness :
  put Sample.as_bob Sample.s2
    (UpdateBody.mk None (Some "export TOKEN=xyz") None None None None None None
       None None None None None None)
    Sample.shared_db
  = (Sample.shared_db, error 404 "Snippet not found").
Proof.
  apply put_is_for_the_author_only.
  intros d Hd Hid _. simpl in Hd.
  destruct Hd as [<-|[<-|[<-|[]]]]; try discriminate Hid.
  discriminate.
Defined.

(** ** Revoking *)

Lemma filter_all {A} (f : A -> bool) (l : list A) :
  (forall x, In x l -> f x = true) -> filter f l = l.
Proof.
  induction l as [|a l IH]; simpl; intros H.
  - reflexivity.
  - rewrite (H a (or_introl eq_refl)). f_equal. apply IH.
    intros x Hx. apply H. now right.
Qed.

Lemma set_sharedWith_same (s : Snippet.t) :
  Snippet.set_sharedWith (Snippet.sharedWith s) s = s.
Proof. now destruct s. Qed.

(** C7, at a concrete installation: alice revokes a grant id that her
    snippet's ledger does not have; the reply is the 200 of a revocation,
    not a 404. *)
Lemma delete_share_unknown_id_reports_success :
  (forall g, In g (Snippet.sharedWith Sample.shared_secret) ->
             Share._id g <> Sample.g7)
  /\ delete_share Sample.as_alice Sample.s2 Sample.g7 Sample.shared_db =
       (Sample.shared_db,
        mkResponse 200 (JObj [("message", JStr "User removed from sharing list")]))
  /\ status (snd (delete_share Sample.as_alice Sample.s2 Sample.g7 Sample.shared_db))
     <> 404%nat.
Proof.
  split; [|split].
  - intros g [<-|[]]. discriminate.
  - reflexivity.
  - discriminate.
Qed.

(** C7, amended.  When the author revokes a grant id that the ledger of
    their active snippet does not have, the route saves the snippet as it
    was, so the ledger (and, ids being unique, the database) is unchanged,
    and it replies with the same 200 as for a grant it removed. *)
Theorem delete_share_unknown_id
    (user : ReqUser.t) (id : ObjectId) (shareEntryId : string) (db : Db)
    (s : Snippet.t) :
  Snippet_findOne
    [c_id id; c_author (ReqUser.userId user); c_isActive true] db = Some s ->
  (forall g, In g (Snippet.sharedWith s) -> Share._id g <> shareEntryId) ->
  delete_share user id shareEntryId db =
    (save s db,
     mkResponse 200 (JObj [("message", JStr "User removed from sharing list")]))
  /\ Snippet_findOne
       [c_id id; c_author (ReqUser.userId user); c_isActive true] (save s db)
     = Some s
  /\ (NoDup (map Snippet._id (snippets db)) -> save s db = db).
Proof.
  intros Hfind Hnone. split; [|split].
  - unfold delete_share. rewrite Hfind.
    rewrite filter_all, set_sharedWith_same; [reflexivity|].
    intros g Hg. destruct (String.eqb (Share._id g) shareEntryId) eqn:E.
    + apply String.eqb_eq in E. now apply Hnone in Hg.
    + reflexivity.
  - apply (findOne_save _ db s s Hfind eq_refl).
    now apply findOne_some in Hfind.
  - intros Hnd. apply save_stored; [assumption|].
    now apply findOne_some in Hfind.
Qed.

Lemma delete_share_unknown_id_witness :
  delete_share Sample.as_alice Sample.s2 Sample.g7 Sample.shared_db =
    (save Sample.shared_secret Sample.shared_db,
     mkResponse 200 (JObj [("message", JStr "User removed from sharing list")]))
  /\ save Sample.shared_secret Sample.shared_db = Sample.shared_db.
Proof.
  destruct (delete_share_unknown_id Sample.as_alice Sample.s2 Sample.g7 Sample.shared_db
              Sample.shared_secret eq_refl) as [Hreply [_ Hsame]].
  - intros g [<-|[]]. discriminate.
  - split; [exact Hreply|]. apply Hsame.
    repeat constructor; simpl; intuition discriminate.
Defined.

(** ** Sharing *)

Lemma existsb_false {A} (f : A -> bool) (l : list A) :
  existsb f l = false -> forall x, In x l -> f x = false.
Proof.
  induction l as [|a l IH]; simpl; intros H x Hx.
  - contradiction.
  - apply orb_false_iff in H. destruct H as [Ha Hl].
    destruct Hx as [<-|Hx]; [assumption|now apply IH].
Qed.

Lemma entries_for_app (e : string) (l l' : list Share.t) :
  entries_for e (l ++ l') = (entries_for e l + entries_for e l')%nat.
Proof. unfold entries_for. now rewrite filter_app, length_app. Qed.

Lemma entries_for_none (e : string) (l : list Share.t) :
  (forall g, In g l -> has_email e g = false) -> entries_for e l = 0%nat.
Proof.
  unfold entries_for. induction l as [|a l IH]; simpl; intros H.
  - reflexivity.
  - rewrite (H a (or_introl eq_refl)). apply IH. intros g Hg. apply H. now right.
Qed.

(** The test of the e-mail loop looks at the address only through its
    trimmed form and the user found for it. *)
Lemma alreadyShared_email_has_email (found : option User.t) (e : string)
    (g : Share.t) :
  alreadyShared_email found e g = false -> has_email (trim e) g = false.
Proof.
  unfold alreadyShared_email, has_email. intros H.
  apply orb_false_iff in H. tauto.
Qed.

Section Email_loop.
Variable us : list User.t.
Variable user : ReqUser.t.
Variable permissions : Permissions.t.
Variable now : Date.
Variable oid : nat -> ObjectId.

Let step := share_email us user permissions now oid.

(** One round of the loop either leaves the ledger and the list of new
    grants as they are, or adds one entry for the trimmed address to both,
    and this only when the address was not covered. *)
Lemma share_email_cases (st : Sharing) (e : string) :
  (ledger (step st e) = ledger st
   /\ sharedUsers (step st e) = sharedUsers st)
  \/ (covered us e (ledger st) = false
      /\ (exists g, ledger (step st e) = ledger st ++ [g]
                    /\ Share.email g = Some (trim e))
      /\ (exists found,
             sharedUsers (step st e) =
               sharedUsers st
               ++ [JObj [("email", JStr (trim e)); ("found", JBool found)]])).
Proof.
  unfold step, share_email, covered.
  destruct (existsb
              (alreadyShared_email (User_findOne_email us (trim e)) e)
              (ledger st)) eqn:E; simpl.
  - left. destruct (User_findOne_email us (trim e)); split; reflexivity.
  - right. split; [reflexivity|].
    destruct (User_findOne_email us (trim e)); simpl;
      (split; [eexists; split; reflexivity | eexists; reflexivity]).
Qed.

Lemma share_email_entries (x : string) (st : Sharing) (e : string) :
  (entries_for x (ledger (step st e))
   <= Nat.max 1 (entries_for x (ledger st)))%nat.
Proof.
  destruct (share_email_cases st e)
    as [[Hl _] | [Hcov [[g [Hl Hg]] _]]]; rewrite Hl.
  - lia.
  - rewrite entries_for_app.
    assert (Hone : entries_for x [g]
                   = if String.eqb (trim e) x then 1%nat else 0%nat).
    { unfold entries_for, has_email. simpl. rewrite Hg.
      now destruct (String.eqb (trim e) x). }
    rewrite Hone. destruct (String.eqb (trim e) x) eqn:E; [|lia].
    apply String.eqb_eq in E. subst x.
    rewrite (entries_for_none (trim e) (ledger st)); [lia|].
    intros g' Hg'.
    apply (alreadyShared_email_has_email (User_findOne_email us (trim e)) e).
    exact (existsb_false _ _ Hcov g' Hg').
Qed.

Lemma share_emails_entries (x : string) (emails : list string) (st : Sharing) :
  (entries_for x (ledger (fold_left step emails st))
   <= Nat.max 1 (entries_for x (ledger st)))%nat.
Proof.
  revert st. induction emails as [|e emails IH]; intros st; cbn [fold_left].
  - lia.
  - specialize (IH (step st e)).
    pose proof (share_email_entries x st e). lia.
Qed.

Lemma covered_app (e : string) (l l' : list Share.t) :
  covered us e l = true -> covered us e (l ++ l') = true.
Proof.
  unfold covered. intros H. rewrite existsb_app, H. reflexivity.
Qed.

Lemma share_email_covered (e : string) (st : Sharing) (e' : string) :
  covered us e (ledger st) = true ->
  covered us e (ledger (step st e')) = true.
Proof.
  intros H. destruct (share_email_cases st e')
    as [[Hl _] | [_ [[g [Hl _]] _]]]; rewrite Hl.
  - assumption.
  - now apply covered_app.
Qed.

(** Once its round has run, the address is covered. *)
Lemma share_email_covers (st : Sharing) (e : string) :
  covered us e (ledger (step st e)) = true.
Proof.
  destruct (covered us e (ledger st)) eqn:E.
  - now apply share_email_covered.
  - destruct (share_email_cases st e)
      as [[Hl _] | [_ [[g [Hl Hg]] _]]].
    + unfold step, share_email in Hl. fold (covered us e (ledger st)) in Hl.
      rewrite E in Hl. simpl in Hl.
      destruct (User_findOne_email us (trim e)); simpl in Hl;
        apply (f_equal (@List.length _)) in Hl;
        rewrite length_app in Hl; simpl in Hl; lia.
    + rewrite Hl. unfold covered. rewrite existsb_app. simpl.
      unfold alreadyShared_email at 2. rewrite Hg, String.eqb_refl.
      now rewrite !orb_true_r.
Qed.

Lemma share_emails_covered (e : string) (emails : list string) (st : Sharing) :
  covered us e (ledger st) = true ->
  covered us e (ledger (fold_left step emails st)) = true.
Proof.
  revert st. induction emails as [|e' emails IH]; intros st H; simpl.
  - assumption.
  - apply IH. now apply share_email_covered.
Qed.

Lemma share_emails_cover (e : string) (emails : list string) (st : Sharing) :
  In e emails ->
  covered us e (ledger (fold_left step emails st)) = true.
Proof.
  revert st. induction emails as [|e' emails IH]; intros st Hin; simpl.
  - contradiction.
  - destruct Hin as [->|Hin].
    + apply share_emails_covered, share_email_covers.
    + now apply IH.
Qed.

(** While the address is covered, no new grant is reported for it. *)
Lemma share_emails_report (e : string) (emails : list string) (st : Sharing) :
  covered us e (ledger st) = true ->
  forall j, In j (sharedUsers (fold_left step emails st)) ->
            In j (sharedUsers st) \/ get "email" j <> Some (JStr (trim e)).
Proof.
  revert st. induction emails as [|e' emails IH]; intros st Hcov j Hj; simpl in *.
  - now left.
  - destruct (IH (step st e') (share_email_covered e st e' Hcov) j Hj)
      as [Hin|Hne]; [|now right].
    destruct (share_email_cases st e')
      as [[_ Hs] | [Hcov' [_ [found Hs]]]]; rewrite Hs in Hin.
    + now left.
    + apply in_app_or in Hin. destruct Hin as [Hin|[<-|[]]]; [now left|].
      right. simpl. intros Heq. injection Heq as Heq.
      unfold covered in Hcov, Hcov'. rewrite Heq in Hcov'.
      assert (Hsame : alreadyShared_email (User_findOne_email us (trim e)) e'
                      = alreadyShared_email (User_findOne_email us (trim e)) e).
      { unfold alreadyShared_email. now rewrite Heq. }
      rewrite Hsame in Hcov'. congruence.
Qed.

(** An address that no active user has is reported as not found. *)
Lemma share_email_notFound_grows (st : Sharing) (e : string) (j : json) :
  In j (notFoundUsers st) -> In j (notFoundUsers (step st e)).
Proof.
  intros H. unfold step, share_email.
  destruct (User_findOne_email us (trim e));
    destruct (negb (existsb (alreadyShared_email _ e) (ledger st)));
    simpl; auto using in_or_app.
Qed.

Lemma share_emails_notFound_grows (emails : list string) (st : Sharing)
    (j : json) :
  In j (notFoundUsers st) -> In j (notFoundUsers (fold_left step emails st)).
Proof.
  revert st. induction emails as [|e emails IH]; intros st H; simpl.
  - assumption.
  - now apply IH, share_email_notFound_grows.
Qed.

Lemma share_emails_notFound (e : string) (emails : list string) (st : Sharing) :
  In e emails ->
  User_findOne_email us (trim e) = None ->
  In (JObj [("type", JStr "email"); ("value", JStr (trim e))])
     (notFoundUsers (fold_left step emails st)).
Proof.
  revert st. induction emails as [|e' emails IH]; intros st Hin Hnone; simpl.
  - contradiction.
  - destruct Hin as [->|Hin]; [|now apply IH].
    apply share_emails_notFound_grows. unfold step, share_email.
    rewrite Hnone.
    destruct (negb (existsb (alreadyShared_email None e) (ledger st)));
      simpl; apply in_or_app; right; now left.
Qed.
End Email_loop.

Lemma matches_set_sharedWith (id author : ObjectId) (l : list Share.t)
    (s : Snippet.t) :
  matches [c_id id; c_author author; c_isActive true]
          (Snippet.set_sharedWith l s)
  = matches [c_id id; c_author author; c_isActive true] s.
Proof. reflexivity. Qed.

(** What the share route does for the author of an active snippet when the
    request names e-mail addresses only. *)
Lemma post_share_emails (now : Date) (oid : nat -> ObjectId) (user : ReqUser.t)
    (id : ObjectId) (b : ShareBody.t) (db : Db) (s : Snippet.t) :
  Snippet_findOne
    [c_id id; c_author (ReqUser.userId user); c_isActive true] db = Some s ->
  ShareBody.usernames b = [] ->
  let st :=
    fold_left
      (share_email (users db) user
         (or_else (ShareBody.permissions b) Permissions.view) now oid)
      (ShareBody.emails b) (mkSharing (Snippet.sharedWith s) [] []) in
  let s' := Snippet.set_sharedWith (ledger st) s in
  post_share now oid user id b db =
    (save s' db,
     mkResponse 200
       (JObj [("message", JStr "Snippet shared successfully");
              ("sharedWith", JArr (sharedUsers st));
              ("notFound", JArr (notFoundUsers st));
              ("totalSharedUsers", JNum (Z.of_nat (List.length (ledger st))))]))
  /\ Snippet_findOne
       [c_id id; c_author (ReqUser.userId user); c_isActive true] (save s' db)
     = Some s'.
Proof.
  intros Hfind Hnames st s'. split.
  - unfold post_share, share_all. rewrite Hfind, Hnames. reflexivity.
  - apply (findOne_save _ db s s' Hfind eq_refl).
    unfold s'. rewrite matches_set_sharedWith.
    now apply findOne_some in Hfind.
Qed.

(** C6, at a concrete installation: alice shares her snippet twice with an
    address nobody has registered.  The second reply has no
    [alreadyShared]; it names the address under [notFound]. *)
Lemma second_share_has_no_alreadyShared :
  let b := ShareBody.mk ["dave@initech.com"] [] None in
  let first := post_share 500 Sample.oid Sample.as_alice Sample.s2 b Sample.db in
  let second := post_share 600 Sample.oid Sample.as_alice Sample.s2 b (fst first) in
  snd second =
    mkResponse 200
      (JObj [("message", JStr "Snippet shared successfully");
             ("sharedWith", JArr []);
             ("notFound",
               JArr [JObj [("type", JStr "email");
                           ("value", JStr "dave@initech.com")]]);
             ("totalSharedUsers", JNum 1)])
  /\ get "alreadyShared" (body (snd second)) = None.
Proof.
  split; reflexivity.
Qed.

(** C6, amended.  The author shares an active snippet twice, by e-mail
    addresses only, and the address [e] is among those of both requests.
    Then the second request leaves no more entries for [e] in the ledger
    than one (or than there were at the start, if there were more); it is
    answered 200; its reply does not list [e] among the new grants of
    [sharedWith] and has no [alreadyShared]; and when no active user has
    the address, the reply lists it under [notFound] once more. *)
Theorem share_same_email_twice
    (now1 now2 : Date) (oid1 oid2 : nat -> ObjectId) (user : ReqUser.t)
    (id : ObjectId) (b1 b2 : ShareBody.t) (db : Db) (s : Snippet.t)
    (e : string) :
  Snippet_findOne
    [c_id id; c_author (ReqUser.userId user); c_isActive true] db = Some s ->
  ShareBody.usernames b1 = [] ->
  ShareBody.usernames b2 = [] ->
  In e (ShareBody.emails b1) ->
  In e (ShareBody.emails b2) ->
  let first := post_share now1 oid1 user id b1 db in
  let second := post_share now2 oid2 user id b2 (fst first) in
  exists (s2 : Snippet.t) (shared missing : list json),
    Snippet_findOne
      [c_id id; c_author (ReqUser.userId user); c_isActive true] (fst second)
    = Some s2
    /\ (entries_for (trim e) (Snippet.sharedWith s2)
        <= Nat.max 1 (entries_for (trim e) (Snippet.sharedWith s)))%nat
    /\ status (snd second) = 200%nat
    /\ get "alreadyShared" (body (snd second)) = None
    /\ get "sharedWith" (body (snd second)) = Some (JArr shared)
    /\ (forall j, In j shared -> get "email" j <> Some (JStr (trim e)))
    /\ get "notFound" (body (snd second)) = Some (JArr missing)
    /\ (User_findOne_email (users db) (trim e) = None ->
        In (JObj [("type", JStr "email"); ("value", JStr (trim e))]) missing).
Proof.
  intros Hfind Hn1 Hn2 He1 He2 first second.
  destruct (post_share_emails now1 oid1 user id b1 db s Hfind Hn1)
    as [Hfirst Hfind1].
  set (st1 := fold_left _ (ShareBody.emails b1) _) in Hfirst, Hfind1.
  set (s1 := Snippet.set_sharedWith (ledger st1) s) in Hfirst, Hfind1.
  assert (Hdb1 : fst first = save s1 db) by (unfold first; now rewrite Hfirst).
  destruct (post_share_emails now2 oid2 user id b2 (save s1 db) s1 Hfind1 Hn2)
    as [Hsecond Hfind2].
  rewrite users_save in Hsecond, Hfind2.
  set (st2 := fold_left _ (ShareBody.emails b2) _) in Hsecond, Hfind2.
  set (s2 := Snippet.set_sharedWith (ledger st2) s1) in Hsecond, Hfind2.
  assert (Hsnd : second
                 = (save s2 (save s1 db),
                    mkResponse 200
                      (JObj [("message", JStr "Snippet shared successfully");
                             ("sharedWith", JArr (sharedUsers st2));
                             ("notFound", JArr (notFoundUsers st2));
                             ("totalSharedUsers",
                               JNum (Z.of_nat (List.length (ledger st2))))])))
    by (unfold second; now rewrite Hdb1).
  exists s2, (sharedUsers st2), (notFoundUsers st2). rewrite Hsnd.
  cbn [fst snd status body].
  split; [exact Hfind2|]. split; [|split; [reflexivity|]].
  - change (Snippet.sharedWith s2) with (ledger st2).
    pose proof (share_emails_entries (users db) user
                  (or_else (ShareBody.permissions b2) Permissions.view)
                  now2 oid2 (trim e) (ShareBody.emails b2)
                  (mkSharing (Snippet.sharedWith s1) [] [])) as H2.
    pose proof (share_emails_entries (users db) user
                  (or_else (ShareBody.permissions b1) Permissions.view)
                  now1 oid1 (trim e) (ShareBody.emails b1)
                  (mkSharing (Snippet.sharedWith s) [] [])) as H1.
    fold st2 in H2. fold st1 in H1. cbn [ledger] in H1, H2.
    change (Snippet.sharedWith s1) with (ledger st1) in H2. lia.
  - split; [reflexivity|]. split; [reflexivity|]. split; [|split; [reflexivity|]].
    + intros j Hj.
      destruct (share_emails_report (users db) user
                  (or_else (ShareBody.permissions b2) Permissions.view)
                  now2 oid2 e (ShareBody.emails b2)
                  (mkSharing (Snippet.sharedWith s1) [] [])) with (j := j)
        as [[]|Hne]; [|exact Hj|exact Hne].
      apply (share_emails_cover (users db) user
               (or_else (ShareBody.permissions b1) Permissions.view)
               now1 oid1 e (ShareBody.emails b1)
               (mkSharing (Snippet.sharedWith s) [] []) He1).
    + intros Hnone.
      apply (share_emails_notFound (users db) user
               (or_else (ShareBody.permissions b2) Permissions.view)
               now2 oid2 e (ShareBody.emails b2)
               (mkSharing (Snippet.sharedWith s1) [] []) He2 Hnone).
Qed.

Lemma share_same_email_twice_witness :
  let b := ShareBody.mk [" dave@initech.com"; "bob@acme.com"] [] None in
  let first := post_share 500 Sample.oid Sample.as_alice Sample.s2 b Sample.db in
  let second := post_share 600 Sample.oid Sample.as_alice Sample.s2 b (fst first) in
  exists (s2 : Snippet.t) (shared missing : list json),
    Snippet_findOne [c_id Sample.s2; c_author Sample.u1; c_isActive true] (fst second)
    = Some s2
    /\ (entries_for "dave@initech.com" (Snippet.sharedWith s2) <= 1)%nat
    /\ status (snd second) = 200%nat
    /\ get "alreadyShared" (body (snd second)) = None
    /\ get "sharedWith" (body (snd second)) = Some (JArr shared)
    /\ (forall j, In j shared ->
                  get "email" j <> Some (JStr "dave@initech.com"))
    /\ get "notFound" (body (snd second)) = Some (JArr missing)
    /\ (User_findOne_email (users Sample.db) "dave@initech.com" = None ->
        In (JObj [("type", JStr "email"); ("value", JStr "dave@initech.com")])
           missing).
Proof.
  intros b.
  apply (share_same_email_twice 500 600 Sample.oid Sample.oid Sample.as_alice
           Sample.s2 b b Sample.db Sample.secret " dave@initech.com").
  - reflexivity.
  - reflexivity.
  - reflexivity.
  - simpl. auto.
  - simpl. auto.
Defined.

(** ** Search *)

(** The query of a search without parameters. *)
Lemma search_plan_no_params (RegExp : string -> option (string -> bool))
    (user : ReqUser.t) (db : Db) :
  search_plan RegExp user no_params db =
    plan_find [c_organization (ReqUser.organization user); c_isActive true;
               visibility_permissions user].
Proof. reflexivity. Qed.

(** The visibility filter of the query, as a test on one document. *)
Lemma visibility_filter_ungranted (user : ReqUser.t) (s : Snippet.t) :
  matches [c_organization (ReqUser.organization user); c_isActive true;
           visibility_permissions user] s
  = String.eqb (Snippet.organization s) (ReqUser.organization user)
    && Evaluator.allows
         (Evaluator.decide Evaluator.by_id (Snippet.set_sharedWith [] s)
            (Some user) Evaluator.read).
Proof.
  unfold matches, visibility_permissions, Evaluator.decide,
    Evaluator.same_organization, Evaluator.granted, Evaluator.granted_edit.
  simpl.
  rewrite (String.eqb_sym (ReqUser.userId user) (Snippet.author s)).
  rewrite (String.eqb_sym (ReqUser.organization user) (Snippet.organization s)).
  destruct (String.eqb (Snippet.organization s) (ReqUser.organization user));
    destruct (Snippet.isActive s);
    destruct (String.eqb (Snippet.author s) (ReqUser.userId user));
    destruct (Snippet.visibility s); reflexivity.
Qed.

(** Every query the search builds contains the visibility filter. *)
Lemma search_query_filters (user : ReqUser.t) (conds : list Cond)
    (s : Snippet.t) :
  matches
    ([c_organization (ReqUser.organization user); c_isActive true]
     ++ match conds with
        | [] => []
        | _ => [c_and (map (fun c => [c]) conds)]
        end
     ++ [visibility_permissions user]) s = true ->
  matches [c_organization (ReqUser.organization user); c_isActive true;
           visibility_permissions user] s = true.
Proof.
  unfold matches. rewrite !forallb_app. cbn [forallb].
  rewrite !andb_true_r. intros H.
  apply andb_true_iff in H. destruct H as [Hbase Hrest].
  apply andb_true_iff in Hrest. destruct Hrest as [_ Hvis].
  apply andb_true_iff in Hbase. destruct Hbase as [Horg Hact].
  now rewrite Horg, Hact, Hvis.
Qed.

(** C8, at a concrete installation: bob holds a grant on alice's private
    snippet.  The read decision of section 4.1 allows him to read it (rule
    4); his search does not return it. *)
Lemma search_leaves_out_granted_snippet :
  search Sample.RegExp Sample.as_bob no_params Sample.shared_db
  = Some [Sample.notes]
  /\ Evaluator.readable Sample.as_bob Sample.shared_db
     = [Sample.notes; Sample.shared_secret]
  /\ search Sample.RegExp Sample.as_bob no_params Sample.shared_db
     <> Some (Evaluator.readable Sample.as_bob Sample.shared_db).
Proof.
  split; [reflexivity|]. split; [reflexivity|]. discriminate.
Qed.

(** C8, amended.  The documents a search without parameters selects are
    those of the requester's organization that the read decision of section
    4.1 allows when the share grants are left out of account; a search with
    parameters selects some of them.  The documents the read decision
    allows only with the grants are the private snippets of other authors
    on which the requester holds a grant. *)
Theorem search_is_the_ungranted_read_decision
    (RegExp : string -> option (string -> bool)) (user : ReqUser.t) (db : Db) :
  search RegExp user no_params db = Some (Evaluator.readable_ungranted user db)
  /\ (forall p,
         match search RegExp user p db with
         | Some l => incl l (Evaluator.readable_ungranted user db)
         | None => True
         end)
  /\ (forall s,
         In s (Evaluator.readable user db) <->
         In s (Evaluator.readable_ungranted user db)
         \/ (In s (snippets db)
             /\ Snippet.organization s = ReqUser.organization user
             /\ Snippet.isActive s = true
             /\ Snippet.visibility s = Visibility.private
             /\ Snippet.author s <> ReqUser.userId user
             /\ Evaluator.granted (ReqUser.userId user) s = true)).
Proof.
  split; [|split].
  - unfold search. rewrite search_plan_no_params.
    unfold Snippet_find, Evaluator.readable_ungranted.
    apply f_equal, filter_ext. apply visibility_filter_ungranted.
  - intros p. unfold search.
    assert (Hsub : forall conds,
               incl (Snippet_find
                       ([c_organization (ReqUser.organization user);
                         c_isActive true]
                        ++ match conds with
                           | [] => []
                           | _ => [c_and (map (fun c => [c]) conds)]
                           end
                        ++ [visibility_permissions user]) db)
                    (Evaluator.readable_ungranted user db)).
    { intros conds s Hs. unfold Snippet_find in Hs.
      apply filter_In in Hs. destruct Hs as [Hin Hm].
      apply search_query_filters in Hm.
      rewrite visibility_filter_ungranted in Hm.
      unfold Evaluator.readable_ungranted. apply filter_In. now split. }
    unfold search_plan.
    destruct (text_condition RegExp p) as [text|]; [|exact I].
    destruct (given (SearchParams.author p)) as [pattern|]; [|apply Hsub].
    destruct (RegExp pattern) as [test|]; [|exact I].
    destruct (User_findOne_like (users db) test (ReqUser.organization user));
      [apply Hsub | intros s []].
  - intros s. unfold Evaluator.readable, Evaluator.readable_ungranted.
    rewrite !filter_In.
    rewrite <- (String.eqb_eq (Snippet.organization s)).
    rewrite <- (String.eqb_neq (Snippet.author s)).
    unfold Evaluator.decide, Evaluator.same_organization, Evaluator.granted,
      Evaluator.granted_edit.
    cbn [option_map Evaluator.owner_only Evaluator.is_read_or_join
         Snippet.set_sharedWith Snippet.isActive Snippet.author
         Snippet.sharedWith Snippet.visibility Snippet.organization existsb].
    rewrite (String.eqb_sym (ReqUser.userId user) (Snippet.author s)).
    rewrite (String.eqb_sym (ReqUser.organization user) (Snippet.organization s)).
    destruct (String.eqb (Snippet.organization s) (ReqUser.organization user));
      destruct (Snippet.isActive s);
      destruct (String.eqb (Snippet.author s) (ReqUser.userId user));
      destruct (existsb (names_user (ReqUser.userId user))
                        (Snippet.sharedWith s));
      destruct (Snippet.visibility s);
      rewrite ?andb_false_r; cbn;
      intuition (try discriminate; try congruence).
Qed.

Lemma search_is_the_ungranted_read_decision_witness :
  search Sample.RegExp Sample.as_bob no_params Sample.shared_db
  = Some [Sample.notes]
  /\ In Sample.shared_secret (Evaluator.readable Sample.as_bob Sample.shared_db)
  /\ ~ In Sample.shared_secret
         (Evaluator.readable_ungranted Sample.as_bob Sample.shared_db).
Proof.
  destruct (search_is_the_ungranted_read_decision Sample.RegExp Sample.as_bob
              Sample.shared_db) as [Hsearch [_ Hgrant]].
  split; [exact Hsearch|]. split.
  - apply Hgrant. right. repeat split; try reflexivity.
    + simpl. auto.
    + discriminate.
  - cbv. intros [H|[]]. discriminate H.
Defined.

(** * Further properties of the routes *)

(** ** The store, once more *)

Lemma save_save (s1 s2 : Snippet.t) (db : Db) :
  Snippet._id s1 = Snippet._id s2 ->
  save s2 (save s1 db) = save s2 db.
Proof.
  intros Hid. unfold save. simpl. f_equal. rewrite map_map.
  apply map_ext. intros d.
  destruct (String.eqb (Snippet._id d) (Snippet._id s1)) eqn:E1.
  - rewrite Hid in E1. rewrite E1. rewrite Hid, String.eqb_refl. reflexivity.
  - reflexivity.
Qed.

(** With unique [_id]s, a stored document is the one its id finds. *)
Lemma findOne_by_id (db : Db) (s : Snippet.t) (q : Query) :
  In s (snippets db) ->
  NoDup (map Snippet._id (snippets db)) ->
  matches q s = true ->
  Snippet_findOne (c_id (Snippet._id s) :: q) db = Some s.
Proof.
  unfold Snippet_findOne. induction (snippets db) as [|d l IH]; simpl.
  - contradiction.
  - intros Hin Hnd Hq. inversion Hnd as [|? ? Hnot Hnd']. subst.
    destruct Hin as [->|Hin].
    + now rewrite String.eqb_refl, Hq.
    + destruct (String.eqb (Snippet._id d) (Snippet._id s)) eqn:E.
      * apply String.eqb_eq in E. exfalso. apply Hnot. rewrite E.
        now apply in_map.
      * simpl. now apply IH.
Qed.

Lemma filter_none {A} (f : A -> bool) (l : list A) :
  (forall x, In x l -> f x = false) -> filter f l = [].
Proof.
  induction l as [|a l IH]; simpl; intros H.
  - reflexivity.
  - rewrite (H a (or_introl eq_refl)). apply IH. intros x Hx. apply H. now right.
Qed.

Lemma filter_filter_weaker {A} (f g : A -> bool) (l : list A) :
  (forall x, g x = true -> f x = true) ->
  filter g (filter f l) = filter g l.
Proof.
  intros H. induction l as [|a l IH]; simpl.
  - reflexivity.
  - destruct (f a) eqn:Ef; simpl.
    + now rewrite IH.
    + destruct (g a) eqn:Eg; [|assumption].
      apply H in Eg. congruence.
Qed.

(** ** Presence, once more *)

(** X1.  When the join route admits the requester to an active snippet,
    the stored presence list afterwards holds exactly one entry of the
    requester, the new one with the time and socket of this call (none if
    the clean-up ran five minutes or more after the entry was stamped), and
    of the other viewers exactly the entries that were there and are not
    older than five minutes. *)
Theorem join_view_one_entry
    (now now' : Date) (oid : ObjectId) (user : ReqUser.t) (id : ObjectId)
    (socketId : option string) (db : Db) (s : Snippet.t) :
  Snippet_findOne [c_id id; c_isActive true] db = Some s ->
  may_join user s = true ->
  exists s',
    Snippet_findOne [c_id id; c_isActive true]
      (fst (join_view now now' oid user id socketId db)) = Some s'
    /\ entries_of (ReqUser.userId user) (Snippet.currentViewers s')
       = (if fiveMinutesAgo now' <? now
          then [Viewer.mk oid (ReqUser.userId user) now socketId]
          else [])
    /\ (forall v, Viewer.user v <> ReqUser.userId user ->
          (In v (Snippet.currentViewers s') <->
           In v (Snippet.currentViewers s)
           /\ fiveMinutesAgo now' < Viewer.lastSeen v)).
Proof.
  intros Hfind Hjoin.
  rewrite (join_view_found now now' oid user id socketId db s Hfind), Hjoin.
  set (joined := Snippet.set_currentViewers _ s).
  exists (fst (cleanupViewers now' joined db)). cbn [fst snd cleanupViewers].
  split; [|split].
  - apply (findOne_save _ db s _ Hfind); [reflexivity|].
    now apply findOne_some in Hfind.
  - cbn [Snippet.currentViewers Snippet.set_currentViewers joined].
    unfold entries_of. rewrite !filter_app. cbn [filter Viewer.lastSeen Viewer.user].
    rewrite filter_none.
    + destruct (fiveMinutesAgo now' <? now); cbn [filter Viewer.user];
        [rewrite String.eqb_refl|]; reflexivity.
    + intros x Hx. apply filter_In in Hx. destruct Hx as [Hx _].
      apply filter_In in Hx. destruct Hx as [_ Hx].
      now apply negb_true_iff in Hx.
  - intros v Hv.
    cbn [Snippet.currentViewers Snippet.set_currentViewers joined].
    rewrite filter_In, in_app_iff, filter_In, Z.ltb_lt.
    cbn [In]. rewrite negb_true_iff.
    assert (Hne : String.eqb (Viewer.user v) (ReqUser.userId user) = false)
      by now apply String.eqb_neq.
    split.
    + intros [[[Hin _]|[Heq|[]]] Hfresh]; [tauto|].
      subst v. cbn in Hv. congruence.
    + tauto.
Qed.

Lemma join_view_one_entry_witness :
  exists s',
    Snippet_findOne [c_id Sample.s1; c_isActive true]
      (fst (join_view 1000000 1000020 Sample.v9 Sample.as_bob Sample.s1
              (Some "sock-9") Sample.db)) = Some s'
    /\ entries_of Sample.u2 (Snippet.currentViewers s')
       = [Viewer.mk Sample.v9 Sample.u2 1000000 (Some "sock-9")]
    /\ (forall v, Viewer.user v <> Sample.u2 ->
          (In v (Snippet.currentViewers s') <->
           In v (Snippet.currentViewers Sample.notes)
           /\ fiveMinutesAgo 1000020 < Viewer.lastSeen v)).
Proof.
  exact (join_view_one_entry 1000000 1000020 Sample.v9 Sample.as_bob Sample.s1
           (Some "sock-9") Sample.db Sample.notes eq_refl eq_refl).
Defined.

(** X2.  The leave route tests no access: for every requester and every
    active snippet it replies 200, and the stored presence list afterwards
    is the old one without the requester's entries; the entries of the
    other viewers stay, old ones included, for the route does not clean
    up.  Leaving once more changes nothing. *)
Theorem leave_view_removes_the_viewer_only
    (user : ReqUser.t) (id : ObjectId) (db : Db) (s : Snippet.t) :
  Snippet_findOne [c_id id; c_isActive true] db = Some s ->
  snd (leave_view user id db)
  = mkResponse 200 (JObj [("message", JStr "Left snippet viewing")])
  /\ exists s',
       Snippet_findOne [c_id id; c_isActive true] (fst (leave_view user id db))
       = Some s'
       /\ entries_of (ReqUser.userId user) (Snippet.currentViewers s') = []
       /\ (forall v, Viewer.user v <> ReqUser.userId user ->
             (In v (Snippet.currentViewers s')
              <-> In v (Snippet.currentViewers s)))
       /\ leave_view user id (fst (leave_view user id db))
          = (fst (leave_view user id db),
             mkResponse 200 (JObj [("message", JStr "Left snippet viewing")])).
Proof.
  intros Hfind.
  set (s' := Snippet.set_currentViewers
               (filter (fun viewer =>
                          negb (String.eqb (Viewer.user viewer)
                                           (ReqUser.userId user)))
                       (Snippet.currentViewers s)) s).
  assert (Hleave : leave_view user id db
                   = (save s' db,
                      mkResponse 200
                        (JObj [("message", JStr "Left snippet viewing")]))).
  { unfold leave_view. now rewrite Hfind. }
  assert (Hfind' : Snippet_findOne [c_id id; c_isActive true] (save s' db)
                   = Some s').
  { apply (findOne_save _ db s s' Hfind); [reflexivity|].
    now apply findOne_some in Hfind. }
  rewrite Hleave. cbn [fst snd]. split; [reflexivity|].
  exists s'. split; [exact Hfind'|]. split; [|split].
  - unfold entries_of, s'.
    cbn [Snippet.currentViewers Snippet.set_currentViewers].
    apply filter_none. intros x Hx. apply filter_In in Hx.
    destruct Hx as [_ Hx]. now apply negb_true_iff in Hx.
  - intros v Hv. unfold s'.
    cbn [Snippet.currentViewers Snippet.set_currentViewers].
    rewrite filter_In, negb_true_iff.
    assert (String.eqb (Viewer.user v) (ReqUser.userId user) = false)
      by now apply String.eqb_neq.
    tauto.
  - unfold leave_view. rewrite Hfind'. f_equal.
    rewrite save_save by reflexivity. f_equal.
    unfold s'. cbn [Snippet.currentViewers Snippet.set_currentViewers].
    rewrite filter_filter_weaker by auto. reflexivity.
Qed.

Lemma leave_view_removes_the_viewer_only_witness :
  snd (leave_view Sample.as_carol Sample.s2 Sample.db)
  = mkResponse 200 (JObj [("message", JStr "Left snippet viewing")])
  /\ exists s',
       Snippet_findOne [c_id Sample.s2; c_isActive true]
         (fst (leave_view Sample.as_carol Sample.s2 Sample.db)) = Some s'
       /\ entries_of Sample.u3 (Snippet.currentViewers s') = []
       /\ (forall v, Viewer.user v <> Sample.u3 ->
             (In v (Snippet.currentViewers s')
              <-> In v (Snippet.currentViewers Sample.secret)))
       /\ leave_view Sample.as_carol Sample.s2
            (fst (leave_view Sample.as_carol Sample.s2 Sample.db))
          = (fst (leave_view Sample.as_carol Sample.s2 Sample.db),
             mkResponse 200 (JObj [("message", JStr "Left snippet viewing")])).
Proof.
  exact (leave_view_removes_the_viewer_only Sample.as_carol Sample.s2 Sample.db
           Sample.secret eq_refl).
Defined.

(** X3.  The lazy clean-up loses nothing: where the users of the viewers
    are stored, a call of the viewers route replies, and leaves the stored
    presence list, as if no earlier call of it (by anyone, at an earlier or
    equal time) had cleaned the list before. *)
Theorem get_viewers_after_get_viewers
    (now1 now2 : Date) (user1 user2 : ReqUser.t) (id : ObjectId) (db : Db)
    (s : Snippet.t) :
  Snippet_findOne [c_id id; c_isActive true] db = Some s ->
  viewers_stored (users db) s ->
  now1 <= now2 ->
  let after :=
    get_viewers now2 user2 id (fst (get_viewers now1 user1 id db)) in
  let alone := get_viewers now2 user2 id db in
  snd after = snd alone
  /\ option_map Snippet.currentViewers
       (Snippet_findOne [c_id id; c_isActive true] (fst after))
     = option_map Snippet.currentViewers
         (Snippet_findOne [c_id id; c_isActive true] (fst alone)).
Proof.
  intros Hfind _ Hle after alone.
  assert (Hsame : after = alone).
  { unfold after, alone.
    rewrite (get_viewers_found now1 user1 id db s Hfind). cbn [fst].
    set (s1 := fst (cleanupViewers now1 s db)).
    assert (Hfind1 : Snippet_findOne [c_id id; c_isActive true]
                       (snd (cleanupViewers now1 s db)) = Some s1).
    { apply (findOne_save _ db s s1 Hfind); [reflexivity|].
      now apply findOne_some in Hfind. }
    rewrite (get_viewers_found now2 user2 id _ s1 Hfind1).
    rewrite (get_viewers_found now2 user2 id db s Hfind).
    assert (Hs : fst (cleanupViewers now2 s1 (snd (cleanupViewers now1 s db)))
                 = fst (cleanupViewers now2 s db)).
    { unfold s1, cleanupViewers. cbn [fst snd Snippet.currentViewers
        Snippet.set_currentViewers].
      rewrite filter_filter_weaker; [reflexivity|].
      intros x Hx. apply Z.ltb_lt in Hx. apply Z.ltb_lt.
      unfold fiveMinutesAgo in *. lia. }
    rewrite Hs. f_equal.
    unfold cleanupViewers in *. cbn [fst snd] in *.
    rewrite <- Hs at 1. cbn [Snippet.currentViewers Snippet.set_currentViewers].
    rewrite save_save by reflexivity. now rewrite Hs. }
  rewrite Hsame. split; reflexivity.
Qed.

Lemma get_viewers_after_get_viewers_witness :
  snd (get_viewers 1200000 Sample.as_bob Sample.s1
         (fst (get_viewers 1000000 Sample.as_carol Sample.s1 Sample.db)))
  = snd (get_viewers 1200000 Sample.as_bob Sample.s1 Sample.db).
Proof.
  apply (get_viewers_after_get_viewers 1000000 1200000 Sample.as_carol
           Sample.as_bob Sample.s1 Sample.db Sample.notes).
  - reflexivity.
  - intros v Hv. cbn in Hv.
    repeat (destruct Hv as [<-|Hv]; [discriminate|]). destruct Hv.
  - lia.
Defined.

(** ** JSON objects *)

Lemma assoc_assign_same (k : string) (v : json) (fields : list (string * json)) :
  assoc k (assign k v fields) = Some v.
Proof.
  induction fields as [|[k' v'] rest IH]; simpl.
  - now rewrite String.eqb_refl.
  - destruct (String.eqb k k') eqn:E; simpl; rewrite ?E, ?String.eqb_refl; auto.
Qed.

Lemma assoc_assign_other (k k' : string) (v : json)
    (fields : list (string * json)) :
  k <> k' -> assoc k (assign k' v fields) = assoc k fields.
Proof.
  intros Hne. apply String.eqb_neq in Hne.
  induction fields as [|[k'' v''] rest IH]; simpl.
  - now rewrite Hne.
  - destruct (String.eqb k' k'') eqn:E; simpl.
    + apply String.eqb_eq in E. subst k''. now rewrite Hne.
    + now rewrite IH.
Qed.

(** ** Reading by id, once more *)

Lemma findById_id (us : list User.t) (id : ObjectId) (u : User.t) :
  User_findById us id = Some u -> User._id u = id.
Proof.
  unfold User_findById. intros H. apply find_some in H.
  now apply String.eqb_eq.
Qed.

(** X4.  An active private snippet read by id: its author and every user a
    grant names get 200 with the content; every other requester, of
    whatever organization, gets 403 and the database is left as it was. *)
Theorem get_by_id_private
    (now : Date) (user : ReqUser.t) (id : ObjectId) (db : Db)
    (s : Snippet.t) (author : User.t) :
  Snippet_findOne [c_id id; c_isActive true] db = Some s ->
  Snippet.visibility s = Visibility.private ->
  User_findById (users db) (Snippet.author s) = Some author ->
  if String.eqb (Snippet.author s) (ReqUser.userId user)
     || existsb (names_user (ReqUser.userId user)) (Snippet.sharedWith s)
  then status (snd (get_by_id now user id db)) = 200%nat
       /\ get "content" (body (snd (get_by_id now user id db)))
          = Some (JStr (Snippet.content s))
  else get_by_id now user id db = (db, error 403 "Access denied").
Proof.
  intros Hfind Hvis Hauthor. unfold get_by_id.
  rewrite Hfind, Hauthor, Hvis, (findById_id _ _ _ Hauthor).
  destruct (String.eqb (Snippet.author s) (ReqUser.userId user));
    destruct (existsb (names_user (ReqUser.userId user)) (Snippet.sharedWith s));
    cbn [orb negb andb Visibility.eqb]; try (split; reflexivity); reflexivity.
Qed.

Lemma get_by_id_private_witness :
  get_by_id 1000000 Sample.as_carol Sample.s2 Sample.shared_db
  = (Sample.shared_db, error 403 "Access denied")
  /\ status (snd (get_by_id 1000000 Sample.as_bob Sample.s2 Sample.shared_db))
     = 200%nat
  /\ get "content"
       (body (snd (get_by_id 1000000 Sample.as_bob Sample.s2 Sample.shared_db)))
     = Some (JStr "export TOKEN=abc").
Proof.
  split.
  - exact (get_by_id_private 1000000 Sample.as_carol Sample.s2 Sample.shared_db
             Sample.shared_secret Sample.alice eq_refl eq_refl eq_refl).
  - exact (get_by_id_private 1000000 Sample.as_bob Sample.s2 Sample.shared_db
             Sample.shared_secret Sample.alice eq_refl eq_refl eq_refl).
Defined.

(** X5.  In the reply of the get-by-id route, [sharingInfo] is the
    permission and date of the first grant that names the requester, and
    such a requester is always admitted; for a requester no grant names it
    is [null] whenever the route admits them. *)
Theorem get_by_id_sharingInfo
    (now : Date) (user : ReqUser.t) (id : ObjectId) (db : Db)
    (s : Snippet.t) (author : User.t) :
  Snippet_findOne [c_id id; c_isActive true] db = Some s ->
  User_findById (users db) (Snippet.author s) = Some author ->
  match find (names_user (ReqUser.userId user)) (Snippet.sharedWith s) with
  | Some grant =>
      status (snd (get_by_id now user id db)) = 200%nat
      /\ get "sharingInfo" (body (snd (get_by_id now user id db)))
         = Some (JObj [("permissions",
                         JStr (Permissions.toString (Share.permissions grant)));
                       ("sharedAt", JNum (Share.sharedAt grant))])
  | None =>
      status (snd (get_by_id now user id db)) = 200%nat ->
      get "sharingInfo" (body (snd (get_by_id now user id db))) = Some JNull
  end.
Proof.
  intros Hfind Hauthor. unfold get_by_id. rewrite Hfind, Hauthor.
  assert (Hex : existsb (names_user (ReqUser.userId user)) (Snippet.sharedWith s)
                = match find (names_user (ReqUser.userId user))
                          (Snippet.sharedWith s) with
                  | Some _ => true
                  | None => false
                  end).
  { induction (Snippet.sharedWith s) as [|g l IH]; simpl; [reflexivity|].
    destruct (names_user (ReqUser.userId user) g); [reflexivity|exact IH]. }
  rewrite Hex.
  destruct (find (names_user (ReqUser.userId user)) (Snippet.sharedWith s))
    as [grant|] eqn:Efind.
  - rewrite !andb_false_r.
    cbn [negb andb fst snd cleanupViewers status body get
         Snippet.sharedWith Snippet.set_currentViewers].
    rewrite Efind. split; [reflexivity|].
    rewrite assoc_assign_other by discriminate.
    apply assoc_assign_same.
  - destruct (negb (String.eqb (User._id author) (ReqUser.userId user))
              && negb false
              && negb (Visibility.eqb (Snippet.visibility s)
                         Visibility.organization
                       && String.eqb (Snippet.organization s)
                                     (ReqUser.organization user))
              && negb (Visibility.eqb (Snippet.visibility s) Visibility.public));
      [destruct (Visibility.eqb (Snippet.visibility s) Visibility.private)|];
      cbn [fst snd cleanupViewers status body get error];
      intros Hst; try discriminate Hst;
      (rewrite assoc_assign_other by discriminate; apply assoc_assign_same).
Qed.

Lemma get_by_id_sharingInfo_witness :
  status (snd (get_by_id 1000000 Sample.as_bob Sample.s2 Sample.shared_db))
  = 200%nat
  /\ get "sharingInfo"
       (body (snd (get_by_id 1000000 Sample.as_bob Sample.s2 Sample.shared_db)))
     = Some (JObj [("permissions", JStr "edit"); ("sharedAt", JNum 500)]).
Proof.
  exact (get_by_id_sharingInfo 1000000 Sample.as_bob Sample.s2 Sample.shared_db
           Sample.shared_secret Sample.alice eq_refl eq_refl).
Defined.

(** ** Share links, once more *)

(** Counting by one is exact up to [2^53], and stops there. *)
Lemma Number_add_counts (views : Z) :
  counts views -> Number_add views 1 = views + 1.
Proof.
  unfold counts, Number_add, round_to_double.
  change (2 ^ 53) with 9007199254740992. intros Hv. cbv zeta.
  destruct (Z.abs (views + 1) <? 9007199254740992) eqn:E; [reflexivity|].
  apply Z.ltb_ge in E.
  assert (Hmax : views + 1 = 9007199254740992) by lia.
  rewrite Hmax. reflexivity.
Qed.

Lemma Number_add_stops : Number_add (2 ^ 53) 1 = 2 ^ 53.
Proof. reflexivity. Qed.

(** What the share link route does when it serves. *)
Lemma get_by_shareId_served (requester : option ReqUser.t) (db : Db)
    (s : Snippet.t) :
  Snippet_findOne [c_shareId (Snippet.shareId s); c_isActive true] db
  = Some s ->
  match Snippet.visibility s with
  | Visibility.public => True
  | _ => exists u, requester = Some u
                   /\ ReqUser.organization u = Snippet.organization s
  end ->
  let seen := Snippet.set_views (Number_add (Snippet.views s) 1) s in
  get_by_shareId requester (Snippet.shareId s) db
  = (save seen db,
     mkResponse 200
       (JObj (Snippet_toObject (author_username (users db)) JStr seen)))
  /\ Snippet_findOne [c_shareId (Snippet.shareId s); c_isActive true]
       (save seen db) = Some seen.
Proof.
  intros Hfind Hserved seen. split.
  - unfold get_by_shareId. rewrite Hfind.
    destruct (Snippet.visibility s); [| |reflexivity];
      destruct Hserved as [u [-> Horg]];
      now rewrite Horg, String.eqb_refl.
  - apply (findOne_save _ db s seen Hfind); [reflexivity|].
    now apply findOne_some in Hfind.
Qed.

(** X6.  An active snippet reached through its [shareId]: a public one is
    served to every requester, anonymous included; one of visibility
    [organization] is served to the signed-in requesters of its
    organization and refused with 403 to all others.  A served request
    replies 200 with the content and stores the sum of [views] and 1 as a
    [Number]: one more view, as long as the count is below [2^53]. *)
Theorem share_link_public_and_organization (db : Db) (s : Snippet.t) :
  In s (snippets db) ->
  NoDup (map Snippet.shareId (snippets db)) ->
  Snippet.isActive s = true ->
  let served (r : Db * Response) :=
    status (snd r) = 200%nat
    /\ get "content" (body (snd r)) = Some (JStr (Snippet.content s))
    /\ option_map Snippet.views
         (Snippet_findOne [c_shareId (Snippet.shareId s); c_isActive true]
            (fst r))
       = Some (Number_add (Snippet.views s) 1)
    /\ (counts (Snippet.views s) ->
        Number_add (Snippet.views s) 1 = Snippet.views s + 1) in
  (Snippet.visibility s = Visibility.public ->
   forall requester : option ReqUser.t,
     served (get_by_shareId requester (Snippet.shareId s) db))
  /\ (Snippet.visibility s = Visibility.organization ->
      (forall u : ReqUser.t,
          ReqUser.organization u = Snippet.organization s ->
          served (get_by_shareId (Some u) (Snippet.shareId s) db))
      /\ (forall u : ReqUser.t,
             ReqUser.organization u <> Snippet.organization s ->
             get_by_shareId (Some u) (Snippet.shareId s) db
             = (db, outside_organization))
      /\ get_by_shareId None (Snippet.shareId s) db
         = (db, outside_organization)).
Proof.
  intros Hin Hnd Hact served.
  pose proof (findOne_shareId db s Hin Hnd Hact) as Hfind.
  assert (Hserved : forall requester,
             match Snippet.visibility s with
             | Visibility.public => True
             | _ => exists u, requester = Some u
                              /\ ReqUser.organization u
                                 = Snippet.organization s
             end ->
             served (get_by_shareId requester (Snippet.shareId s) db)).
  { intros requester Hok.
    destruct (get_by_shareId_served requester db s Hfind Hok) as [-> Hseen].
    unfold served. cbn [fst snd status body]. rewrite Hseen.
    repeat split; try reflexivity. apply Number_add_counts. }
  split; intros Hvis.
  - intros requester. apply Hserved. now rewrite Hvis.
  - split; [|split].
    + intros u Horg. apply Hserved. rewrite Hvis. now exists u.
    + intros u Horg. unfold get_by_shareId. rewrite Hfind, Hvis.
      destruct (String.eqb (Snippet.organization s) (ReqUser.organization u))
        eqn:E; [|reflexivity].
      apply String.eqb_eq in E. congruence.
    + unfold get_by_shareId. now rewrite Hfind, Hvis.
Qed.

Lemma share_link_public_and_organization_witness :
  (let r := get_by_shareId (Some Sample.as_bob) "link-1" Sample.db in
   status (snd r) = 200%nat
   /\ option_map Snippet.views
        (Snippet_findOne [c_shareId "link-1"; c_isActive true] (fst r))
      = Some (Snippet.views Sample.notes + 1))
  /\ get_by_shareId (Some Sample.as_carol) "link-1" Sample.db
     = (Sample.db, outside_organization)
  /\ get_by_shareId None "link-1" Sample.db = (Sample.db, outside_organization).
Proof.
  assert (In Sample.notes (snippets Sample.db)) as Hin by (simpl; auto).
  assert (NoDup (map Snippet.shareId (snippets Sample.db))) as Hnd
    by (repeat constructor; simpl; intuition discriminate).
  destruct (share_link_public_and_organization Sample.db Sample.notes Hin Hnd
              eq_refl) as [_ Horg].
  destruct (Horg eq_refl) as [Hsame [Hother Hanon]].
  split; [|split].
  - destruct (Hsame Sample.as_bob eq_refl) as (Hst & _ & Hviews & _).
    split; [exact Hst|exact Hviews].
  - apply (Hother Sample.as_carol). discriminate.
  - exact Hanon.
Defined.

(** The stored snippet after a list of requests through the link of a
    public snippet. *)
Lemma visits_found (shareId : string) (requesters : list (option ReqUser.t))
    (db : Db) (s : Snippet.t) :
  Snippet_findOne [c_shareId shareId; c_isActive true] db = Some s ->
  Snippet.visibility s = Visibility.public ->
  Snippet_findOne [c_shareId shareId; c_isActive true]
    (visits shareId requesters db)
  = Some (Snippet.set_views
            (fold_left (fun views _ => Number_add views 1) requesters
                       (Snippet.views s)) s).
Proof.
  unfold visits. revert db s.
  induction requesters as [|r rs IH]; intros db s Hfind Hvis.
  - cbn [fold_left]. rewrite Hfind. now destruct s.
  - cbn [fold_left].
    set (seen := Snippet.set_views (Number_add (Snippet.views s) 1) s).
    assert (Hstep : fst (get_by_shareId r shareId db) = save seen db).
    { unfold get_by_shareId. rewrite Hfind, Hvis. reflexivity. }
    rewrite Hstep. rewrite (IH (save seen db) seen).
    + reflexivity.
    + apply (findOne_save _ db s seen Hfind); [reflexivity|].
      now apply findOne_some in Hfind.
    + exact Hvis.
Qed.

Lemma counting_up (A : Type) (l : list A) (views : Z) :
  - 2 ^ 53 <= views ->
  views + Z.of_nat (List.length l) <= 2 ^ 53 ->
  fold_left (fun v _ => Number_add v 1) l views
  = views + Z.of_nat (List.length l).
Proof.
  revert views. induction l as [|a l IH]; intros views Hlow Hhigh.
  - cbn [fold_left List.length Z.of_nat]. lia.
  - cbn [fold_left]. cbn [List.length] in *.
    rewrite Nat2Z.inj_succ in *.
    rewrite Number_add_counts by (unfold counts; lia).
    rewrite IH by lia. lia.
Qed.

Lemma counting_stopped (A : Type) (l : list A) :
  fold_left (fun v _ => Number_add v 1) l (2 ^ 53) = 2 ^ 53.
Proof.
  induction l as [|a l IH]; [reflexivity|].
  cbn [fold_left]. rewrite Number_add_stops. exact IH.
Qed.

(** X7.  The view counter counts up to [2^53] and stops there: after any
    number of requests through the link of an active public snippet, one
    after the other, the stored [views] are as many more, as long as that
    does not pass [2^53]; and stored [views] of [2^53] stay what they are,
    however many requests follow. *)
Theorem share_link_counts_views
    (shareId : string) (requesters : list (option ReqUser.t)) (db : Db)
    (s : Snippet.t) :
  Snippet_findOne [c_shareId shareId; c_isActive true] db = Some s ->
  Snippet.visibility s = Visibility.public ->
  let views_after :=
    option_map Snippet.views
      (Snippet_findOne [c_shareId shareId; c_isActive true]
         (visits shareId requesters db)) in
  (- 2 ^ 53 <= Snippet.views s ->
   Snippet.views s + Z.of_nat (List.length requesters) <= 2 ^ 53 ->
   views_after
   = Some (Snippet.views s + Z.of_nat (List.length requesters)))
  /\ (Snippet.views s = 2 ^ 53 -> views_after = Some (2 ^ 53)).
Proof.
  intros Hfind Hvis views_after. unfold views_after.
  rewrite (visits_found shareId requesters db s Hfind Hvis).
  cbn [option_map Snippet.views Snippet.set_views]. split.
  - intros Hlow Hhigh. now rewrite counting_up.
  - intros ->. now rewrite counting_stopped.
Qed.

Lemma share_link_counts_views_witness :
  option_map Snippet.views
    (Snippet_findOne [c_shareId "link-4"; c_isActive true]
       (visits "link-4" [None; Some Sample.as_bob; None] Sample_public.db))
  = Some 6.
Proof.
  apply (share_link_counts_views "link-4" [None; Some Sample.as_bob; None]
           Sample_public.db Sample_public.gist eq_refl eq_refl).
  - cbn. lia.
  - cbn. lia.
Defined.

(** ** Deleting, once more *)

Lemma NoDup_map_eq {A B} (f : A -> B) (l : list A) (x y : A) :
  NoDup (map f l) -> In x l -> In y l -> f x = f y -> x = y.
Proof.
  induction l as [|a l IH]; simpl; intros Hnd Hx Hy Heq.
  - contradiction.
  - inversion Hnd as [|? ? Hnot Hnd']. subst.
    destruct Hx as [->|Hx]; destruct Hy as [->|Hy]; auto.
    + exfalso. apply Hnot. rewrite Heq. now apply in_map.
    + exfalso. apply Hnot. rewrite <- Heq. now apply in_map.
Qed.

(** X8.  Once its author has deleted a snippet, the routes that read,
    update, share, unshare, join, leave and list the viewers of the snippet
    with that id answer 404 to every requester, the author included, and
    leave the database as it is; so does the share link, in a store with
    unique [shareId]s.  The delete route is the exception: it answers the
    author 200 once more, and changes nothing of the stored documents. *)
Theorem deleted_snippet_is_not_found
    (owner : ReqUser.t) (id : ObjectId) (db : Db) (s : Snippet.t) :
  Snippet_findOne [c_id id; c_author (ReqUser.userId owner)] db = Some s ->
  let db' := fst (delete owner id db) in
  forall (now now' : Date) (oid : ObjectId) (oids : nat -> ObjectId)
         (user : ReqUser.t),
    get_by_id now user id db' = (db', error 404 "Snippet not found")
    /\ get_viewers now user id db' = (db', error 404 "Snippet not found")
    /\ (forall sock,
          join_view now now' oid user id sock db'
          = (db', error 404 "Snippet not found"))
    /\ leave_view user id db' = (db', error 404 "Snippet not found")
    /\ (forall b, put user id b db' = (db', error 404 "Snippet not found"))
    /\ (forall b,
          post_share now oids user id b db'
          = (db', error 404 "Snippet not found or access denied"))
    /\ (forall e,
          delete_share user id e db'
          = (db', error 404 "Snippet not found or access denied"))
    /\ (NoDup (map Snippet.shareId (snippets db)) ->
        forall requester,
          get_by_shareId requester (Snippet.shareId s) db'
          = (db', error 404 "Snippet not found"))
    /\ delete owner id db'
       = (db', mkResponse 200 (JObj [("message", JStr "Snippet deleted")])).
Proof.
  intros Hfind db' now now' oid oids user.
  assert (Hdb' : db' = save (Snippet.set_isActive false s) db).
  { unfold db', delete. now rewrite Hfind. }
  destruct (findOne_some _ _ _ Hfind) as [Hin Hm].
  assert (Hid : Snippet._id s = id).
  { unfold matches in Hm. simpl in Hm. apply andb_prop in Hm.
    now apply String.eqb_eq. }
  assert (Hstored : forall d, In d (snippets db') ->
            d = Snippet.set_isActive false s
            \/ (In d (snippets db) /\ Snippet._id d <> id)).
  { intros d Hd. rewrite Hdb' in Hd. unfold save in Hd. cbn [snippets] in Hd.
    apply in_map_iff in Hd. destruct Hd as [d0 [Hd0 Hin0]].
    cbn [Snippet._id Snippet.set_isActive] in Hd0.
    destruct (String.eqb (Snippet._id d0) (Snippet._id s)) eqn:E.
    - now left.
    - right. subst d. split; [assumption|].
      apply String.eqb_neq in E. congruence. }
  assert (Hinactive : forall d, In d (snippets db') -> Snippet._id d = id ->
                                Snippet.isActive d = false).
  { intros d Hd Hdid. destruct (Hstored d Hd) as [->|[_ Hne]];
      [reflexivity|contradiction]. }
  destruct (inactive_not_found id db' Hinactive now now' oid oids user)
    as (H1 & H2 & H3 & H4 & H5 & H6 & H7).
  repeat (split; [assumption|]).
  split.
  - intros Hnd requester. unfold get_by_shareId.
    rewrite findOne_none; [reflexivity|].
    intros d Hd. unfold matches. cbn [forallb holds].
    destruct (String.eqb (Snippet.shareId d) (Snippet.shareId s)) eqn:E;
      [|reflexivity].
    apply String.eqb_eq in E.
    destruct (Hstored d Hd) as [->|[Hd0 Hne]]; [reflexivity|].
    exfalso. apply Hne. rewrite <- Hid. f_equal.
    exact (NoDup_map_eq Snippet.shareId (snippets db) d s Hnd Hd0 Hin E).
  - assert (Hagain : Snippet_findOne
                       [c_id id; c_author (ReqUser.userId owner)] db'
                     = Some (Snippet.set_isActive false s)).
    { rewrite Hdb'. apply (findOne_save _ db s _ Hfind); [reflexivity|].
      exact Hm. }
    unfold delete. rewrite Hagain.
    replace (Snippet.set_isActive false (Snippet.set_isActive false s))
      with (Snippet.set_isActive false s) by reflexivity.
    f_equal. rewrite Hdb'. now rewrite save_save.
Qed.

Lemma deleted_snippet_is_not_found_witness :
  let db' := fst (delete Sample.as_alice Sample.s1 Sample.db) in
  get_by_id 1000000 Sample.as_alice Sample.s1 db'
  = (db', error 404 "Snippet not found")
  /\ get_by_shareId (Some Sample.as_alice) "link-1" db'
     = (db', error 404 "Snippet not found").
Proof.
  intros db'.
  destruct (deleted_snippet_is_not_found Sample.as_alice Sample.s1 Sample.db
              Sample.notes eq_refl 1000000 1000000 Sample.v9 Sample.oid
              Sample.as_alice) as (H1 & _ & _ & _ & _ & _ & _ & H8 & _).
  split; [exact H1|]. apply (H8).
  repeat constructor; simpl; intuition discriminate.
Defined.

(** X9.  The ledger and the deletion are the author's: to a requester who
    is not the author of the snippet with that id, the share, unshare and
    delete routes reply 404 and leave the database as it was. *)
Theorem ledger_and_delete_are_for_the_author_only
    (now : Date) (oids : nat -> ObjectId) (user : ReqUser.t) (id : ObjectId)
    (db : Db) :
  (forall d, In d (snippets db) -> Snippet._id d = id ->
             Snippet.author d <> ReqUser.userId user) ->
  (forall b,
      post_share now oids user id b db
      = (db, error 404 "Snippet not found or access denied"))
  /\ (forall e,
         delete_share user id e db
         = (db, error 404 "Snippet not found or access denied"))
  /\ delete user id db = (db, error 404 "Snippet not found").
Proof.
  intros Hother.
  assert (Hq : forall q,
             Snippet_findOne
               (c_id id :: c_author (ReqUser.userId user) :: q) db = None).
  { intros q. apply findOne_none. intros d Hd. unfold matches.
    cbn [forallb holds].
    destruct (String.eqb (Snippet._id d) id) eqn:Eid; [|reflexivity].
    destruct (String.eqb (Snippet.author d) (ReqUser.userId user)) eqn:Eau;
      [|reflexivity].
    apply String.eqb_eq in Eid, Eau. now apply Hother in Eau. }
  unfold post_share, delete_share, delete.
  rewrite (Hq [c_isActive true]), (Hq []). repeat split; reflexivity.
Qed.

Lemma ledger_and_delete_are_for_the_author_only_witness :
  post_share 700 Sample.oid Sample.as_bob Sample.s2
    (ShareBody.mk ["carol@globex.com"] [] None) Sample.shared_db
  = (Sample.shared_db, error 404 "Snippet not found or access denied")
  /\ delete_share Sample.as_bob Sample.s2 Sample.g0 Sample.shared_db
     = (Sample.shared_db, error 404 "Snippet not found or access denied")
  /\ delete Sample.as_bob Sample.s2 Sample.shared_db
     = (Sample.shared_db, error 404 "Snippet not found").
Proof.
  destruct (ledger_and_delete_are_for_the_author_only 700 Sample.oid
              Sample.as_bob Sample.s2 Sample.shared_db) as [H1 [H2 H3]].
  - intros d Hd Hid. simpl in Hd.
    destruct Hd as [<-|[<-|[<-|[]]]]; try discriminate Hid; discriminate.
  - split; [apply H1|]. split; [apply H2|exact H3].
Defined.

(** ** Sharing, once more *)

(** What the get-by-id route replies to a requester its test admits. *)
Lemma get_by_id_admitted
    (now : Date) (user : ReqUser.t) (id : ObjectId) (db : Db)
    (s : Snippet.t) (author : User.t) :
  Snippet_findOne [c_id id; c_isActive true] db = Some s ->
  User_findById (users db) (Snippet.author s) = Some author ->
  may_read user s = true ->
  status (snd (get_by_id now user id db)) = 200%nat
  /\ get "content" (body (snd (get_by_id now user id db)))
     = Some (JStr (Snippet.content s)).
Proof.
  intros Hfind Hauthor Hread. unfold get_by_id.
  rewrite Hfind, Hauthor, (findById_id _ _ _ Hauthor).
  unfold may_read in Hread.
  destruct (String.eqb (Snippet.author s) (ReqUser.userId user));
    destruct (existsb (names_user (ReqUser.userId user)) (Snippet.sharedWith s));
    destruct (Visibility.eqb (Snippet.visibility s) Visibility.organization
              && String.eqb (Snippet.organization s) (ReqUser.organization user));
    destruct (Visibility.eqb (Snippet.visibility s) Visibility.public);
    try discriminate Hread; split; reflexivity.
Qed.

(** What it replies to a requester its test does not admit, for a private
    snippet. *)
Lemma get_by_id_refused
    (now : Date) (user : ReqUser.t) (id : ObjectId) (db : Db)
    (s : Snippet.t) (author : User.t) :
  Snippet_findOne [c_id id; c_isActive true] db = Some s ->
  User_findById (users db) (Snippet.author s) = Some author ->
  Snippet.visibility s = Visibility.private ->
  may_read user s = false ->
  get_by_id now user id db = (db, error 403 "Access denied").
Proof.
  intros Hfind Hauthor Hvis Hread. unfold get_by_id.
  rewrite Hfind, Hauthor, (findById_id _ _ _ Hauthor).
  unfold may_read in Hread. rewrite Hvis in *.
  destruct (String.eqb (Snippet.author s) (ReqUser.userId user));
    destruct (existsb (names_user (ReqUser.userId user)) (Snippet.sharedWith s));
    try discriminate Hread; reflexivity.
Qed.

(** The share route's document after [save], found again by id. *)
Lemma findOne_after_save (db : Db) (s s' : Snippet.t) (q : Query) :
  In s (snippets db) ->
  NoDup (map Snippet._id (snippets db)) ->
  Snippet._id s' = Snippet._id s ->
  matches q s = true ->
  matches (c_id (Snippet._id s) :: q) s' = true ->
  Snippet_findOne (c_id (Snippet._id s) :: q) (save s' db) = Some s'.
Proof.
  intros Hin Hnd Hid Hq Hq'.
  apply (findOne_save _ db s s'); [|assumption|assumption].
  now apply findOne_by_id.
Qed.

Section Share_invariants.
Variable us : list User.t.
Variable user : ReqUser.t.
Variable permissions : Permissions.t.
Variable now : Date.
Variable oid : nat -> ObjectId.

Let by_email := share_email us user permissions now oid.
Let by_username := share_username us user permissions now oid.

Let made_here := made_by user permissions now.
Let continues := continues_with user permissions now.

Lemma continues_refl (st : Sharing) : continues st st.
Proof.
  exists []. rewrite app_nil_r. simpl. split; [reflexivity|]. split; [lia|].
  constructor.
Qed.

Lemma continues_trans (st0 st1 st2 : Sharing) :
  continues st0 st1 -> continues st1 st2 -> continues st0 st2.
Proof.
  intros [a1 [H1 [L1 F1]]] [a2 [H2 [L2 F2]]]. exists (a1 ++ a2).
  rewrite H2, H1, app_assoc, length_app. split; [reflexivity|].
  split; [lia|]. now apply Forall_app.
Qed.

Ltac continues_step :=
  eexists; cbn [ledger sharedUsers];
  split; [first [reflexivity | symmetry; apply app_nil_r]|];
  split; [rewrite ?length_app; cbn [List.length]; lia|];
  repeat constructor.

Lemma share_email_continues (st : Sharing) (e : string) :
  continues st (by_email st e).
Proof.
  unfold by_email, share_email.
  destruct (negb (existsb _ (ledger st)));
    destruct (User_findOne_email us (trim e)); continues_step.
Qed.

Lemma share_username_continues (st : Sharing) (n : string) :
  continues st (by_username st n).
Proof.
  unfold by_username, share_username.
  destruct (User_findOne_username us (trim n) (ReqUser.organization user));
    [destruct (negb (existsb _ (ledger st)))|]; continues_step.
Qed.

Lemma share_emails_continue (es : list string) (st : Sharing) :
  continues st (fold_left by_email es st).
Proof.
  revert st. induction es as [|e es IH]; intros st; cbn [fold_left].
  - apply continues_refl.
  - eapply continues_trans; [apply share_email_continues|apply IH].
Qed.

Lemma share_usernames_continue (ns : list string) (st : Sharing) :
  continues st (fold_left by_username ns st).
Proof.
  revert st. induction ns as [|n ns IH]; intros st; cbn [fold_left].
  - apply continues_refl.
  - eapply continues_trans; [apply share_username_continues|apply IH].
Qed.

Lemma share_all_continues (emails usernames : list string) (l : list Share.t) :
  continues (mkSharing l [] [])
            (share_all us user permissions now oid emails usernames l).
Proof.
  unfold share_all.
  eapply continues_trans;
    [apply share_emails_continue|apply share_usernames_continue].
Qed.

(** The user-name loop grants to active users of the requester's
    organization only. *)
Lemma share_usernames_in_organization (ns : list string) (st : Sharing) :
  forall g, In g (ledger (fold_left by_username ns st)) ->
            In g (ledger st) \/ in_organization us user g.
Proof.
  revert st. induction ns as [|n ns IH]; intros st g Hg; cbn [fold_left] in Hg.
  - now left.
  - destruct (IH _ g Hg) as [Hin|Horg]; [|now right].
    unfold by_username, share_username in Hin.
    destruct (User_findOne_username us (trim n) (ReqUser.organization user))
      as [u|] eqn:Eu; [|now left].
    destruct (negb (existsb (names_user (User._id u)) (ledger st)));
      [|now left].
    cbn [ledger] in Hin. apply in_app_or in Hin.
    destruct Hin as [Hin|[<-|[]]]; [now left|]. right.
    unfold User_findOne_username in Eu. apply find_some in Eu.
    destruct Eu as [Hu Hb].
    apply andb_prop in Hb. destruct Hb as [Hb Hact].
    apply andb_prop in Hb. destruct Hb as [_ Horg].
    apply String.eqb_eq in Horg.
    exists u. repeat split; assumption.
Qed.

(** An address that resolves to [u]: once every entry for the address
    names [u], the e-mail loop keeps it so, and after a round for the
    address some entry names [u]. *)
Lemma share_emails_address_names (e : string) (u : User.t)
    (es : list string) (st : Sharing) :
  User_findOne_email us (trim e) = Some u ->
  address_names e u (ledger st) ->
  address_names e u (ledger (fold_left by_email es st)).
Proof.
  intros Hu. revert st. induction es as [|e' es IH]; intros st Hinv;
    cbn [fold_left]; [assumption|].
  apply IH. intros g Hg Hmail.
  unfold by_email, share_email in Hg.
  destruct (negb (existsb _ (ledger st)));
    destruct (User_findOne_email us (trim e')) as [u'|] eqn:Eu';
    cbn [ledger] in Hg; try (now apply Hinv);
    (apply in_app_or in Hg; destruct Hg as [Hg|[<-|[]]]; [now apply Hinv|]);
    unfold has_email in Hmail; cbn [Share.email] in Hmail;
    apply String.eqb_eq in Hmail; rewrite Hmail in Eu'; rewrite Hu in Eu'.
  - injection Eu' as <-. unfold names_user. cbn [Share.user option_map].
    apply String.eqb_refl.
  - discriminate.
Qed.

Lemma share_emails_name (e : string) (u : User.t) (es : list string)
    (st : Sharing) :
  User_findOne_email us (trim e) = Some u ->
  address_names e u (ledger st) ->
  In e es ->
  existsb (names_user (User._id u)) (ledger (fold_left by_email es st)) = true.
Proof.
  intros Hu Hinv Hin.
  pose proof (share_emails_cover us user permissions now oid e es st Hin)
    as Hcov.
  pose proof (share_emails_address_names e u es st Hu Hinv) as Hinv'.
  fold by_email in Hcov. unfold covered in Hcov. rewrite Hu in Hcov.
  apply existsb_exists in Hcov. destruct Hcov as [g [Hg Hshared]].
  apply existsb_exists. exists g. split; [assumption|].
  unfold alreadyShared_email in Hshared. apply orb_prop in Hshared.
  destruct Hshared as [Hby_user|Hby_mail].
  - unfold names_user. destruct (Share.user g); [assumption|discriminate].
  - now apply Hinv'.
Qed.

(** No round of either loop names a user a second time. *)
Lemma grants_naming_app (uid : ObjectId) (l l' : list Share.t) :
  grants_naming uid (l ++ l')
  = (grants_naming uid l + grants_naming uid l')%nat.
Proof. unfold grants_naming. now rewrite filter_app, length_app. Qed.

Lemma grants_naming_none (uid : ObjectId) (l : list Share.t) :
  existsb (names_user uid) l = false -> grants_naming uid l = 0%nat.
Proof.
  intros H. unfold grants_naming. rewrite filter_none; [reflexivity|].
  now apply existsb_false.
Qed.

Lemma share_email_names_once (uid : ObjectId) (st : Sharing) (e : string) :
  (grants_naming uid (ledger (by_email st e))
   <= Nat.max 1 (grants_naming uid (ledger st)))%nat.
Proof.
  unfold by_email, share_email.
  destruct (existsb (alreadyShared_email (User_findOne_email us (trim e)) e)
                    (ledger st)) eqn:E;
    destruct (User_findOne_email us (trim e)) as [u|];
    cbn [negb ledger]; try lia;
    rewrite grants_naming_app; unfold grants_naming at 2;
    cbn [filter names_user Share.user option_map List.length].
  - destruct (String.eqb (User._id u) uid) eqn:Eu; cbn [List.length]; [|lia].
    apply String.eqb_eq in Eu. subst uid.
    rewrite grants_naming_none; [lia|].
    destruct (existsb (names_user (User._id u)) (ledger st)) eqn:En;
      [|reflexivity].
    apply existsb_exists in En. destruct En as [g [Hg Hn]].
    pose proof (existsb_false _ _ E g Hg) as Hf.
    unfold alreadyShared_email in Hf. unfold names_user in Hn.
    destruct (Share.user g); [|discriminate].
    rewrite Hn in Hf. discriminate.
  - lia.
Qed.

Lemma share_username_names_once (uid : ObjectId) (st : Sharing) (n : string) :
  (grants_naming uid (ledger (by_username st n))
   <= Nat.max 1 (grants_naming uid (ledger st)))%nat.
Proof.
  unfold by_username, share_username.
  destruct (User_findOne_username us (trim n) (ReqUser.organization user))
    as [u|]; cbn [ledger]; [|lia].
  destruct (existsb (names_user (User._id u)) (ledger st)) eqn:E;
    cbn [negb ledger]; [lia|].
  rewrite grants_naming_app. unfold grants_naming at 2.
  cbn [filter names_user Share.user List.length].
  destruct (String.eqb (User._id u) uid) eqn:Eu; cbn [List.length]; [|lia].
  apply String.eqb_eq in Eu. subst uid.
  rewrite grants_naming_none by assumption. lia.
Qed.

Lemma share_all_names_once (uid : ObjectId) (emails usernames : list string)
    (l : list Share.t) :
  (grants_naming uid
     (ledger (share_all us user permissions now oid emails usernames l))
   <= Nat.max 1 (grants_naming uid l))%nat.
Proof.
  unfold share_all.
  assert (He : forall es st,
             (grants_naming uid (ledger (fold_left by_email es st))
              <= Nat.max 1 (grants_naming uid (ledger st)))%nat).
  { induction es as [|e es IH]; intros st; cbn [fold_left]; [lia|].
    specialize (IH (by_email st e)).
    pose proof (share_email_names_once uid st e). lia. }
  assert (Hn : forall ns st,
             (grants_naming uid (ledger (fold_left by_username ns st))
              <= Nat.max 1 (grants_naming uid (ledger st)))%nat).
  { induction ns as [|n ns IH]; intros st; cbn [fold_left]; [lia|].
    specialize (IH (by_username st n)).
    pose proof (share_username_names_once uid st n). lia. }
  specialize (He emails (mkSharing l [] [])).
  specialize (Hn usernames (fold_left by_email emails (mkSharing l [] []))).
  cbn [ledger] in He. unfold by_email, by_username in *. lia.
Qed.
End Share_invariants.

(** What the share route does for the author of an active snippet. *)
Lemma post_share_found (now : Date) (oid : nat -> ObjectId) (user : ReqUser.t)
    (id : ObjectId) (b : ShareBody.t) (db : Db) (s : Snippet.t) :
  Snippet_findOne
    [c_id id; c_author (ReqUser.userId user); c_isActive true] db = Some s ->
  let st :=
    share_all (users db) user
      (or_else (ShareBody.permissions b) Permissions.view) now oid
      (ShareBody.emails b) (ShareBody.usernames b) (Snippet.sharedWith s) in
  let s' := Snippet.set_sharedWith (ledger st) s in
  post_share now oid user id b db =
    (save s' db,
     mkResponse 200
       (JObj [("message", JStr "Snippet shared successfully");
              ("sharedWith", JArr (sharedUsers st));
              ("notFound", JArr (notFoundUsers st));
              ("totalSharedUsers", JNum (Z.of_nat (List.length (ledger st))))]))
  /\ Snippet_findOne
       [c_id id; c_author (ReqUser.userId user); c_isActive true] (save s' db)
     = Some s'.
Proof.
  intros Hfind st s'. split.
  - unfold post_share. rewrite Hfind. reflexivity.
  - apply (findOne_save _ db s s' Hfind eq_refl).
    unfold s'. rewrite matches_set_sharedWith.
    now apply findOne_some in Hfind.
Qed.

(** X10.  The share route only adds to the ledger: the stored ledger
    afterwards is the old one followed by the new grants, each with the
    requested permission ([view] when none is asked), the time of the
    request and the requester as [sharedBy]; the reply lists one new grant
    under [sharedWith] for each, and [totalSharedUsers] is the old length
    plus their number. *)
Theorem post_share_appends
    (now : Date) (oid : nat -> ObjectId) (user : ReqUser.t) (id : ObjectId)
    (b : ShareBody.t) (db : Db) (s : Snippet.t) :
  Snippet_findOne
    [c_id id; c_author (ReqUser.userId user); c_isActive true] db = Some s ->
  exists (added : list Share.t) (shared missing : list json),
    post_share now oid user id b db =
      (save (Snippet.set_sharedWith (Snippet.sharedWith s ++ added) s) db,
       mkResponse 200
         (JObj [("message", JStr "Snippet shared successfully");
                ("sharedWith", JArr shared);
                ("notFound", JArr missing);
                ("totalSharedUsers",
                  JNum (Z.of_nat (List.length (Snippet.sharedWith s)
                                  + List.length shared)))]))
    /\ List.length added = List.length shared
    /\ Forall (made_by user
                 (or_else (ShareBody.permissions b) Permissions.view) now)
              added.
Proof.
  intros Hfind.
  destruct (post_share_found now oid user id b db s Hfind) as [Hpost _].
  destruct (share_all_continues (users db) user
              (or_else (ShareBody.permissions b) Permissions.view) now oid
              (ShareBody.emails b) (ShareBody.usernames b)
              (Snippet.sharedWith s)) as [added [Hl [Hlen Hmade]]].
  cbn [ledger sharedUsers List.length Nat.add] in Hl, Hlen.
  eexists added, _, _. rewrite Hpost, Hl, length_app, Hlen.
  split; [reflexivity|]. split; [reflexivity|exact Hmade].
Qed.

Lemma post_share_appends_witness :
  exists (added : list Share.t) (shared missing : list json),
    post_share 700 Sample.oid Sample.as_alice Sample.s2
      (ShareBody.mk ["carol@globex.com"; "bob@acme.com"] ["bob"; "zed"] None)
      Sample.shared_db =
      (save (Snippet.set_sharedWith
               (Snippet.sharedWith Sample.shared_secret ++ added)
               Sample.shared_secret) Sample.shared_db,
       mkResponse 200
         (JObj [("message", JStr "Snippet shared successfully");
                ("sharedWith", JArr shared);
                ("notFound", JArr missing);
                ("totalSharedUsers",
                  JNum (Z.of_nat (List.length
                                    (Snippet.sharedWith Sample.shared_secret)
                                  + List.length shared)))]))
    /\ List.length added = List.length shared
    /\ Forall (made_by Sample.as_alice Permissions.view 700) added.
Proof.
  exact (post_share_appends 700 Sample.oid Sample.as_alice Sample.s2
           (ShareBody.mk ["carol@globex.com"; "bob@acme.com"] ["bob"; "zed"]
              None)
           Sample.shared_db Sample.shared_secret eq_refl).
Defined.

Example post_share_mixed_request :
  snd (post_share 700 Sample.oid Sample.as_alice Sample.s2
         (ShareBody.mk ["carol@globex.com"; "bob@acme.com"] ["bob"; "zed"] None)
         Sample.shared_db)
  = mkResponse 200
      (JObj [("message", JStr "Snippet shared successfully");
             ("sharedWith",
               JArr [JObj [("email", JStr "carol@globex.com");
                           ("found", JBool true)]]);
             ("notFound",
               JArr [JObj [("type", JStr "username"); ("value", JStr "zed")]]);
             ("totalSharedUsers", JNum 2)]).
Proof. reflexivity. Qed.

(** X11.  The share route names no user twice: whatever addresses and
    user names a request carries, the stored ledger afterwards has at most
    one grant naming any given user (or as many as it had, if it had
    more). *)
Theorem post_share_names_a_user_once
    (now : Date) (oid : nat -> ObjectId) (user : ReqUser.t) (id : ObjectId)
    (b : ShareBody.t) (db : Db) (s : Snippet.t) (uid : ObjectId) :
  Snippet_findOne
    [c_id id; c_author (ReqUser.userId user); c_isActive true] db = Some s ->
  exists s',
    Snippet_findOne
      [c_id id; c_author (ReqUser.userId user); c_isActive true]
      (fst (post_share now oid user id b db)) = Some s'
    /\ (grants_naming uid (Snippet.sharedWith s')
        <= Nat.max 1 (grants_naming uid (Snippet.sharedWith s)))%nat.
Proof.
  intros Hfind.
  destruct (post_share_found now oid user id b db s Hfind) as [Hpost Hfind'].
  rewrite Hpost. cbn [fst]. eexists. split; [exact Hfind'|].
  cbn [Snippet.sharedWith Snippet.set_sharedWith].
  apply share_all_names_once.
Qed.

Lemma post_share_names_a_user_once_witness :
  exists s',
    Snippet_findOne
      [c_id Sample.s2; c_author Sample.u1; c_isActive true]
      (fst (post_share 700 Sample.oid Sample.as_alice Sample.s2
              (ShareBody.mk ["bob@acme.com"; " BOB@acme.com "] ["bob"] None)
              Sample.shared_db)) = Some s'
    /\ (grants_naming Sample.u2 (Snippet.sharedWith s') <= 1)%nat.
Proof.
  exact (post_share_names_a_user_once 700 Sample.oid Sample.as_alice Sample.s2
           (ShareBody.mk ["bob@acme.com"; " BOB@acme.com "] ["bob"] None)
           Sample.shared_db Sample.shared_secret Sample.u2 eq_refl).
Defined.

(** X12.  By user name the share route grants inside the requester's
    organization only: in a request that carries user names and no
    addresses, every grant of the stored ledger afterwards was there before
    or names an active user of the requester's organization, under that
    user's own address. *)
Theorem post_share_usernames_stay_in_the_organization
    (now : Date) (oid : nat -> ObjectId) (user : ReqUser.t) (id : ObjectId)
    (b : ShareBody.t) (db : Db) (s : Snippet.t) :
  Snippet_findOne
    [c_id id; c_author (ReqUser.userId user); c_isActive true] db = Some s ->
  ShareBody.emails b = [] ->
  exists s',
    Snippet_findOne
      [c_id id; c_author (ReqUser.userId user); c_isActive true]
      (fst (post_share now oid user id b db)) = Some s'
    /\ forall g, In g (Snippet.sharedWith s') ->
                 In g (Snippet.sharedWith s)
                 \/ in_organization (users db) user g.
Proof.
  intros Hfind Hemails.
  destruct (post_share_found now oid user id b db s Hfind) as [Hpost Hfind'].
  rewrite Hpost. cbn [fst]. eexists. split; [exact Hfind'|].
  cbn [Snippet.sharedWith Snippet.set_sharedWith].
  unfold share_all. rewrite Hemails. cbn [fold_left].
  intros g Hg.
  exact (share_usernames_in_organization (users db) user _ now oid
           (ShareBody.usernames b) _ g Hg).
Qed.

Lemma post_share_usernames_stay_in_the_organization_witness :
  exists s',
    Snippet_findOne
      [c_id Sample.s2; c_author Sample.u1; c_isActive true]
      (fst (post_share 700 Sample.oid Sample.as_alice Sample.s2
              (ShareBody.mk [] ["carol"; "bob"] None) Sample.db)) = Some s'
    /\ forall g, In g (Snippet.sharedWith s') ->
                 In g (Snippet.sharedWith Sample.secret)
                 \/ in_organization (users Sample.db) Sample.as_alice g.
Proof.
  exact (post_share_usernames_stay_in_the_organization 700 Sample.oid
           Sample.as_alice Sample.s2 (ShareBody.mk [] ["carol"; "bob"] None)
           Sample.db Sample.secret eq_refl eq_refl).
Defined.

Example post_share_username_of_another_organization :
  snd (post_share 700 Sample.oid Sample.as_alice Sample.s2
         (ShareBody.mk [] ["carol"; "bob"] None) Sample.db)
  = mkResponse 200
      (JObj [("message", JStr "Snippet shared successfully");
             ("sharedWith",
               JArr [JObj [("username", JStr "bob");
                           ("email", JStr "bob@acme.com");
                           ("found", JBool true)]]);
             ("notFound",
               JArr [JObj [("type", JStr "username"); ("value", JStr "carol")]]);
             ("totalSharedUsers", JNum 1)]).
Proof. reflexivity. Qed.

Lemma existsb_app_l {A} (f : A -> bool) (l l' : list A) :
  existsb f l = true -> existsb f (l ++ l') = true.
Proof. intros H. now rewrite existsb_app, H. Qed.

Lemma matches_author_active (s : Snippet.t) (uid : ObjectId) :
  Snippet.author s = uid -> Snippet.isActive s = true ->
  matches [c_author uid; c_isActive true] s = true.
Proof.
  intros <- Hact. unfold matches. cbn [forallb holds].
  now rewrite String.eqb_refl, Hact.
Qed.

(** X13.  Sharing opens the snippet: after the author has shared an active
    snippet with an address that an active user has (and no entry of the
    ledger held that address for someone else or for nobody), that user
    reads the snippet by id, private or not, with status 200. *)
Theorem shared_user_reads_by_id
    (now now2 : Date) (oid : nat -> ObjectId) (owner reader : ReqUser.t)
    (b : ShareBody.t) (db : Db) (s : Snippet.t) (e : string)
    (u author : User.t) :
  In s (snippets db) ->
  NoDup (map Snippet._id (snippets db)) ->
  Snippet.author s = ReqUser.userId owner ->
  Snippet.isActive s = true ->
  User_findById (users db) (Snippet.author s) = Some author ->
  In e (ShareBody.emails b) ->
  User_findOne_email (users db) (trim e) = Some u ->
  address_names e u (Snippet.sharedWith s) ->
  ReqUser.userId reader = User._id u ->
  let db' := fst (post_share now oid owner (Snippet._id s) b db) in
  status (snd (get_by_id now2 reader (Snippet._id s) db')) = 200%nat
  /\ get "content" (body (snd (get_by_id now2 reader (Snippet._id s) db')))
     = Some (JStr (Snippet.content s)).
Proof.
  intros Hin Hnd Howner Hact Hauthor He Hu Hnames Hreader db'.
  pose proof (findOne_by_id db s _ Hin Hnd
                (matches_author_active s _ Howner Hact)) as Hfind.
  destruct (post_share_found now oid owner (Snippet._id s) b db s Hfind)
    as [Hpost _].
  set (st := share_all _ _ _ _ _ _ _ _) in Hpost.
  set (s' := Snippet.set_sharedWith (ledger st) s) in Hpost.
  assert (Hdb' : db' = save s' db) by (unfold db'; now rewrite Hpost).
  assert (Hfind' : Snippet_findOne [c_id (Snippet._id s); c_isActive true] db'
                   = Some s').
  { rewrite Hdb'. apply findOne_after_save; try assumption; try reflexivity.
    - unfold matches. cbn [forallb holds]. now rewrite Hact.
    - unfold matches. cbn [forallb holds]. unfold s'.
      cbn [Snippet._id Snippet.isActive Snippet.set_sharedWith].
      now rewrite String.eqb_refl, Hact. }
  assert (Hnamed : existsb (names_user (User._id u)) (ledger st) = true).
  { unfold st, share_all.
    destruct (share_usernames_continue (users db) owner
                (or_else (ShareBody.permissions b) Permissions.view) now oid
                (ShareBody.usernames b)
                (fold_left
                   (share_email (users db) owner
                      (or_else (ShareBody.permissions b) Permissions.view)
                      now oid)
                   (ShareBody.emails b)
                   (mkSharing (Snippet.sharedWith s) [] [])))
      as [added [Hl _]].
    rewrite Hl. apply existsb_app_l.
    now apply share_emails_name with (e := e). }
  apply (get_by_id_admitted now2 reader (Snippet._id s) db' s' author Hfind').
  - rewrite Hdb'. exact Hauthor.
  - unfold may_read. rewrite Hreader. unfold s'.
    cbn [Snippet.sharedWith Snippet.set_sharedWith]. rewrite Hnamed.
    now rewrite orb_true_r.
Qed.

Lemma shared_user_reads_by_id_witness :
  let db' :=
    fst (post_share 700 Sample.oid Sample.as_alice Sample.s2
           (ShareBody.mk [" Carol@Globex.com"] [] None) Sample.db) in
  status (snd (get_by_id 800 Sample.as_carol Sample.s2 db')) = 200%nat
  /\ get "content" (body (snd (get_by_id 800 Sample.as_carol Sample.s2 db')))
     = Some (JStr "export TOKEN=abc").
Proof.
  apply (shared_user_reads_by_id 700 800 Sample.oid Sample.as_alice
           Sample.as_carol (ShareBody.mk [" Carol@Globex.com"] [] None)
           Sample.db Sample.secret " Carol@Globex.com" Sample.carol
           Sample.alice).
  - simpl. auto.
  - repeat constructor; simpl; intuition discriminate.
  - reflexivity.
  - reflexivity.
  - reflexivity.
  - simpl. auto.
  - reflexivity.
  - intros g [].
  - reflexivity.
Defined.

(** X14.  An address that is in the ledger is never granted again, not
    even when its entry names nobody and the address has an active user by
    now: a request of the author for that address alone leaves the database
    as it was and reports no new grant.  So a requester whom the snippet's
    test did not admit is still refused a private snippet afterwards. *)
Theorem pending_grant_is_not_renewed
    (now now2 : Date) (oid : nat -> ObjectId) (owner : ReqUser.t)
    (permissions : option Permissions.t) (db : Db) (s : Snippet.t)
    (e : string) (author : User.t) :
  In s (snippets db) ->
  NoDup (map Snippet._id (snippets db)) ->
  Snippet.author s = ReqUser.userId owner ->
  Snippet.isActive s = true ->
  existsb (has_email (trim e)) (Snippet.sharedWith s) = true ->
  let shared :=
    post_share now oid owner (Snippet._id s)
      (ShareBody.mk [e] [] permissions) db in
  fst shared = db
  /\ status (snd shared) = 200%nat
  /\ get "sharedWith" (body (snd shared)) = Some (JArr [])
  /\ (forall reader,
         User_findById (users db) (Snippet.author s) = Some author ->
         Snippet.visibility s = Visibility.private ->
         may_read reader s = false ->
         get_by_id now2 reader (Snippet._id s) (fst shared)
         = (db, error 403 "Access denied")).
Proof.
  intros Hin Hnd Howner Hact Hmail shared.
  pose proof (findOne_by_id db s _ Hin Hnd
                (matches_author_active s _ Howner Hact)) as Hfind.
  destruct (post_share_found now oid owner (Snippet._id s)
              (ShareBody.mk [e] [] permissions) db s Hfind) as [Hpost _].
  set (st := share_all _ _ _ _ _ _ _ _) in Hpost.
  assert (Hst : ledger st = Snippet.sharedWith s /\ sharedUsers st = []).
  { unfold st, share_all. cbn [ShareBody.emails ShareBody.usernames fold_left].
    unfold share_email. cbn [ledger sharedUsers].
    assert (Hshared : existsb
                        (alreadyShared_email
                           (User_findOne_email (users db) (trim e)) e)
                        (Snippet.sharedWith s) = true).
    { apply existsb_exists in Hmail. destruct Hmail as [g [Hg Hm]].
      apply existsb_exists. exists g. split; [assumption|].
      unfold alreadyShared_email. unfold has_email in Hm. rewrite Hm.
      apply orb_true_r. }
    rewrite Hshared. cbn [negb].
    destruct (User_findOne_email (users db) (trim e)); split; reflexivity. }
  destruct Hst as [Hledger Hnew].
  assert (Hdb : fst shared = db).
  { unfold shared. rewrite Hpost. cbn [fst]. rewrite Hledger.
    rewrite set_sharedWith_same. now apply save_stored. }
  split; [exact Hdb|]. split; [unfold shared; now rewrite Hpost|].
  split; [unfold shared; rewrite Hpost; cbn [snd body]; rewrite Hnew;
          reflexivity|].
  intros reader Hauthor Hvis Hread. rewrite Hdb.
  apply (get_by_id_refused now2 reader (Snippet._id s) db s author);
    try assumption.
  apply findOne_by_id; try assumption.
  unfold matches. cbn [forallb holds]. now rewrite Hact.
Qed.

Example pending_grant_arises :
  fst (post_share 500 Sample.oid Sample.as_alice Sample.s2
         (ShareBody.mk ["carol@globex.com"] [] None)
         (mkDb (snippets Sample.db) [Sample.alice; Sample.bob]))
  = mkDb (snippets Sample_pending.db) [Sample.alice; Sample.bob].
Proof. reflexivity. Qed.

Lemma pending_grant_is_not_renewed_witness :
  let shared :=
    post_share 700 Sample.oid Sample.as_alice Sample.s2
      (ShareBody.mk ["carol@globex.com"] [] None) Sample_pending.db in
  fst shared = Sample_pending.db
  /\ get "sharedWith" (body (snd shared)) = Some (JArr [])
  /\ get_by_id 800 Sample.as_carol Sample.s2 (fst shared)
     = (Sample_pending.db, error 403 "Access denied").
Proof.
  destruct (pending_grant_is_not_renewed 700 800 Sample.oid Sample.as_alice
              None Sample_pending.db Sample_pending.pending_secret
              "carol@globex.com" Sample.alice)
    as [Hdb [_ [Hnew Hread]]].
  - simpl. auto.
  - repeat constructor; simpl; intuition discriminate.
  - reflexivity.
  - reflexivity.
  - reflexivity.
  - split; [exact Hdb|]. split; [exact Hnew|].
    apply (Hread Sample.as_carol); reflexivity.
Defined.

(** X15.  Revoking removes the grant with that id and no other: the
    stored ledger afterwards holds exactly the grants with another id, in
    their order.  When every grant that named a requester had that id, and
    the requester is not the author, a private snippet is closed to them
    by id from then on. *)
Theorem delete_share_removes_the_grant
    (now : Date) (owner : ReqUser.t) (shareEntryId : string) (db : Db)
    (s : Snippet.t) (author : User.t) :
  In s (snippets db) ->
  NoDup (map Snippet._id (snippets db)) ->
  Snippet.author s = ReqUser.userId owner ->
  Snippet.isActive s = true ->
  let revoked := delete_share owner (Snippet._id s) shareEntryId db in
  exists s',
    Snippet_findOne [c_id (Snippet._id s); c_isActive true] (fst revoked)
    = Some s'
    /\ status (snd revoked) = 200%nat
    /\ Snippet.sharedWith s'
       = filter (fun g => negb (String.eqb (Share._id g) shareEntryId))
                (Snippet.sharedWith s)
    /\ (forall g, In g (Snippet.sharedWith s') -> Share._id g <> shareEntryId)
    /\ (forall reader,
           User_findById (users db) (Snippet.author s) = Some author ->
           Snippet.visibility s = Visibility.private ->
           Snippet.author s <> ReqUser.userId reader ->
           (forall g, In g (Snippet.sharedWith s) ->
                      names_user (ReqUser.userId reader) g = true ->
                      Share._id g = shareEntryId) ->
           get_by_id now reader (Snippet._id s) (fst revoked)
           = (fst revoked, error 403 "Access denied")).
Proof.
  intros Hin Hnd Howner Hact revoked.
  pose proof (findOne_by_id db s _ Hin Hnd
                (matches_author_active s _ Howner Hact)) as Hfind.
  set (s' := Snippet.set_sharedWith
               (filter (fun g => negb (String.eqb (Share._id g) shareEntryId))
                       (Snippet.sharedWith s)) s).
  assert (Hrev : revoked
                 = (save s' db,
                    mkResponse 200
                      (JObj [("message",
                               JStr "User removed from sharing list")]))).
  { unfold revoked, delete_share. now rewrite Hfind. }
  assert (Hfind' : Snippet_findOne [c_id (Snippet._id s); c_isActive true]
                     (save s' db) = Some s').
  { apply findOne_after_save; try assumption; try reflexivity.
    - unfold matches. cbn [forallb holds]. now rewrite Hact.
    - unfold matches. cbn [forallb holds]. unfold s'.
      cbn [Snippet._id Snippet.isActive Snippet.set_sharedWith].
      now rewrite String.eqb_refl, Hact. }
  exists s'. rewrite Hrev. cbn [fst snd status].
  split; [exact Hfind'|]. split; [reflexivity|]. split; [reflexivity|].
  split.
  - intros g Hg. unfold s' in Hg.
    cbn [Snippet.sharedWith Snippet.set_sharedWith] in Hg.
    apply filter_In in Hg. destruct Hg as [_ Hg].
    apply negb_true_iff in Hg. now apply String.eqb_neq.
  - intros reader Hauthor Hvis Hother Honly.
    apply (get_by_id_refused now reader (Snippet._id s) (save s' db) s' author
             Hfind'); try assumption.
    unfold may_read, s'.
    cbn [Snippet.author Snippet.sharedWith Snippet.visibility
         Snippet.organization Snippet.set_sharedWith].
    rewrite Hvis. cbn [Visibility.eqb andb orb].
    apply String.eqb_neq in Hother. rewrite Hother. cbn [orb].
    rewrite !orb_false_r.
    destruct (existsb (names_user (ReqUser.userId reader)) _) eqn:E;
      [|reflexivity].
    apply existsb_exists in E. destruct E as [g [Hg Hn]].
    apply filter_In in Hg. destruct Hg as [Hg Hid].
    apply Honly in Hn; [|assumption].
    rewrite Hn, String.eqb_refl in Hid. discriminate.
Qed.

Lemma delete_share_removes_the_grant_witness :
  let revoked :=
    delete_share Sample.as_alice Sample.s2 Sample.g0 Sample.shared_db in
  fst revoked = Sample.db
  /\ get_by_id 1000000 Sample.as_bob Sample.s2 (fst revoked)
     = (Sample.db, error 403 "Access denied").
Proof.
  destruct (delete_share_removes_the_grant 1000000 Sample.as_alice Sample.g0
              Sample.shared_db Sample.shared_secret Sample.alice)
    as [s' [_ [_ [_ [_ Hclosed]]]]].
  - simpl. auto.
  - repeat constructor; simpl; intuition discriminate.
  - reflexivity.
  - reflexivity.
  - split; [reflexivity|].
    apply (Hclosed Sample.as_bob); try reflexivity.
    + discriminate.
    + intros g [<-|[]] _. reflexivity.
Defined.

(** ** Search and listings, once more *)

Lemma holds_each (conds : list Cond) (s : Snippet.t) :
  holds (c_and (map (fun c => [c]) conds)) s = true ->
  forall c, In c conds -> holds c s = true.
Proof.
  cbn [holds]. rewrite forallb_forall. intros H c Hc.
  specialize (H [c] (in_map (fun c => [c]) conds c Hc)).
  cbn [forallb] in H. now rewrite andb_true_r in H.
Qed.

(** A document that answers a query of the search answers each of its
    search conditions. *)
Lemma search_query_conditions (user : ReqUser.t) (conds : list Cond)
    (s : Snippet.t) :
  matches
    ([c_organization (ReqUser.organization user); c_isActive true]
     ++ match conds with
        | [] => []
        | _ => [c_and (map (fun c => [c]) conds)]
        end
     ++ [visibility_permissions user]) s = true ->
  forall c, In c conds -> holds c s = true.
Proof.
  unfold matches. rewrite !forallb_app. intros H c Hc.
  apply andb_prop in H. destruct H as [_ H].
  apply andb_prop in H. destruct H as [H _].
  destruct conds as [|c0 conds]; [contradiction|].
  cbn [forallb] in H. rewrite andb_true_r in H.
  exact (holds_each _ s H c Hc).
Qed.

(** X16.  Whatever its parameters, a search returns stored, active
    snippets of the requester's organization that pass every filter given:
    the language asked for, one of the tags asked for, a match of the text
    in title, description or content, and as author the user of the
    organization found for the author pattern. *)
Theorem search_results_pass_the_filters
    (RegExp : string -> option (string -> bool)) (user : ReqUser.t)
    (p : SearchParams.t) (db : Db) (l : list Snippet.t) (s : Snippet.t) :
  search RegExp user p db = Some l ->
  In s l ->
  In s (snippets db)
  /\ Snippet.isActive s = true
  /\ Snippet.organization s = ReqUser.organization user
  /\ (forall L, SearchParams.language p = Some L -> L <> "" -> L <> "all" ->
                Snippet.language s = L)
  /\ (forall ts, tags_condition p = Some (c_tags_in ts) ->
                 exists t, In t (Snippet.tags s) /\ In t ts)
  /\ (forall pattern test,
         given (SearchParams.q p) = Some pattern ->
         RegExp pattern = Some test ->
         test (Snippet.title s) = true
         \/ (exists d, Snippet.description s = Some d /\ test d = true)
         \/ test (Snippet.content s) = true)
  /\ (forall pattern test,
         given (SearchParams.author p) = Some pattern ->
         RegExp pattern = Some test ->
         exists a, In a (users db) /\ test (User.username a) = true
                   /\ Snippet.author s = User._id a).
Proof.
  intros Hsearch Hin. unfold search in Hsearch.
  destruct (search_plan RegExp user p db) as [query| |] eqn:Hplan;
    [|injection Hsearch as <-; contradiction|discriminate].
  injection Hsearch as <-. unfold Snippet_find in Hin.
  apply filter_In in Hin. destruct Hin as [Hstored Hm].
  unfold search_plan in Hplan.
  destruct (text_condition RegExp p) as [text|] eqn:Htext; [|discriminate].
  assert (Hbase : forall conds,
             query
             = [c_organization (ReqUser.organization user); c_isActive true]
               ++ match conds with
                  | [] => []
                  | _ => [c_and (map (fun c => [c]) conds)]
                  end
               ++ [visibility_permissions user] ->
             Snippet.isActive s = true
             /\ Snippet.organization s = ReqUser.organization user
             /\ forall c, In c conds -> holds c s = true).
  { intros conds ->. pose proof (search_query_conditions user conds s Hm) as Hc.
    apply search_query_filters in Hm. unfold matches in Hm.
    cbn [forallb holds] in Hm.
    apply andb_prop in Hm. destruct Hm as [Horg Hm].
    apply andb_prop in Hm. destruct Hm as [Hact _].
    apply String.eqb_eq in Horg. apply Bool.eqb_prop in Hact. auto. }
  assert (Hcommon : forall conds,
             (forall c, In c (opt_list text ++ opt_list (language_condition p)
                              ++ opt_list (tags_condition p)) -> In c conds) ->
             (forall c, In c conds -> holds c s = true) ->
             (forall L, SearchParams.language p = Some L -> L <> "" ->
                        L <> "all" -> Snippet.language s = L)
             /\ (forall ts, tags_condition p = Some (c_tags_in ts) ->
                            exists t, In t (Snippet.tags s) /\ In t ts)
             /\ (forall pattern test,
                    given (SearchParams.q p) = Some pattern ->
                    RegExp pattern = Some test ->
                    test (Snippet.title s) = true
                    \/ (exists d, Snippet.description s = Some d
                                  /\ test d = true)
                    \/ test (Snippet.content s) = true)).
  { intros conds Hsub Hholds. split; [|split].
    - intros L HL Hne Hall.
      assert (Hc : language_condition p = Some (c_language L)).
      { unfold language_condition. rewrite HL.
        apply String.eqb_neq in Hne, Hall. now rewrite Hne, Hall. }
      specialize (Hholds (c_language L)). cbn [holds] in Hholds.
      apply String.eqb_eq, Hholds, Hsub.
      rewrite Hc. apply in_or_app. right. apply in_or_app. left. now left.
    - intros ts Hts.
      specialize (Hholds (c_tags_in ts)). cbn [holds] in Hholds.
      assert (Hex : existsb (fun t => existsb (String.eqb t) ts)
                            (Snippet.tags s) = true).
      { apply Hholds, Hsub. rewrite Hts.
        apply in_or_app. right. apply in_or_app. right. now left. }
      apply existsb_exists in Hex. destruct Hex as [t [Ht Hts']].
      apply existsb_exists in Hts'. destruct Hts' as [t' [Ht' Heq]].
      apply String.eqb_eq in Heq. subst t'. now exists t.
    - intros pattern test Hq Hre. unfold text_condition in Htext.
      rewrite Hq, Hre in Htext. injection Htext as <-.
      match type of Hsub with
      | forall c, In c (opt_list (Some ?c0) ++ _) -> _ =>
          specialize (Hholds c0 (Hsub c0 (or_introl eq_refl)))
      end.
      cbn [holds existsb forallb text_at] in Hholds.
      rewrite !andb_true_r, orb_false_r in Hholds.
      apply orb_prop in Hholds. destruct Hholds as [Ht|Hholds]; [now left|].
      apply orb_prop in Hholds. destruct Hholds as [Hd|Hc]; [|now right; right].
      right; left. destruct (Snippet.description s) as [d|]; [|discriminate].
      now exists d. }
  destruct (given (SearchParams.author p)) as [pattern|] eqn:Hgiven.
  - destruct (RegExp pattern) as [test|] eqn:Hre; [|discriminate].
    destruct (User_findOne_like (users db) test (ReqUser.organization user))
      as [authorUser|] eqn:Hlike; [|discriminate].
    injection Hplan as Hplan.
    destruct (Hbase _ (eq_sym Hplan)) as [Hact [Horg Hholds]].
    destruct (Hcommon _ (fun c Hc => in_or_app _ _ c (or_introl Hc)) Hholds)
      as [Hlang [Htags Htxt]].
    repeat (split; [assumption|]).
    intros pattern' test' Heq Hre'. injection Heq as <-.
    rewrite Hre in Hre'. injection Hre' as <-.
    unfold User_findOne_like in Hlike. apply find_some in Hlike.
    destruct Hlike as [Ha Hb]. apply andb_prop in Hb. destruct Hb as [Hb _].
    exists authorUser. split; [assumption|]. split; [assumption|].
    specialize (Hholds (c_author (User._id authorUser))).
    cbn [holds] in Hholds. apply String.eqb_eq, Hholds.
    apply in_or_app. right. now left.
  - injection Hplan as Hplan.
    destruct (Hbase _ (eq_sym Hplan)) as [Hact [Horg Hholds]].
    destruct (Hcommon _ (fun c Hc => Hc) Hholds) as [Hlang [Htags Htxt]].
    repeat (split; [assumption|]).
    intros pattern test Heq. discriminate.
Qed.

Lemma search_results_pass_the_filters_witness :
  In Sample_public.gist (snippets Sample_public.db)
  /\ Snippet.language Sample_public.gist = "python"
  /\ (exists t, In t (Snippet.tags Sample_public.gist)
                /\ In t ["retry"; "loops"])
  /\ (exists a, In a (users Sample_public.db)
                /\ Sample.contains "caro" (User.username a) = true
                /\ Snippet.author Sample_public.gist = User._id a).
Proof.
  destruct (search_results_pass_the_filters Sample.RegExp Sample.as_carol
              (SearchParams.mk (Some "call") (Some "python")
                 (Some "retry, loops") (Some "caro"))
              Sample_public.db [Sample_public.gist] Sample_public.gist
              eq_refl (or_introl eq_refl))
    as (Hin & _ & _ & Hlang & Htags & _ & Hauthor).
  split; [exact Hin|]. split.
  - apply Hlang; [reflexivity|discriminate|discriminate].
  - split.
    + apply Htags. reflexivity.
    + apply (Hauthor "caro" (Sample.contains "caro")); reflexivity.
Defined.

(** X17.  The listings show nothing the requester cannot open: in a store
    with unique [_id]s, a snippet listed for a requester under "my",
    "organization" or "shared with me", or returned by a search of theirs,
    is served to them by the get-by-id route with status 200 (its author
    being a stored user). *)
Theorem listed_snippets_open
    (RegExp : string -> option (string -> bool)) (now : Date)
    (user : ReqUser.t) (db : Db) (s : Snippet.t) (author : User.t) :
  NoDup (map Snippet._id (snippets db)) ->
  User_findById (users db) (Snippet.author s) = Some author ->
  In s (my_snippets user db)
  \/ In s (org_snippets user db)
  \/ In s (map fst (shared_with_me user db))
  \/ (exists p l, search RegExp user p db = Some l /\ In s l) ->
  status (snd (get_by_id now user (Snippet._id s) db)) = 200%nat
  /\ get "content" (body (snd (get_by_id now user (Snippet._id s) db)))
     = Some (JStr (Snippet.content s)).
Proof.
  intros Hnd Hauthor Hlisted.
  assert (H : In s (snippets db) /\ Snippet.isActive s = true
              /\ may_read user s = true).
  { destruct Hlisted as [Hmy|[Horg|[Hshared|[p [l [Hsearch Hl]]]]]].
    - unfold my_snippets, Snippet_find in Hmy. apply filter_In in Hmy.
      destruct Hmy as [Hin Hm]. unfold matches in Hm. cbn [forallb holds] in Hm.
      apply andb_prop in Hm. destruct Hm as [Hau Hm].
      apply andb_prop in Hm. destruct Hm as [Hact _].
      apply Bool.eqb_prop in Hact. unfold may_read. now rewrite Hau.
    - unfold org_snippets, Snippet_find in Horg. apply filter_In in Horg.
      destruct Horg as [Hin Hm]. unfold matches in Hm.
      cbn [forallb holds existsb] in Hm.
      apply andb_prop in Hm. destruct Hm as [Ho Hm].
      apply andb_prop in Hm. destruct Hm as [Hvis Hm].
      apply andb_prop in Hm. destruct Hm as [Hact _].
      apply Bool.eqb_prop in Hact. unfold may_read. rewrite Ho.
      rewrite !andb_true_r, orb_false_r in Hvis.
      destruct (Visibility.eqb (Snippet.visibility s) Visibility.organization);
        destruct (Visibility.eqb (Snippet.visibility s) Visibility.public);
        try discriminate Hvis; rewrite ?orb_true_r; auto.
    - unfold shared_with_me in Hshared. rewrite map_map in Hshared.
      cbn [fst] in Hshared. rewrite map_id in Hshared.
      apply filter_In in Hshared. destruct Hshared as [Hin Hm].
      apply andb_prop in Hm. destruct Hm as [Hn Hact].
      apply Bool.eqb_prop in Hact. unfold may_read. rewrite Hn.
      rewrite orb_true_r. auto.
    - unfold search in Hsearch.
      destruct (search_plan RegExp user p db) as [query| |] eqn:Hplan;
        [|injection Hsearch as <-; contradiction|discriminate].
      injection Hsearch as <-. unfold Snippet_find in Hl.
      apply filter_In in Hl. destruct Hl as [Hin Hm].
      assert (Hv : matches [c_organization (ReqUser.organization user);
                            c_isActive true; visibility_permissions user] s
                   = true).
      { unfold search_plan in Hplan.
        destruct (text_condition RegExp p); [|discriminate].
        destruct (given (SearchParams.author p)).
        - destruct (RegExp s0); [|discriminate].
          destruct (User_findOne_like (users db) b
                      (ReqUser.organization user)); [|discriminate].
          injection Hplan as <-. now apply search_query_filters in Hm.
        - injection Hplan as <-. now apply search_query_filters in Hm. }
      unfold matches, visibility_permissions in Hv.
      cbn [forallb holds existsb] in Hv.
      apply andb_prop in Hv. destruct Hv as [Ho Hv].
      apply andb_prop in Hv. destruct Hv as [Hact Hv].
      apply Bool.eqb_prop in Hact. unfold may_read. rewrite Ho.
      rewrite !andb_true_r, orb_false_r in Hv.
      destruct (Visibility.eqb (Snippet.visibility s) Visibility.organization);
        destruct (Visibility.eqb (Snippet.visibility s) Visibility.public);
        destruct (String.eqb (Snippet.author s) (ReqUser.userId user));
        rewrite ?andb_false_r, ?andb_true_r in Hv; try discriminate Hv;
        rewrite ?orb_true_r; auto. }
  destruct H as [Hin [Hact Hread]].
  apply (get_by_id_admitted now user (Snippet._id s) db s author);
    try assumption.
  apply findOne_by_id; try assumption.
  unfold matches. cbn [forallb holds]. now rewrite Hact.
Qed.

Lemma listed_snippets_open_witness :
  In Sample.shared_secret (map fst (shared_with_me Sample.as_bob Sample.shared_db))
  /\ status (snd (get_by_id 1000000 Sample.as_bob Sample.s2 Sample.shared_db))
     = 200%nat.
Proof.
  assert (Hlisted : In Sample.shared_secret
                      (map fst (shared_with_me Sample.as_bob Sample.shared_db)))
    by (simpl; auto).
  split; [exact Hlisted|].
  apply (listed_snippets_open Sample.RegExp 1000000 Sample.as_bob
           Sample.shared_db Sample.shared_secret Sample.alice).
  - repeat constructor; simpl; intuition discriminate.
  - reflexivity.
  - right. right. left. exact Hlisted.
Defined.

(** ** Creating *)

Lemma find_last {A} (f : A -> bool) (l : list A) (x : A) :
  (forall d, In d l -> f d = false) -> f x = true ->
  find f (l ++ [x]) = Some x.
Proof.
  intros Hl Hx. induction l as [|a l IH]; simpl.
  - now rewrite Hx.
  - rewrite (Hl a (or_introl eq_refl)). apply IH.
    intros d Hd. apply Hl. now right.
Qed.

(** X18.  A created snippet belongs to its creator: when the body passes
    the validators and the new ids are free, the route replies 201 and
    stores a snippet that is active, without views, grants or viewers,
    whose author and organization are the requester's, whatever the body
    holds.  Its creator reads it by id at once; with no visibility in the
    body it is private, and every other requester is refused by id. *)
Theorem post_create_then_read
    (now now2 : Date) (oid : ObjectId) (uuid : string) (user : ReqUser.t)
    (b : CreateBody.t) (db : Db) (creator : User.t) :
  validators (new_Snippet now oid uuid user b) = true ->
  duplicate_key (new_Snippet now oid uuid user b) db = false ->
  User_findById (users db) (ReqUser.userId user) = Some creator ->
  let created := post_create now oid uuid user b db in
  let s := new_Snippet now oid uuid user b in
  status (snd created) = 201%nat
  /\ fst created = mkDb (snippets db ++ [s]) (users db)
  /\ Snippet.author s = ReqUser.userId user
  /\ Snippet.organization s = ReqUser.organization user
  /\ Snippet.isActive s = true /\ Snippet.views s = 0
  /\ Snippet.sharedWith s = [] /\ Snippet.currentViewers s = []
  /\ status (snd (get_by_id now2 user oid (fst created))) = 200%nat
  /\ get "content" (body (snd (get_by_id now2 user oid (fst created))))
     = Some (JStr (or_else (CreateBody.content b) ""))
  /\ (CreateBody.visibility b = None ->
      forall reader, ReqUser.userId reader <> ReqUser.userId user ->
        get_by_id now2 reader oid (fst created)
        = (fst created, error 403 "Access denied")).
Proof.
  intros Hvalid Hfree Hcreator created s.
  assert (Hcreated : created
                     = (mkDb (snippets db ++ [s]) (users db),
                        mkResponse 201
                          (JObj (Snippet_toObject (author_username (users db))
                                   JStr s)))).
  { unfold created, post_create, s. now rewrite Hvalid, Hfree. }
  assert (Hfind : Snippet_findOne [c_id oid; c_isActive true]
                    (mkDb (snippets db ++ [s]) (users db)) = Some s).
  { unfold Snippet_findOne. cbn [snippets]. apply find_last; [|reflexivity ||
      (unfold matches; cbn; now rewrite String.eqb_refl)].
    intros d Hd. unfold matches. cbn [forallb holds].
    unfold duplicate_key in Hfree.
    pose proof (existsb_false _ _ Hfree d Hd) as Hd'.
    apply orb_false_iff in Hd'. destruct Hd' as [Hd' _].
    cbn [new_Snippet Snippet._id] in Hd'. now rewrite Hd'. }
  rewrite Hcreated. cbn [fst snd status].
  repeat (split; [reflexivity|]).
  assert (Hauthor : User_findById (users (mkDb (snippets db ++ [s]) (users db)))
                      (Snippet.author s) = Some creator) by exact Hcreator.
  split; [|split].
  - apply (get_by_id_admitted now2 user oid _ s creator Hfind Hauthor).
    unfold may_read. cbn [s new_Snippet Snippet.author].
    now rewrite String.eqb_refl.
  - apply (get_by_id_admitted now2 user oid _ s creator Hfind Hauthor).
    unfold may_read. cbn [s new_Snippet Snippet.author].
    now rewrite String.eqb_refl.
  - intros Hvis reader Hreader.
    apply (get_by_id_refused now2 reader oid _ s creator Hfind Hauthor).
    + unfold s. cbn [new_Snippet Snippet.visibility]. now rewrite Hvis.
    + unfold may_read, s.
      cbn [new_Snippet Snippet.author Snippet.sharedWith Snippet.visibility
           Snippet.organization existsb].
      rewrite Hvis. cbn [or_else Visibility.eqb andb orb].
      rewrite !orb_false_r. apply String.eqb_neq. congruence.
Qed.

Lemma post_create_then_read_witness :
  let created :=
    post_create 2000000 Sample_public.s4 "link-5" Sample.as_bob
      (CreateBody.mk (Some " Notes ") (Some "todo") None None None
         (Some [" a "; "b"])) Sample.db in
  fst created
  = mkDb (snippets Sample.db
          ++ [Snippet.mk Sample_public.s4 "Notes" "todo" "plaintext" None
                Sample.u2 "acme" "link-5" Visibility.private ["a"; "b"] 0 true
                [] [] 2000000])
         (users Sample.db)
  /\ status (snd (get_by_id 2000001 Sample.as_bob Sample_public.s4
                    (fst created))) = 200%nat
  /\ get_by_id 2000001 Sample.as_alice Sample_public.s4 (fst created)
     = (fst created, error 403 "Access denied").
Proof.
  destruct (post_create_then_read 2000000 2000001 Sample_public.s4 "link-5"
              Sample.as_bob
              (CreateBody.mk (Some " Notes ") (Some "todo") None None None
                 (Some [" a "; "b"]))
              Sample.db Sample.bob eq_refl)
    as (_ & Hdb & _ & _ & _ & _ & _ & _ & Hread & _ & Hclosed);
    [reflexivity|reflexivity|].
  split; [exact Hdb|]. split; [exact Hread|].
  apply (Hclosed eq_refl Sample.as_alice). discriminate.
Defined.

(** X19.  A create request without a title or without content stores
    nothing: when the title is missing or blank, or the content missing or
    empty, the route replies 500 and leaves the database as it was. *)
Theorem post_create_requires_title_and_content
    (now : Date) (oid : ObjectId) (uuid : string) (user : ReqUser.t)
    (b : CreateBody.t) (db : Db) :
  trim (or_else (CreateBody.title b) "") = ""
  \/ or_else (CreateBody.content b) "" = "" ->
  status (snd (post_create now oid uuid user b db)) = 500%nat
  /\ fst (post_create now oid uuid user b db) = db
  /\ exists message,
       body (snd (post_create now oid uuid user b db))
       = JObj [("error", JStr message)].
Proof.
  intros H. unfold post_create.
  assert (Hv : validators (new_Snippet now oid uuid user b) = false).
  { unfold validators. cbn [new_Snippet Snippet.title Snippet.content].
    destruct H as [-> | ->]; cbn [String.eqb negb andb];
      rewrite ?andb_false_r; reflexivity. }
  rewrite Hv. cbn [fst snd status body error].
  split; [reflexivity|]. split; [reflexivity|]. eexists. reflexivity.
Qed.

Lemma post_create_requires_title_and_content_witness :
  (let r :=
     post_create 2000000 Sample_public.s4 "link-5" Sample.as_bob
       (CreateBody.mk (Some "   ") (Some "todo") None None None None)
       Sample.db in
   status (snd r) = 500%nat /\ fst r = Sample.db)
  /\ (let r :=
        post_create 2000000 Sample_public.s4 "link-5" Sample.as_bob
          (CreateBody.mk (Some "Notes") None None None None None) Sample.db in
      status (snd r) = 500%nat /\ fst r = Sample.db).
Proof.
  split.
  - destruct (post_create_requires_title_and_content 2000000 Sample_public.s4
                "link-5" Sample.as_bob
                (CreateBody.mk (Some "   ") (Some "todo") None None None None)
                Sample.db (or_introl eq_refl)) as (Hs & Hd & _).
    split; assumption.
  - destruct (post_create_requires_title_and_content 2000000 Sample_public.s4
                "link-5" Sample.as_bob
                (CreateBody.mk (Some "Notes") None None None None None)
                Sample.db (or_intror eq_refl)) as (Hs & Hd & _).
    split; assumption.
Defined.

(** ** The [auth] middleware *)

(** X20.  The middleware lets a request through only for an active stored
    user, whose id, organization and role it puts in [req.user]; every
    reply it sends itself is a 401.  A header made of "Bearer " and a
    token that verifies to the id of an active user is let through. *)
Theorem auth_admits_active_users
    (verify : string -> option ObjectId) (us : list User.t) :
  (forall authorization r,
      auth verify authorization us = inl r ->
      exists header u,
        authorization = Some header
        /\ verify (replace "Bearer " "" header) = Some (User._id u)
        /\ In u us /\ User.isActive u = true
        /\ r = ReqUser.mk (User._id u) (User.organization u) (User.role u))
  /\ (forall authorization reply,
         auth verify authorization us = inr reply -> status reply = 401%nat)
  /\ (forall token id u,
         token <> "" ->
         verify token = Some id ->
         User_findById us id = Some u ->
         User.isActive u = true ->
         auth verify (Some (String.append "Bearer " token)) us
         = inl (ReqUser.mk (User._id u) (User.organization u) (User.role u))).
Proof.
  split; [|split].
  - intros [header|] r H; unfold auth in H; [|discriminate].
    destruct (String.eqb (replace "Bearer " "" header) ""); [discriminate|].
    destruct (verify (replace "Bearer " "" header)) as [id|] eqn:Hv;
      [|discriminate].
    destruct (User_findById us id) as [u|] eqn:Hu; [|discriminate].
    destruct (User.isActive u) eqn:Hact; [|discriminate].
    injection H as <-. exists header, u.
    rewrite (findById_id _ _ _ Hu). unfold User_findById in Hu.
    apply find_some in Hu. tauto.
  - intros authorization reply H. unfold auth in H.
    destruct authorization as [header|]; [|now injection H as <-].
    destruct (String.eqb (replace "Bearer " "" header) "");
      [now injection H as <-|].
    destruct (verify (replace "Bearer " "" header)) as [id|];
      [|now injection H as <-].
    destruct (User_findById us id) as [u|]; [|now injection H as <-].
    destruct (User.isActive u); [discriminate|now injection H as <-].
  - intros token id u Htoken Hv Hu Hact. unfold auth.
    assert (Hreplace : replace "Bearer " "" (String.append "Bearer " token)
                       = token).
    { cbn. now destruct token. }
    rewrite Hreplace. apply String.eqb_neq in Htoken.
    now rewrite Htoken, Hv, Hu, Hact.
Qed.

Lemma auth_admits_active_users_witness :
  let verify token :=
    if String.eqb token "token-of-bob" then Some Sample.u2 else None in
  auth verify (Some "Bearer token-of-bob") (users Sample.db)
  = inl Sample.as_bob
  /\ auth verify (Some "Bearer token-of-bob")
       [Sample.alice;
        User.mk Sample.u2 "bob" "bob@acme.com" "acme" Role.user false]
     = inr (error 401 "Invalid token").
Proof.
  intros verify. split; [|reflexivity].
  destruct (auth_admits_active_users verify (users Sample.db))
    as [_ [_ Hlet]].
  apply (Hlet "token-of-bob" Sample.u2 Sample.bob); try reflexivity.
  discriminate.
Defined.

(** ** The edit page *)

Lemma split_comma_not_nil (s : string) : split_comma s <> [].
Proof.
  destruct s as [|c r]; simpl; [discriminate|].
  destruct (Ascii.eqb c ","%char); [discriminate|].
  destruct (split_comma r); discriminate.
Qed.

Lemma split_comma_whole (t : string) :
  has_comma t = false -> split_comma t = [t].
Proof.
  unfold has_comma.
  induction t as [|c r IH];
    cbn [split_comma list_ascii_of_string existsb]; [reflexivity|].
  intros H. apply orb_false_iff in H. destruct H as [Hc Hr].
  rewrite (Ascii.eqb_sym c ","%char), Hc. now rewrite (IH Hr).
Qed.

Lemma split_comma_first (t rest : string) :
  has_comma t = false ->
  split_comma (String.append t (String ","%char rest)) = t :: split_comma rest.
Proof.
  unfold has_comma.
  induction t as [|c r IH];
    cbn [split_comma list_ascii_of_string existsb String.append].
  - intros _. reflexivity.
  - intros H. apply orb_false_iff in H. destruct H as [Hc Hr].
    rewrite (Ascii.eqb_sym c ","%char), Hc. now rewrite (IH Hr).
Qed.

Lemma trim_after_space (rest : string) :
  map trim (split_comma (String " "%char rest)) = map trim (split_comma rest).
Proof.
  cbn [split_comma]. replace (Ascii.eqb " " ",") with false by reflexivity.
  destruct (split_comma rest) as [|w ws] eqn:E.
  - now apply split_comma_not_nil in E.
  - reflexivity.
Qed.

(** Splitting the joined tags gives them back, trimmed. *)
Lemma split_comma_join_tags (tags : list string) :
  Forall (fun t => has_comma t = false) tags ->
  map trim (split_comma (join_tags tags))
  = match tags with
    | [] => [""]
    | _ => map trim tags
    end.
Proof.
  intros Hcomma. unfold join_tags.
  induction Hcomma as [|t ts Ht Hts IH]; [reflexivity|].
  cbn [String.concat]. destruct ts as [|t' ts'].
  - now rewrite split_comma_whole.
  - change (String.append t
              (String.append ", " (String.concat ", " (t' :: ts'))))
      with (String.append t
              (String ","%char
                 (String " "%char (String.concat ", " (t' :: ts'))))).
    rewrite split_comma_first by assumption.
    cbn [map]. f_equal. rewrite trim_after_space. exact IH.
Qed.

(** Tags that are trimmed and not empty pass the filter of the page. *)
Lemma clean_tags_pass (tags : list string) :
  Forall (fun t => trim t = t /\ t <> "") tags ->
  filter (fun t => Nat.ltb 0 (String.length t)) (map trim tags) = tags.
Proof.
  intros Hclean.
  induction Hclean as [|t ts [Ht Hne] Hts IH]; [reflexivity|].
  cbn [map filter]. rewrite Ht.
  destruct t as [|c r]; [contradiction|].
  change (Nat.ltb 0 (String.length (String c r))) with true.
  cbv iota. f_equal. exact IH.
Qed.

(** X21.  The edit page reads the tags back as it showed them: for tags
    without a comma, splitting the joined text gives the tags again,
    trimmed and without the empty ones; so tags that are trimmed and not
    empty, as the page itself sends them, come back unchanged. *)
Theorem tagsArray_of_joined_tags (tags : list string) :
  Forall (fun t => has_comma t = false) tags ->
  tagsArray (join_tags tags)
  = filter (fun t => Nat.ltb 0 (String.length t)) (map trim tags)
  /\ (Forall (fun t => trim t = t /\ t <> "") tags ->
      tagsArray (join_tags tags) = tags).
Proof.
  intros Hcomma.
  assert (Hfirst : tagsArray (join_tags tags)
                   = filter (fun t => Nat.ltb 0 (String.length t))
                            (map trim tags)).
  { unfold tagsArray. rewrite (split_comma_join_tags tags Hcomma).
    now destruct tags. }
  split; [exact Hfirst|].
  intros Hclean. rewrite Hfirst. now apply clean_tags_pass.
Qed.

Lemma tagsArray_of_joined_tags_witness :
  tagsArray (join_tags ["react"; "state hooks"; "ui"])
  = ["react"; "state hooks"; "ui"]
  /\ tagsArray (join_tags [" padded "; ""; "x"]) = ["padded"; "x"].
Proof.
  split.
  - apply tagsArray_of_joined_tags.
    + repeat constructor.
    + repeat constructor; discriminate.
  - apply (tagsArray_of_joined_tags [" padded "; ""; "x"]).
    repeat constructor.
Defined.

(** The body of the reply of the get-by-id route to a requester it
    admits: the document after the clean-up, with two keys assigned. *)
Lemma get_by_id_admitted_body
    (now : Date) (user : ReqUser.t) (id : ObjectId) (db : Db)
    (s : Snippet.t) (author : User.t) :
  Snippet_findOne [c_id id; c_isActive true] db = Some s ->
  User_findById (users db) (Snippet.author s) = Some author ->
  may_read user s = true ->
  exists viewers sharingInfo,
    body (snd (get_by_id now user id db))
    = JObj (assign "currentViewers" viewers
              (assign "sharingInfo" sharingInfo
                 (Snippet_toObject (author_username (users db))
                    (viewer_user (users db))
                    (fst (cleanupViewers now s db))))).
Proof.
  intros Hfind Hauthor Hread. unfold get_by_id.
  rewrite Hfind, Hauthor, (findById_id _ _ _ Hauthor).
  unfold may_read in Hread.
  destruct (String.eqb (Snippet.author s) (ReqUser.userId user));
    destruct (existsb (names_user (ReqUser.userId user)) (Snippet.sharedWith s));
    destruct (Visibility.eqb (Snippet.visibility s) Visibility.organization
              && String.eqb (Snippet.organization s) (ReqUser.organization user));
    destruct (Visibility.eqb (Snippet.visibility s) Visibility.public);
    try discriminate Hread; eexists _, _; reflexivity.
Qed.

Lemma Visibility_ofString_toString (v : Visibility.t) :
  Visibility_ofString (Visibility.toString v) = v.
Proof. now destruct v. Qed.

Lemma string_or_same (v : string) : string_or "" (Some (JStr v)) = v.
Proof. unfold string_or. now destruct (String.eqb_spec v ""). Qed.

(** What the edit page reads out of a rendered snippet. *)
Lemma fetchSnippet_of_document (author viewer : ObjectId -> json)
    (viewers sharingInfo : json) (s : Snippet.t) :
  fetchSnippet
    (JObj (assign "currentViewers" viewers
             (assign "sharingInfo" sharingInfo
                (Snippet_toObject author viewer s))))
  = FormData.mk (Snippet.title s) (Snippet.content s)
      (if String.eqb (Snippet.language s) "" then "javascript"
       else Snippet.language s)
      (or_else (Snippet.description s) "")
      (join_tags (Snippet.tags s))
      (Snippet.visibility s).
Proof.
  unfold fetchSnippet, get.
  rewrite !assoc_assign_other by discriminate.
  assert (Htags : map (fun t => string_or "" (Some t))
                      (map JStr (Snippet.tags s)) = Snippet.tags s).
  { rewrite map_map. rewrite <- (map_id (Snippet.tags s)) at 2.
    apply map_ext. intros t. apply string_or_same. }
  assert (Hvis : Visibility_ofString
                   (string_or "private"
                      (Some (JStr (Visibility.toString (Snippet.visibility s)))))
                 = Snippet.visibility s) by now destruct (Snippet.visibility s).
  unfold Snippet_toObject.
  destruct (Snippet.description s) as [d|];
    cbn [field app assoc String.eqb Ascii.eqb Bool.eqb or_else];
    rewrite Htags, Hvis, !string_or_same; reflexivity.
Qed.

(** X22.  The edit page sends back what it read, and only the six paths
    of its form: from the reply of the get-by-id route for a snippet whose
    title and content are not blank, its submit makes a body with the
    snippet's title, content and visibility, the language (or "javascript"
    for an empty one), the description (or the empty one for none) and the
    tags split out of their joined text, and with no other path.  For a
    snippet with a trimmed title, a language, a description and tags that
    are trimmed, not empty and without a comma, assigning that body
    changes nothing. *)
Theorem edit_page_sends_back_what_it_read
    (now : Date) (user : ReqUser.t) (id : ObjectId) (db : Db)
    (s : Snippet.t) (author : User.t) :
  Snippet_findOne [c_id id; c_isActive true] db = Some s ->
  User_findById (users db) (Snippet.author s) = Some author ->
  may_read user s = true ->
  trim (Snippet.title s) <> "" ->
  trim (Snippet.content s) <> "" ->
  let data := body (snd (get_by_id now user id db)) in
  let b :=
    UpdateBody.mk
      (Some (Snippet.title s)) (Some (Snippet.content s))
      (Some (if String.eqb (Snippet.language s) "" then "javascript"
             else Snippet.language s))
      (Some (or_else (Snippet.description s) ""))
      None None None
      (Some (Snippet.visibility s))
      (Some (tagsArray (join_tags (Snippet.tags s))))
      None None None None None in
  handleSubmit (fetchSnippet data) = Some b
  /\ (trim (Snippet.title s) = Snippet.title s ->
      Snippet.language s <> "" ->
      Snippet.description s <> None ->
      Forall (fun t => has_comma t = false) (Snippet.tags s) ->
      Forall (fun t => trim t = t /\ t <> "") (Snippet.tags s) ->
      Object_assign s b = s).
Proof.
  intros Hfind Hauthor Hread Htitle Hcontent data b.
  destruct (get_by_id_admitted_body now user id db s author Hfind Hauthor Hread)
    as [viewers [sharingInfo Hbody]].
  split.
  - unfold data. rewrite Hbody, fetchSnippet_of_document.
    unfold handleSubmit.
    cbn [FormData.title FormData.content FormData.language
         FormData.description FormData.tags FormData.visibility
         cleanupViewers fst Snippet.title Snippet.content Snippet.language
         Snippet.description Snippet.tags Snippet.visibility
         Snippet.set_currentViewers].
    apply String.eqb_neq in Htitle, Hcontent.
    now rewrite Htitle, Hcontent.
  - intros Htrim Hlang Hdesc Hcomma Hclean.
    assert (Htags : tagsArray (join_tags (Snippet.tags s)) = Snippet.tags s).
    { unfold tagsArray. rewrite (split_comma_join_tags _ Hcomma).
      rewrite <- (clean_tags_pass _ Hclean) at 2.
      now destruct (Snippet.tags s). }
    unfold Object_assign, b.
    cbn [UpdateBody.title UpdateBody.content UpdateBody.language
         UpdateBody.description UpdateBody.author UpdateBody.organization
         UpdateBody.shareId UpdateBody.visibility UpdateBody.tags
         UpdateBody.views UpdateBody.isActive UpdateBody.sharedWith
         UpdateBody.currentViewers option_map or_else].
    rewrite Htrim, Htags.
    apply String.eqb_neq in Hlang. rewrite Hlang.
    assert (Hmap : map trim (Snippet.tags s) = Snippet.tags s).
    { rewrite <- (map_id (Snippet.tags s)) at 2. apply map_ext_in.
      intros t Ht. rewrite Forall_forall in Hclean. now apply Hclean. }
    rewrite Hmap.
    destruct s as [i t c l d a o sh v tg vw act sw cv cr].
    cbn [Snippet._id Snippet.title Snippet.content Snippet.language
         Snippet.description Snippet.author Snippet.organization
         Snippet.shareId Snippet.visibility Snippet.tags Snippet.views
         Snippet.isActive Snippet.sharedWith Snippet.currentViewers
         Snippet.createdAt or_else] in *.
    destruct d; [reflexivity|contradiction].
Qed.

Lemma edit_page_sends_back_what_it_read_witness :
  let data :=
    body (snd (get_by_id 1000000 Sample.as_carol Sample_public.s4
                 Sample_public.db)) in
  handleSubmit (fetchSnippet data)
  = Some (UpdateBody.mk (Some "Retry loop") (Some "for i in range(3): call()")
            (Some "python") (Some "retries a call") None None None
            (Some Visibility.public) (Some ["python"; "retry"])
            None None None None None)
  /\ forall b, handleSubmit (fetchSnippet data) = Some b ->
               Object_assign Sample_public.gist b = Sample_public.gist.
Proof.
  intros data.
  destruct (edit_page_sends_back_what_it_read 1000000 Sample.as_carol
              Sample_public.s4 Sample_public.db Sample_public.gist Sample.carol
              eq_refl eq_refl eq_refl)
    as [Hsubmit Hsame]; [discriminate|discriminate|].
  split; [exact Hsubmit|].
  intros b Hb. unfold data in Hb. rewrite Hsubmit in Hb. injection Hb as <-.
  apply Hsame.
  - reflexivity.
  - discriminate.
  - discriminate.
  - repeat constructor.
  - repeat constructor; discriminate.
Defined.

(** ** Updating, once more *)



(** X24.  Revoking undoes sharing in the ledger: when the author shares an
    active snippet with one address that the ledger does not cover, under
    an id no grant of the ledger has, and then revokes the grant of that
    id, both requests are answered 200 and the stored ledger is the one
    from before the two requests. *)
Theorem share_then_revoke
    (now : Date) (oid : nat -> ObjectId) (owner : ReqUser.t)
    (permissions : option Permissions.t) (db : Db) (s : Snippet.t)
    (e : string) :
  In s (snippets db) ->
  NoDup (map Snippet._id (snippets db)) ->
  Snippet.author s = ReqUser.userId owner ->
  Snippet.isActive s = true ->
  covered (users db) e (Snippet.sharedWith s) = false ->
  (forall g, In g (Snippet.sharedWith s) -> Share._id g <> oid 0%nat) ->
  let shared :=
    post_share now oid owner (Snippet._id s)
      (ShareBody.mk [e] [] permissions) db in
  let revoked :=
    delete_share owner (Snippet._id s) (oid 0%nat) (fst shared) in
  (exists g, option_map Snippet.sharedWith
               (Snippet_findOne [c_id (Snippet._id s); c_isActive true]
                  (fst shared))
             = Some (Snippet.sharedWith s ++ [g])
             /\ Share._id g = oid 0%nat
             /\ Share.email g = Some (trim e))
  /\ status (snd shared) = 200%nat
  /\ status (snd revoked) = 200%nat
  /\ option_map Snippet.sharedWith
       (Snippet_findOne [c_id (Snippet._id s); c_isActive true] (fst revoked))
     = Some (Snippet.sharedWith s).
Proof.
  intros Hin Hnd Howner Hact Hcov Hids shared revoked.
  pose proof (findOne_by_id db s _ Hin Hnd
                (matches_author_active s _ Howner Hact)) as Hfind.
  destruct (post_share_found now oid owner (Snippet._id s)
              (ShareBody.mk [e] [] permissions) db s Hfind) as [Hpost Hfind1].
  set (g := Share.mk (oid 0%nat)
              (option_map User._id (User_findOne_email (users db) (trim e)))
              (Some (trim e)) (or_else permissions Permissions.view) now
              (Some (ReqUser.userId owner))).
  assert (Hledger : ledger
                      (share_all (users db) owner
                         (or_else permissions Permissions.view) now oid
                         [e] [] (Snippet.sharedWith s))
                    = Snippet.sharedWith s ++ [g]).
  { unfold share_all. cbn [fold_left]. unfold share_email.
    cbn [ledger sharedUsers]. unfold covered in Hcov. rewrite Hcov.
    cbn [negb]. destruct (User_findOne_email (users db) (trim e)); reflexivity. }
  cbn [ShareBody.emails ShareBody.usernames ShareBody.permissions]
    in Hpost, Hfind1.
  rewrite Hledger in Hpost, Hfind1.
  set (s1 := Snippet.set_sharedWith (Snippet.sharedWith s ++ [g]) s)
    in Hpost, Hfind1.
  assert (Hshared : fst shared = save s1 db)
    by (unfold shared; now rewrite Hpost).
  assert (Hactive : matches [c_isActive true] s = true).
  { unfold matches. cbn [forallb holds]. now rewrite Hact. }
  assert (Hrevoked : revoked
                     = (db,
                        mkResponse 200
                          (JObj [("message",
                                   JStr "User removed from sharing list")]))).
  { unfold revoked. rewrite Hshared. unfold delete_share. rewrite Hfind1.
    rewrite save_save by reflexivity.
    assert (Hback : Snippet.set_sharedWith
                      (filter (fun share =>
                                 negb (String.eqb (Share._id share) (oid 0%nat)))
                              (Snippet.sharedWith s1)) s1 = s).
    { unfold s1. cbn [Snippet.sharedWith Snippet.set_sharedWith].
      rewrite filter_app. cbn [filter g Share._id].
      rewrite String.eqb_refl. cbn [negb]. rewrite app_nil_r.
      rewrite filter_all.
      - now destruct s.
      - intros x Hx. apply negb_true_iff, String.eqb_neq. now apply Hids. }
    rewrite Hback. now rewrite save_stored. }
  split; [|split; [|split]].
  - exists g. rewrite Hshared.
    rewrite (findOne_after_save db s s1 [c_isActive true] Hin Hnd eq_refl
               Hactive).
    + split; [reflexivity|]. split; reflexivity.
    + unfold matches. cbn [forallb holds].
      cbn [Snippet._id Snippet.isActive Snippet.set_sharedWith s1].
      now rewrite String.eqb_refl, Hact.
  - unfold shared. now rewrite Hpost.
  - now rewrite Hrevoked.
  - rewrite Hrevoked. cbn [fst].
    now rewrite (findOne_by_id db s [c_isActive true] Hin Hnd Hactive).
Qed.

Lemma share_then_revoke_witness :
  let shared :=
    post_share 500 Sample.oid Sample.as_alice Sample.s2
      (ShareBody.mk ["bob@acme.com"] [] (Some Permissions.edit)) Sample.db in
  let revoked := delete_share Sample.as_alice Sample.s2 Sample.g0 (fst shared) in
  option_map Snippet.sharedWith
    (Snippet_findOne [c_id Sample.s2; c_isActive true] (fst shared))
  = Some (Snippet.sharedWith Sample.shared_secret)
  /\ option_map Snippet.sharedWith
       (Snippet_findOne [c_id Sample.s2; c_isActive true] (fst revoked))
     = Some [].
Proof.
  split; [reflexivity|].
  apply (share_then_revoke 500 Sample.oid Sample.as_alice
           (Some Permissions.edit) Sample.db Sample.secret "bob@acme.com").
  - simpl. auto.
  - repeat constructor; simpl; intuition discriminate.
  - reflexivity.
  - reflexivity.
  - reflexivity.
  - intros g [].
Defined.

(** X25.  A viewer who joined is listed to every requester until five
    minutes have passed: after the join route admitted a requester to an
    active snippet, the viewers route replies 200 to any requester, and the
    entries it lists hold exactly one entry of the one who joined, the one
    stamped by the join, as long as both clean-ups ran less than five
    minutes after the stamp, and none afterwards. *)
Theorem joined_viewer_is_listed
    (now now' now2 : Date) (oid : ObjectId) (user other : ReqUser.t)
    (id : ObjectId) (socketId : option string) (db : Db) (s : Snippet.t) :
  Snippet_findOne [c_id id; c_isActive true] db = Some s ->
  may_join user s = true ->
  let joined := fst (join_view now now' oid user id socketId db) in
  exists kept,
    snd (get_viewers now2 other id joined)
    = mkResponse 200
        (JObj [("currentViewers", JArr (map (viewerInfo (users db)) kept))])
    /\ entries_of (ReqUser.userId user) kept
       = (if (fiveMinutesAgo now' <? now) && (fiveMinutesAgo now2 <? now)
          then [Viewer.mk oid (ReqUser.userId user) now socketId]
          else []).
Proof.
  intros Hfind Hjoin joined. unfold joined.
  rewrite (join_view_found now now' oid user id socketId db s Hfind), Hjoin.
  set (s0 := Snippet.set_currentViewers _ s).
  cbn [fst snd cleanupViewers].
  set (s1 := Snippet.set_currentViewers _ s0).
  assert (Hfind1 : Snippet_findOne [c_id id; c_isActive true] (save s1 db)
                   = Some s1).
  { apply (findOne_save _ db s _ Hfind); [reflexivity|].
    now apply findOne_some in Hfind. }
  rewrite (get_viewers_found now2 other id (save s1 db) s1 Hfind1).
  eexists. split; [reflexivity|].
  cbn [fst cleanupViewers Snippet.currentViewers Snippet.set_currentViewers
       s1 s0].
  unfold entries_of. rewrite !filter_app.
  cbn [filter Viewer.lastSeen Viewer.user].
  rewrite filter_none.
  - destruct (fiveMinutesAgo now' <? now);
      cbn [filter Viewer.lastSeen Viewer.user andb]; [|reflexivity].
    destruct (fiveMinutesAgo now2 <? now);
      cbn [filter Viewer.lastSeen Viewer.user andb]; [|reflexivity].
    now rewrite String.eqb_refl.
  - intros x Hx. apply filter_In in Hx. destruct Hx as [Hx _].
    apply filter_In in Hx. destruct Hx as [Hx _].
    apply filter_In in Hx. destruct Hx as [_ Hx].
    now apply negb_true_iff in Hx.
Qed.

Lemma joined_viewer_is_listed_witness :
  exists kept,
    snd (get_viewers 1200000 Sample.as_carol Sample.s1
           (fst (join_view 1000000 1000020 Sample.v9 Sample.as_bob Sample.s1
                   (Some "sock-9") Sample.db)))
    = mkResponse 200
        (JObj [("currentViewers",
                 JArr (map (viewerInfo (users Sample.db)) kept))])
    /\ entries_of Sample.u2 kept
       = [Viewer.mk Sample.v9 Sample.u2 1000000 (Some "sock-9")].
Proof.
  exact (joined_viewer_is_listed 1000000 1000020 1200000 Sample.v9
           Sample.as_bob Sample.as_carol Sample.s1 (Some "sock-9") Sample.db
           Sample.notes eq_refl eq_refl).
Defined.

(** ** The configuration *)

Lemma take_follows (v : option string) (stored : AppConfig.t -> option string)
    (set : string -> AppConfig.t -> AppConfig.t) (st : AppConfig.t * bool) :
  (forall x c, stored (set x c) = Some x) ->
  follows v (stored (fst (take v stored set st))).
Proof.
  intros Hset. unfold follows, truthy, take. destruct v as [x|]; cbn.
  - destruct (String.eqb x "") eqn:Ex; cbn; [discriminate|]. intros _.
    destruct (equals (stored (fst st)) x) eqn:E; cbn.
    + unfold equals in E. destruct (stored (fst st)) as [y|]; [|discriminate].
      apply String.eqb_eq in E. now subst.
    + apply Hset.
  - discriminate.
Qed.

Lemma take_keeps {A} (p : AppConfig.t -> A) (v : option string)
    (stored : AppConfig.t -> option string)
    (set : string -> AppConfig.t -> AppConfig.t) (st : AppConfig.t * bool) :
  (forall x c, p (set x c) = p c) ->
  p (fst (take v stored set st)) = p (fst st).
Proof.
  intros Hset. unfold take. destruct v as [x|]; [|reflexivity].
  destruct (negb (String.eqb x "") && negb (equals (stored (fst st)) x));
    [apply Hset|reflexivity].
Qed.

(** A variable that is not set, or that the document follows already,
    leaves the document and the flag as they are. *)
Lemma take_settled (v : option string) (stored : AppConfig.t -> option string)
    (set : string -> AppConfig.t -> AppConfig.t) (st : AppConfig.t * bool) :
  follows v (stored (fst st)) -> take v stored set st = st.
Proof.
  unfold follows, truthy, take. destruct v as [x|]; cbn; [|reflexivity].
  destruct (String.eqb x "") eqn:Ex; cbn; [reflexivity|].
  intros H. rewrite (H eq_refl). cbn. now rewrite String.eqb_refl.
Qed.

Lemma differs_bool_Boolean (b : bool) (v : JsValue) :
  differs_bool b v = false -> b = Boolean v.
Proof.
  destruct v as [b'| |]; cbn; try discriminate.
  intros H. apply negb_false_iff, Bool.eqb_prop in H. exact H.
Qed.

(** The document that [update] returns, path by path. *)
Lemma update_returns (env : Env.t) (config c : AppConfig.t) :
  update env config = inr c ->
  AppConfig.allowRegistration c = negb (equals (Env.AUTH_MODE env) "azure_ad")
  /\ AppConfig.enabled c = Boolean (shouldEnableAzureAd env)
  /\ follows (Env.AUTH_MODE env) (Some (AppConfig.authMode c))
  /\ follows (Env.DEFAULT_ORGANIZATION env)
             (Some (AppConfig.defaultOrganization c))
  /\ follows (Env.AZURE_AD_CLIENT_ID env) (AppConfig.clientId c)
  /\ follows (Env.AZURE_AD_CLIENT_SECRET env) (AppConfig.clientSecret c)
  /\ follows (Env.AZURE_AD_TENANT_ID env) (AppConfig.tenantId c).
Proof.
  unfold update. cbv zeta.
  match goal with
  | |- match ?m with inl _ => _ | inr _ => _ end = _ -> _ =>
      destruct m as [e|st0] eqn:Hmode; [discriminate|]
  end.
  assert (Hmode0 : follows (Env.AUTH_MODE env)
                     (Some (AppConfig.authMode (fst st0)))).
  { unfold follows, truthy. destruct (Env.AUTH_MODE env) as [m|]; cbn;
      [|discriminate].
    destruct (String.eqb m "") eqn:Em; cbn in *; [discriminate|]. intros _.
    destruct (String.eqb (AppConfig.authMode config) m) eqn:Ea; cbn in *.
    - apply String.eqb_eq in Ea. inversion Hmode. subst. reflexivity.
    - destruct (String.eqb m "azure_ad"
                && (negb (truthy (Env.AZURE_AD_CLIENT_ID env))
                    || negb (truthy (Env.AZURE_AD_CLIENT_SECRET env))
                    || negb (truthy (Env.AZURE_AD_TENANT_ID env))));
        inversion Hmode. reflexivity. }
  set (st1 := take (Env.DEFAULT_ORGANIZATION env) _ _ st0).
  set (st2 := take (Env.AZURE_AD_CLIENT_ID env) _ _ st1).
  set (st3 := take (Env.AZURE_AD_CLIENT_SECRET env) _ _ st2).
  set (st4 := take (Env.AZURE_AD_TENANT_ID env) _ _ st3).
  set (st5 := if differs_bool _ _ then _ else st4).
  set (st6 := if negb (Bool.eqb (AppConfig.allowRegistration (fst st5)) _)
              then _ else st5).
  intros Hc.
  assert (Hc' : c = fst st6).
  { destruct (snd st6); [|now inversion Hc].
    destruct (negb (String.eqb (AppConfig.authMode (fst st6))
                               (AppConfig.authMode config))
              && negb (authMode_enum (AppConfig.authMode (fst st6))));
      now inversion Hc. }
  clear Hc. subst c.
  assert (H65 : forall A (p : AppConfig.t -> A),
             (forall b x, p (AppConfig.set_allowRegistration b x) = p x) ->
             p (fst st6) = p (fst st5)).
  { intros A p Hp. unfold st6.
    destruct (negb (Bool.eqb (AppConfig.allowRegistration (fst st5))
                             (negb (equals (Env.AUTH_MODE env) "azure_ad"))));
      [apply Hp|reflexivity]. }
  assert (H54 : forall A (p : AppConfig.t -> A),
             (forall b x, p (AppConfig.set_enabled b x) = p x) ->
             p (fst st5) = p (fst st4)).
  { intros A p Hp. unfold st5.
    destruct (differs_bool (AppConfig.enabled (fst st4))
                           (shouldEnableAzureAd env));
      [apply Hp|reflexivity]. }
  repeat split.
  - unfold st6.
    destruct (Bool.eqb (AppConfig.allowRegistration (fst st5))
                       (negb (equals (Env.AUTH_MODE env) "azure_ad"))) eqn:E;
      cbn [negb fst]; [now apply Bool.eqb_prop in E|reflexivity].
  - rewrite (H65 _ AppConfig.enabled) by reflexivity. unfold st5.
    destruct (differs_bool (AppConfig.enabled (fst st4))
                           (shouldEnableAzureAd env)) eqn:E;
      [reflexivity|now apply differs_bool_Boolean].
  - rewrite (H65 _ AppConfig.authMode), (H54 _ AppConfig.authMode)
      by reflexivity.
    unfold st4, st3, st2, st1.
    rewrite !(take_keeps AppConfig.authMode) by reflexivity. exact Hmode0.
  - rewrite (H65 _ AppConfig.defaultOrganization),
      (H54 _ AppConfig.defaultOrganization) by reflexivity.
    unfold st4, st3, st2.
    rewrite !(take_keeps AppConfig.defaultOrganization) by reflexivity.
    exact (take_follows _ (fun c => Some (AppConfig.defaultOrganization c))
             AppConfig.set_defaultOrganization st0 (fun _ _ => eq_refl)).
  - rewrite (H65 _ AppConfig.clientId), (H54 _ AppConfig.clientId)
      by reflexivity.
    unfold st4, st3.
    rewrite !(take_keeps AppConfig.clientId) by reflexivity.
    exact (take_follows _ AppConfig.clientId AppConfig.set_clientId st1
             (fun _ _ => eq_refl)).
  - rewrite (H65 _ AppConfig.clientSecret), (H54 _ AppConfig.clientSecret)
      by reflexivity.
    unfold st4.
    rewrite !(take_keeps AppConfig.clientSecret) by reflexivity.
    exact (take_follows _ AppConfig.clientSecret AppConfig.set_clientSecret st2
             (fun _ _ => eq_refl)).
  - rewrite (H65 _ AppConfig.tenantId), (H54 _ AppConfig.tenantId)
      by reflexivity.
    exact (take_follows _ AppConfig.tenantId AppConfig.set_tenantId st3
             (fun _ _ => eq_refl)).
Qed.

Lemma or_string_follows (v : option string) (d : string) :
  follows v (Some (or_string v d)).
Proof.
  unfold follows, truthy, or_string. destruct v as [x|]; cbn; [|discriminate].
  destruct (String.eqb x ""); cbn; [discriminate|reflexivity].
Qed.

(** The document that [create] returns, path by path. *)
Lemma create_returns (env : Env.t) (c : AppConfig.t) :
  create env = inr c ->
  AppConfig.allowRegistration c = negb (equals (Env.AUTH_MODE env) "azure_ad")
  /\ AppConfig.enabled c = Boolean (shouldEnableAzureAd env)
  /\ follows (Env.AUTH_MODE env) (Some (AppConfig.authMode c))
  /\ follows (Env.DEFAULT_ORGANIZATION env)
             (Some (AppConfig.defaultOrganization c))
  /\ follows (Env.AZURE_AD_CLIENT_ID env) (AppConfig.clientId c)
  /\ follows (Env.AZURE_AD_CLIENT_SECRET env) (AppConfig.clientSecret c)
  /\ follows (Env.AZURE_AD_TENANT_ID env) (AppConfig.tenantId c).
Proof.
  unfold create. cbv zeta.
  match goal with
  | |- match ?m with Some _ => _ | None => _ end = _ -> _ =>
      destruct m; [discriminate|]
  end.
  match goal with
  | |- (if ?b then _ else _) = _ -> _ => destruct b; [|discriminate]
  end.
  intros H. inversion H. subst c. clear H.
  cbn [AppConfig.allowRegistration AppConfig.enabled AppConfig.authMode
       AppConfig.defaultOrganization AppConfig.clientId AppConfig.clientSecret
       AppConfig.tenantId].
  repeat split; try apply or_string_follows.
Qed.

(** A document that follows the environment is what [update] returns
    for it. *)
Lemma update_settled (env : Env.t) (c : AppConfig.t) :
  AppConfig.allowRegistration c = negb (equals (Env.AUTH_MODE env) "azure_ad") ->
  AppConfig.enabled c = Boolean (shouldEnableAzureAd env) ->
  follows (Env.AUTH_MODE env) (Some (AppConfig.authMode c)) ->
  follows (Env.DEFAULT_ORGANIZATION env)
          (Some (AppConfig.defaultOrganization c)) ->
  follows (Env.AZURE_AD_CLIENT_ID env) (AppConfig.clientId c) ->
  follows (Env.AZURE_AD_CLIENT_SECRET env) (AppConfig.clientSecret c) ->
  follows (Env.AZURE_AD_TENANT_ID env) (AppConfig.tenantId c) ->
  update env c = inr c.
Proof.
  intros Hallow Henabled Hmode Horg Hid Hsecret Htenant.
  unfold update. cbv zeta.
  assert (Hmode0 :
            match Env.AUTH_MODE env with
            | Some m =>
                if negb (String.eqb m "")
                   && negb (String.eqb (AppConfig.authMode c) m)
                then
                  if String.eqb m "azure_ad"
                     && (negb (truthy (Env.AZURE_AD_CLIENT_ID env))
                         || negb (truthy (Env.AZURE_AD_CLIENT_SECRET env))
                         || negb (truthy (Env.AZURE_AD_TENANT_ID env)))
                  then inl incomplete_azure_ad
                  else inr (AppConfig.set_authMode m c, true)
                else inr (c, false)
            | None => inr (c, false)
            end = inr (c, false)).
  { unfold follows, truthy in Hmode.
    destruct (Env.AUTH_MODE env) as [m|]; [|reflexivity]. cbn in Hmode.
    destruct (String.eqb m "") eqn:Em; cbn; [reflexivity|].
    specialize (Hmode eq_refl). inversion Hmode.
    now rewrite String.eqb_refl. }
  rewrite Hmode0.
  rewrite (take_settled (Env.DEFAULT_ORGANIZATION env)) by exact Horg.
  rewrite (take_settled (Env.AZURE_AD_CLIENT_ID env)) by exact Hid.
  rewrite (take_settled (Env.AZURE_AD_CLIENT_SECRET env)) by exact Hsecret.
  rewrite (take_settled (Env.AZURE_AD_TENANT_ID env)) by exact Htenant.
  cbn [fst]. rewrite <- Henabled.
  assert (Hsame : AppConfig.set_enabled (AppConfig.enabled c) c = c)
    by now destruct c.
  rewrite Hsame.
  destruct (differs_bool (AppConfig.enabled c) (shouldEnableAzureAd env));
    cbn [fst snd]; rewrite <- Hallow, Bool.eqb_reflx; cbn [negb fst snd];
    [|reflexivity].
  now rewrite String.eqb_refl.
Qed.

(** X26.  The configuration that [getConfig] returns follows the
    environment: registration is allowed exactly when [AUTH_MODE] is not
    [azure_ad], Azure AD is enabled exactly when it is and its three
    settings are set, and the mode, the organization and the three
    settings are those of the environment where it sets them; what the
    stored document said before does not matter.  The collection has the
    returned document first and the documents it had after it. *)
Theorem getConfig_follows_the_environment
    (env : Env.t) (configs configs' : list AppConfig.t) (c : AppConfig.t) :
  getConfig env configs = (configs', inr c) ->
  configs' = c :: tl configs
  /\ AppConfig.allowRegistration c
     = negb (equals (Env.AUTH_MODE env) "azure_ad")
  /\ AppConfig.enabled c = Boolean (shouldEnableAzureAd env)
  /\ follows (Env.AUTH_MODE env) (Some (AppConfig.authMode c))
  /\ follows (Env.DEFAULT_ORGANIZATION env)
             (Some (AppConfig.defaultOrganization c))
  /\ follows (Env.AZURE_AD_CLIENT_ID env) (AppConfig.clientId c)
  /\ follows (Env.AZURE_AD_CLIENT_SECRET env) (AppConfig.clientSecret c)
  /\ follows (Env.AZURE_AD_TENANT_ID env) (AppConfig.tenantId c).
Proof.
  unfold getConfig. destruct configs as [|config rest].
  - destruct (create env) as [e|c'] eqn:Hcreate; intros H; inversion H.
    subst. split; [reflexivity|]. now apply create_returns.
  - destruct (update env config) as [e|c'] eqn:Hupdate; intros H; inversion H.
    subst. split; [reflexivity|]. now apply (update_returns env config).
Qed.

Lemma getConfig_follows_the_environment_witness :
  let c :=
    AppConfig.mk "azure_ad" (Some "client-1") (Some "hush") (Some "tenant-1")
      true false "acme" in
  getConfig Sample_config.azure_env [Sample_config.closed] = ([c], inr c)
  /\ AppConfig.allowRegistration c = false
  /\ AppConfig.enabled c = true.
Proof.
  intros c.
  destruct (getConfig_follows_the_environment Sample_config.azure_env
              [Sample_config.closed] [c] c eq_refl)
    as (_ & Hallow & Henabled & _).
  split; [reflexivity|]. split; [exact Hallow|exact Henabled].
Defined.

(** X27.  Reading the configuration again changes nothing: when
    [getConfig] has returned, a second call under the same environment
    leaves the collection as the first left it and returns the same
    document. *)
Theorem getConfig_again
    (env : Env.t) (configs configs' : list AppConfig.t) (c : AppConfig.t) :
  getConfig env configs = (configs', inr c) ->
  getConfig env configs' = (configs', inr c).
Proof.
  intros H.
  assert (Hc : configs' = c :: tl configs
               /\ update env c = inr c).
  { unfold getConfig in H. destruct configs as [|config rest].
    - destruct (create env) as [e|c'] eqn:Hcreate; inversion H. subst.
      split; [reflexivity|].
      destruct (create_returns env c Hcreate) as (? & ? & ? & ? & ? & ? & ?).
      now apply update_settled.
    - destruct (update env config) as [e|c'] eqn:Hupdate; inversion H. subst.
      split; [reflexivity|].
      destruct (update_returns env config c Hupdate)
        as (? & ? & ? & ? & ? & ? & ?).
      now apply update_settled. }
  destruct Hc as [-> Hupdate]. unfold getConfig. now rewrite Hupdate.
Qed.

Lemma getConfig_again_witness :
  getConfig Sample_config.azure_env
    (fst (getConfig Sample_config.azure_env [Sample_config.closed]))
  = getConfig Sample_config.azure_env [Sample_config.closed].
Proof.
  exact (getConfig_again Sample_config.azure_env [Sample_config.closed]
           [Sample_config.azure] Sample_config.azure eq_refl).
Defined.

Lemma take_flag (v : option string) (stored : AppConfig.t -> option string)
    (set : string -> AppConfig.t -> AppConfig.t) (st : AppConfig.t * bool) :
  snd st = true -> snd (take v stored set st) = true.
Proof.
  intros H. unfold take. destruct v as [x|]; [|exact H].
  destruct (negb (String.eqb x "") && negb (equals (stored (fst st)) x));
    [reflexivity|exact H].
Qed.

Lemma azure_ad_is_a_mode (m : string) :
  String.eqb m "azure_ad" = true -> authMode_enum m = true.
Proof. intros H. unfold authMode_enum. rewrite H. apply orb_true_r. Qed.

Lemma azure_ad_is_set (m : string) :
  String.eqb m "azure_ad" = true -> String.eqb m "" = false.
Proof. intros H. apply String.eqb_eq in H. now subst. Qed.

(** When [create] throws. *)
Lemma create_throws (env : Env.t) :
  throws (create env) = unusable_mode env.
Proof.
  unfold create, unusable_mode, truthy. cbv zeta.
  destruct env as [[m|] o i s t];
    cbn [Env.AUTH_MODE Env.AZURE_AD_CLIENT_ID Env.AZURE_AD_CLIENT_SECRET
         Env.AZURE_AD_TENANT_ID equals or_string of_env Boolean];
    [|reflexivity].
  destruct (String.eqb m "azure_ad") eqn:Ea.
  - rewrite (azure_ad_is_set m Ea).
    cbn [AppConfig.authMode negb andb]. rewrite (azure_ad_is_a_mode m Ea).
    destruct (Boolean (of_env i)), (Boolean (of_env s)), (Boolean (of_env t));
      reflexivity.
  - cbn [andb orb AppConfig.authMode].
    destruct (String.eqb m "") eqn:Em; cbn [negb andb].
    + reflexivity.
    + destruct (authMode_enum m); reflexivity.
Qed.

(** [update] in its two parts. *)
Lemma update_eq (env : Env.t) (config : AppConfig.t) :
  update env config
  = match Env.AUTH_MODE env with
    | Some m =>
        if negb (String.eqb m "")
           && negb (String.eqb (AppConfig.authMode config) m)
        then
          if String.eqb m "azure_ad"
             && (negb (truthy (Env.AZURE_AD_CLIENT_ID env))
                 || negb (truthy (Env.AZURE_AD_CLIENT_SECRET env))
                 || negb (truthy (Env.AZURE_AD_TENANT_ID env)))
          then inl incomplete_azure_ad
          else save_updated config
                 (settle env (AppConfig.set_authMode m config, true))
        else save_updated config (settle env (config, false))
    | None => save_updated config (settle env (config, false))
    end.
Proof.
  unfold update, save_updated, settle. cbv zeta.
  destruct (Env.AUTH_MODE env) as [m|]; [|reflexivity].
  destruct (negb (String.eqb m "")
            && negb (String.eqb (AppConfig.authMode config) m));
    [|reflexivity].
  destruct (String.eqb m "azure_ad"
            && (negb (truthy (Env.AZURE_AD_CLIENT_ID env))
                || negb (truthy (Env.AZURE_AD_CLIENT_SECRET env))
                || negb (truthy (Env.AZURE_AD_TENANT_ID env))));
    reflexivity.
Qed.

Lemma settle_authMode (env : Env.t) (st : AppConfig.t * bool) :
  AppConfig.authMode (fst (settle env st)) = AppConfig.authMode (fst st).
Proof.
  unfold settle. cbv zeta.
  repeat match goal with
         | |- context [if ?b then _ else _] => destruct b
         end;
    cbn [fst AppConfig.authMode AppConfig.set_enabled
         AppConfig.set_allowRegistration];
    rewrite !(take_keeps AppConfig.authMode) by reflexivity; reflexivity.
Qed.

Lemma settle_flag (env : Env.t) (st : AppConfig.t * bool) :
  snd st = true -> snd (settle env st) = true.
Proof.
  intros H. unfold settle. cbv zeta.
  repeat match goal with
         | |- context [if ?b then _ else _] => destruct b
         end; cbn [snd]; try reflexivity.
  repeat apply take_flag. exact H.
Qed.

(** [save] does not throw when the mode was not written. *)
Lemma save_updated_same_mode (env : Env.t) (config : AppConfig.t) (b : bool) :
  throws (save_updated config (settle env (config, b))) = false.
Proof.
  unfold save_updated. rewrite settle_authMode. cbn [fst].
  rewrite String.eqb_refl. cbn [negb andb].
  destruct (snd (settle env (config, b))); reflexivity.
Qed.

(** [save] throws for a mode that was written and is none of the two. *)
Lemma save_updated_new_mode (env : Env.t) (config : AppConfig.t) (m : string) :
  String.eqb (AppConfig.authMode config) m = false ->
  throws (save_updated config
            (settle env (AppConfig.set_authMode m config, true)))
  = negb (authMode_enum m).
Proof.
  intros Hm. unfold save_updated.
  rewrite settle_flag by reflexivity. rewrite settle_authMode.
  cbn [fst AppConfig.authMode AppConfig.set_authMode].
  rewrite (String.eqb_sym m (AppConfig.authMode config)), Hm.
  cbn [negb andb]. destruct (authMode_enum m); reflexivity.
Qed.

(** When [update] throws. *)
Lemma update_throws (env : Env.t) (config : AppConfig.t)
    (rest : list AppConfig.t) :
  throws (update env config)
  = takes_mode env (config :: rest) && unusable_mode env.
Proof.
  rewrite update_eq. unfold takes_mode, unusable_mode, truthy.
  destruct (Env.AUTH_MODE env) as [m|];
    cbn [equals of_env Boolean or_string];
    [|apply save_updated_same_mode].
  rewrite (String.eqb_sym m (AppConfig.authMode config)).
  destruct (String.eqb m "") eqn:Em; cbn [negb andb];
    [apply save_updated_same_mode|].
  destruct (String.eqb (AppConfig.authMode config) m) eqn:Ea; cbn [negb andb];
    [apply save_updated_same_mode|].
  destruct (String.eqb m "azure_ad") eqn:Eaz; cbn [andb orb].
  - rewrite (azure_ad_is_a_mode m Eaz). cbn [negb]. rewrite orb_false_r.
    destruct (Boolean (of_env (Env.AZURE_AD_CLIENT_ID env))),
      (Boolean (of_env (Env.AZURE_AD_CLIENT_SECRET env))),
      (Boolean (of_env (Env.AZURE_AD_TENANT_ID env)));
      cbn [negb andb orb throws]; try reflexivity.
    rewrite (save_updated_new_mode env config m Ea).
    now rewrite (azure_ad_is_a_mode m Eaz).
  - apply (save_updated_new_mode env config m Ea).
Qed.

(** X28.  [getConfig] throws exactly when it has to take a mode from the
    environment, on the first start or because [AUTH_MODE] is set and
    differs from the stored mode, and that mode is unusable: [azure_ad]
    without one of its three settings, or none of the two modes.  When it
    throws, the collection is as it was. *)
Theorem getConfig_throws_on_an_unusable_mode
    (env : Env.t) (configs : list AppConfig.t) :
  throws (snd (getConfig env configs))
  = takes_mode env configs && unusable_mode env
  /\ (throws (snd (getConfig env configs)) = true ->
      fst (getConfig env configs) = configs).
Proof.
  unfold getConfig. destruct configs as [|config rest].
  - pose proof (create_throws env) as H.
    destruct (create env); cbn [fst snd throws takes_mode andb] in *;
      split; try exact H; try reflexivity; discriminate.
  - pose proof (update_throws env config rest) as H.
    destruct (update env config); cbn [fst snd throws] in *;
      split; try exact H; try reflexivity; discriminate.
Qed.

Lemma getConfig_throws_on_an_unusable_mode_witness :
  getConfig Sample_config.half_azure_env []
  = ([], inl client_id_required)
  /\ getConfig Sample_config.half_azure_env [Sample_config.closed]
     = ([Sample_config.closed], inl incomplete_azure_ad)
  /\ throws (snd (getConfig Sample_config.half_azure_env
                    [Sample_config.azure])) = false.
Proof.
  split; [reflexivity|]. split; [reflexivity|].
  rewrite (proj1 (getConfig_throws_on_an_unusable_mode
                    Sample_config.half_azure_env [Sample_config.azure])).
  reflexivity.
Defined.

Lemma assign_truthy_keeps {A} (p : AppConfig.t -> A) (v : option string)
    (set : string -> AppConfig.t -> AppConfig.t) (c : AppConfig.t) :
  (forall x c, p (set x c) = p c) -> p (assign_truthy v set c) = p c.
Proof.
  intros Hset. unfold assign_truthy. destruct v as [x|]; [|reflexivity].
  destruct (String.eqb x ""); [reflexivity|apply Hset].
Qed.

(** X29.  What the administrator writes for [allowRegistration] does not
    last: [PUT /config] stores the value of the body, but under an
    environment whose mode is usable the next [getConfig] returns, with
    [allowRegistration] and [azureAd.enabled] as the environment has them,
    whatever the body said. *)
Theorem put_config_does_not_last
    (env : Env.t) (us : list User.t) (user : ReqUser.t) (b : ConfigBody.t)
    (configs configs1 : list AppConfig.t) :
  put_config env us user b configs = (configs1, configuration_updated) ->
  unusable_mode env = false ->
  exists stored c,
    configs1 = stored :: tl configs1
    /\ (forall v, ConfigBody.allowRegistration b = Some v ->
                  AppConfig.allowRegistration stored = v)
    /\ getConfig env configs1 = (c :: tl configs1, inr c)
    /\ AppConfig.allowRegistration c
       = negb (equals (Env.AUTH_MODE env) "azure_ad")
    /\ AppConfig.enabled c = Boolean (shouldEnableAzureAd env).
Proof.
  intros Hput Husable. unfold put_config in Hput.
  destruct (requireAdmin us user); [|discriminate].
  destruct (getConfig env configs) as [cfgs [e|stored0]]; [discriminate|].
  cbv zeta in Hput.
  match type of Hput with
  | (if _ then _ else (?config :: _, _)) = _ => set (stored := config) in Hput
  end.
  match type of Hput with
  | (if ?cond then _ else _) = _ => destruct cond; [discriminate|]
  end.
  inversion Hput as [Hconfigs]. clear Hput.
  assert (Hthrows : throws (update env stored) = false).
  { rewrite (update_throws env stored (tl cfgs)), Husable.
    apply andb_false_r. }
  destruct (update env stored) as [e|c] eqn:Hupdate; [discriminate|].
  exists stored, c. cbn [tl getConfig]. rewrite Hupdate.
  split; [reflexivity|]. split; [|split; [reflexivity|]].
  - intros v Hv. unfold stored. rewrite Hv.
    destruct (ConfigBody.azureAd b) as [azureAd|].
    + destruct (AzureAdBody.enabled azureAd); cbn [assign_boolean];
        cbn [AppConfig.allowRegistration AppConfig.set_enabled];
        rewrite !(assign_truthy_keeps AppConfig.allowRegistration)
          by reflexivity;
        reflexivity.
    + rewrite !(assign_truthy_keeps AppConfig.allowRegistration)
        by reflexivity.
      reflexivity.
  - destruct (update_returns env stored c Hupdate) as (Hallow & Henabled & _).
    split; assumption.
Qed.

Lemma put_config_does_not_last_witness :
  let b := ConfigBody.mk None (Some false) None None in
  let written :=
    put_config Sample_config.local_env [Sample_config.root]
      Sample_config.as_root b [] in
  written = ([Sample_config.closed], configuration_updated)
  /\ exists c,
       getConfig Sample_config.local_env (fst written) = ([c], inr c)
       /\ AppConfig.allowRegistration c = true.
Proof.
  intros b written. split; [reflexivity|].
  destruct (put_config_does_not_last Sample_config.local_env
              [Sample_config.root] Sample_config.as_root b []
              [Sample_config.closed] eq_refl eq_refl)
    as (stored & c & _ & _ & Hget & Hallow & _).
  exists c. split; [exact Hget|exact Hallow].
Defined.
